(** * The indexing and retrieval engine of ai-skating, embedded in Rocq

    The development follows the Python sources module by module:
    - [TextChunker]              src/transformer/chunker.py
    - [EmbeddingGenerator]       src/transformer/embedder.py
    - [VectorStore]              src/transformer/vector_store.py
    - [AthleteIndexingPipeline]  src/transformer/pipeline.py
    - [FAISSRetriever]           src/generator/retriever.py

    Python dictionaries are [gmap]s, Python sets are [gset]s, lists are lists,
    integers are [Z], strings are strings of one-byte characters.
    Collaborators that live outside the repository (the
    tokenizer, the sentence-transformer model, FAISS' numeric kernels) are
    fields of records or members of a class, exactly where the Python objects
    hold them. *)

From stdpp Require Import base gmap sets list strings pretty.
From Stdlib Require Import ZArith Lia.
From Stdlib Require Reals Lra.

Local Open Scope Z_scope.

(** ** Python values and built-ins *)

(** The values that occur in the dictionaries of the engine. *)
Inductive PyVal :=
  | VNone
  | VStr (s : string)
  | VInt (z : Z)
  | VDatetime (t : Z).

#[global] Instance PyVal_eq_dec : EqDecision PyVal.
Proof. solve_decision. Defined.

#[global] Instance PyVal_countable : Countable PyVal.
Proof.
  refine (inj_countable'
    (λ v, match v with
          | VNone => inl ()
          | VStr s => inr (inl s)
          | VInt z => inr (inr (inl z))
          | VDatetime t => inr (inr (inr t))
          end)
    (λ x, match x with
          | inl _ => VNone
          | inr (inl s) => VStr s
          | inr (inr (inl z)) => VInt z
          | inr (inr (inr t)) => VDatetime t
          end) _).
  by intros [].
Defined.

(** Truth value of a Python object, as tested by [if x] and [not x]. *)
Definition truthy (v : PyVal) : bool :=
  match v with
  | VNone => false
  | VStr s => negb (bool_decide (s = ""))
  | VInt z => negb (z =? 0)
  | VDatetime _ => true
  end.

Definition str_truthy (s : string) : bool := negb (bool_decide (s = "")).

(** Truth value of an optional argument such as [athlete_name: Optional[str]]:
    [None] and the empty string are both false. *)
Definition opt_truthy (o : option string) : bool :=
  match o with
  | None => false
  | Some s => str_truthy s
  end.

(** [str(v)], as used by f-strings. *)
Definition py_str (v : PyVal) : string :=
  match v with
  | VNone => "None"
  | VStr s => s
  | VInt z => pretty z
  | VDatetime t => pretty t
  end.

(** [d.get(k)]: a missing key reads as [None]. *)
Definition dict_get (d : gmap string PyVal) (k : string) : PyVal :=
  default VNone (d !! k).

(** [str.isspace] on the ASCII range. *)
Definition is_space (a : Ascii.ascii) : bool :=
  let n := Ascii.N_of_ascii a in
  ((9 <=? n) && (n <=? 13) || (28 <=? n) && (n <=? 32))%N.

Fixpoint lstrip (s : string) : string :=
  match s with
  | EmptyString => EmptyString
  | String a s' => if is_space a then lstrip s' else s
  end.

Definition rstrip (s : string) : string := String.rev (lstrip (String.rev s)).

(** [s.strip()] *)
Definition strip (s : string) : string := rstrip (lstrip s).

(** [len(s)] *)
Definition len_str (s : string) : Z := Z.of_nat (String.length s).

(** [sep.join(parts)] *)
Fixpoint join (sep : string) (parts : list string) : string :=
  match parts with
  | [] => ""
  | [p] => p
  | p :: ps => p +:+ sep +:+ join sep ps
  end.

(** The one-character string holding a line feed. *)
Definition newline : string := String (Ascii.ascii_of_nat 10) "".

(** Normalisation of one bound of a slice [l[i:j]]: negative bounds count
    from the end, and every bound is clamped to [0, len]. *)
Definition slice_bound (len i : Z) : Z :=
  if i <? 0 then Z.max (i + len) 0 else Z.min i len.

(** [l[start:stop]] *)
Definition py_slice {A} (l : list A) (start stop : Z) : list A :=
  let n := Z.of_nat (length l) in
  let a := slice_bound n start in
  let b := slice_bound n stop in
  take (Z.to_nat (b - a)) (drop (Z.to_nat a) l).

(** ** chunker.py *)

Module TextChunker.

(** The [tiktoken] encoding held in [self.encoding]. *)
Record Encoding := {
  encode : string → list Z;
  decode : list Z → string
}.

Record TextChunk := {
  text : string;
  metadata : gmap string PyVal;
  chunk_index : Z;
  token_count : Z
}.

Record t := {
  chunk_size : Z;
  chunk_overlap : Z;
  encoding : Encoding
}.

(** The document dictionaries built by [fetch_documents]. *)
Record Document := {
  _id : string;
  markdown : string;
  athlete_name : string;
  topic : string;
  url : string;
  title : string;
  status_code : option Z;
  scraped_at : Z;
  created_at : Z;
  web_index : Z;
  original_doc_id : string
}.

Definition _build_metadata_prefix (metadata : gmap string PyVal) : string :=
  let parts := [] in
  let parts :=
    if truthy (dict_get metadata "athlete_name")
    then parts ++ ["Athlete: " +:+ py_str (dict_get metadata "athlete_name")]
    else parts in
  let parts :=
    if truthy (dict_get metadata "topic")
    then parts ++ ["Topic: " +:+ py_str (dict_get metadata "topic")]
    else parts in
  let parts :=
    if truthy (dict_get metadata "title")
    then parts ++ ["Title: " +:+ py_str (dict_get metadata "title")]
    else parts in
  match parts with
  | [] => ""
  | _ => join " | " parts +:+ newline +:+ newline
  end.

Definition count_tokens (self : t) (s : string) : Z :=
  Z.of_nat (length (encode (encoding self) s)).

(** The [while start < total_tokens] loop of [split_text].  The loop has no
    bound of its own (it never ends when [chunk_size - chunk_overlap <= 0]),
    so the model counts iterations down from [fuel]; [None] is a run that
    has not ended within [fuel] iterations. *)
Fixpoint split_loop (self : t) (fuel : nat) (tokens : list Z)
    (metadata : gmap string PyVal) (start chunk_index : Z)
    (chunks : list TextChunk) : option (list TextChunk) :=
  let total_tokens := Z.of_nat (length tokens) in
  if start <? total_tokens then
    match fuel with
    | O => None
    | S fuel' =>
        let end_ := Z.min (start + chunk_size self) total_tokens in
        let chunk_tokens := py_slice tokens start end_ in
        let chunk_text := decode (encoding self) chunk_tokens in
        let chunk := {| text := chunk_text;
                        metadata := <["chunk_index" := VInt chunk_index]> metadata;
                        chunk_index := chunk_index;
                        token_count := Z.of_nat (length chunk_tokens) |} in
        split_loop self fuel' tokens metadata
          (start + (chunk_size self - chunk_overlap self))
          (chunk_index + 1) (chunks ++ [chunk])
    end
  else Some chunks.

(** The text that is tokenized: the metadata prefix, when asked for,
    followed by the text. *)
Definition prefixed_text (s : string) (metadata : gmap string PyVal)
    (prepend_metadata : bool) : string :=
  if prepend_metadata then _build_metadata_prefix metadata +:+ s else s.

(** [split_text]; the iteration budget is the number of tokens, which the
    loop cannot exceed when it advances by at least one token a round. *)
Definition split_text (self : t) (s : string) (metadata : gmap string PyVal)
    (prepend_metadata : bool) : option (list TextChunk) :=
  if negb (str_truthy s) || negb (str_truthy (strip s)) then Some []
  else
    let s := prefixed_text s metadata prepend_metadata in
    let tokens := encode (encoding self) s in
    let total_tokens := Z.of_nat (length tokens) in
    if total_tokens <=? chunk_size self then
      Some [ {| text := s; metadata := metadata; chunk_index := 0;
                token_count := total_tokens |} ]
    else
      split_loop self (length tokens) tokens metadata 0 0 [].

Definition document_metadata (doc : Document) : gmap string PyVal :=
  <["source_doc_id" := VStr (_id doc)]>
  (<["athlete_name" := VStr (athlete_name doc)]>
  (<["topic" := VStr (topic doc)]>
  (<["url" := VStr (url doc)]>
  (<["title" := VStr (title doc)]>
  (<["scraped_at" := VDatetime (scraped_at doc)]>
  (<["created_at" := VDatetime (created_at doc)]> ∅)))))).

(** [split_documents] with [text_field = "markdown"]; the fall-back fields
    [text] and [content] are absent from the pipeline's documents, so a
    document with an empty [markdown] is skipped. *)
Fixpoint split_documents_loop (self : t) (documents : list Document)
    (prepend_metadata : bool) (all_chunks : list TextChunk)
    : option (list TextChunk) :=
  match documents with
  | [] => Some all_chunks
  | doc :: rest =>
      if negb (str_truthy (markdown doc)) then
        split_documents_loop self rest prepend_metadata all_chunks
      else
        match split_text self (markdown doc) (document_metadata doc)
                prepend_metadata with
        | None => None
        | Some chunks =>
            split_documents_loop self rest prepend_metadata
              (all_chunks ++ chunks)
        end
  end.

Definition split_documents (self : t) (documents : list Document)
    (prepend_metadata : bool) : option (list TextChunk) :=
  split_documents_loop self documents prepend_metadata [].

End TextChunker.

(** ** Exceptions, outcomes and the world outside the process *)

(** The exceptions the engine raises or catches; [str(e)] is the message. *)
Inductive PyExn :=
  | FileNotFoundError (msg : string)
  | Exception (msg : string).

Definition exn_str (e : PyExn) : string :=
  match e with
  | FileNotFoundError msg => msg
  | Exception msg => msg
  end.

(** What a call can do: return, raise, or run forever. *)
Inductive Outcome (A : Type) :=
  | Return (a : A)
  | Raise (e : PyExn)
  | Diverge.
Arguments Return {A} a.
Arguments Raise {A} e.
Arguments Diverge {A}.

Inductive LogLevel := DEBUG | INFO | WARNING | ERROR.

Record LogRecord := { level : LogLevel; message : string }.

(** FAISS and numpy work on 32-bit floats.  The engine only moves such
    numbers around, compares two of them, and hands vectors to two FAISS
    kernels; these are the members of the class. *)
Class Faiss := {
  float : Type;
  (** [a < b] *)
  float_lt : float → float → bool;
  (** [faiss.normalize_L2], as the row it leaves behind *)
  normalize_L2 : list float → list float;
  (** [IndexFlatIP.search(query, k)] over the stored rows: the first row of
      the two result arrays, zipped as (score, id), with id -1 as padding *)
  IndexFlatIP_search : list (list float) → list float → Z → list (float * Z)
}.

(** A persisted file is readable or not. *)
Inductive Readable (A : Type) :=
  | Corrupt (msg : string)
  | Content (a : A).
Arguments Corrupt {A} msg.
Arguments Content {A} a.

(** An [ObjectId] of the metadata collection.  [str] and [ObjectId(...)] are
    inverse to each other on the keys the engine writes, so the id-mapping is
    modelled as holding the [ObjectId] itself. *)
Definition ObjectId := nat.

Section World.
Context `{Faiss}.

(** The dictionary pickled into [id_mapping.pkl]; a missing key is [None]. *)
Record Pickle := {
  pkl_mapping : option (gmap Z ObjectId);
  pkl_next_id : option Z
}.

(** What a write that raises leaves behind: the file as it was, or a file
    that can no longer be read. *)
Inductive WriteFault := Untouched | Truncated.

(** The directory [index_path]: [faiss.index] and [id_mapping.pkl].  A file
    that can be read is held as the value that was written to it:
    [faiss.read_index] gives back what [faiss.write_index] wrote, [pickle.load]
    what [pickle.dump] wrote.  [write_faults] scripts the coming writes to
    the directory: [None] (or an exhausted script) lets a write succeed,
    [Some w] makes it raise and leave the file as [w] says. *)
Record Disk := {
  index_file : option (Readable (list (list float)));
  mapping_file : option (Readable Pickle);
  write_faults : list (option WriteFault)
}.

(** The file after one write of [content] under the fault [w]. *)
Definition write_file {A} (w : option WriteFault) (old : option (Readable A))
    (content : A) : option (Readable A) :=
  match w with
  | None => Some (Content content)
  | Some Untouched => old
  | Some Truncated => Some (Corrupt "truncated file")
  end.

(** One entry of a crawled document's [web] array. *)
Record WebMetadata := {
  sourceURL : option string;
  wm_title : option string;
  statusCode : option Z
}.

Record WebItem := {
  wi_markdown : option string;
  wi_html : option string;
  wi_rawHtml : option string;
  wi_metadata : WebMetadata
}.

(** A document of the source collection. *)
Record RawDoc := {
  raw_id : string;
  raw_athlete_name : string;
  raw_topic : option string;
  raw_web : list WebItem
}.

(** A document of the [_metadata] collection, as [index_chunks] writes it. *)
Record MetaDoc := {
  md_id : ObjectId;
  faiss_id : Z;
  md_text : string;
  md_athlete_name : PyVal;
  md_chunk_index : Z;
  md_token_count : Z;
  md_metadata : gmap string PyVal;
  md_embedding_model : string;
  md_embedding_dimension : Z;
  indexed_at : Z
}.

(** The MongoDB database.  [insert_faults] scripts the server's answers to
    the coming [insert_one] calls: [true] makes the call raise, [false] (or
    an exhausted script) lets it succeed. *)
Record Mongo := {
  source_collection : list RawDoc;
  metadata_collection : list MetaDoc;
  next_object_id : ObjectId;
  insert_faults : list bool
}.

(** Everything outside the Python process.  [clock] is what
    [datetime.utcnow()] reads. *)
Record Env := {
  mongo : Mongo;
  disk : Disk;
  clock : Z
}.

(** [collection.find_one({"_id": oid})] *)
Definition find_by_id (docs : list MetaDoc) (oid : ObjectId) : option MetaDoc :=
  List.find (λ d, bool_decide (md_id d = oid)) docs.

(** [collection.find_one({"metadata.source_doc_id": sid, "chunk_index": ci})];
    a [None] in the filter matches a missing field. *)
Definition find_duplicate (docs : list MetaDoc) (sid : PyVal) (ci : Z)
    : option MetaDoc :=
  List.find (λ d, bool_decide (dict_get (md_metadata d) "source_doc_id" = sid)
                  && bool_decide (md_chunk_index d = ci)) docs.

(** [collection.insert_one(doc)]: consumes one entry of the fault script;
    on success the document is stored under a fresh [ObjectId]. *)
Definition insert_one (db : Mongo) (mk : ObjectId → MetaDoc)
    : (PyExn + ObjectId) * Mongo :=
  match insert_faults db with
  | true :: faults =>
      (inl (Exception "insert_one failed"),
       {| source_collection := source_collection db;
          metadata_collection := metadata_collection db;
          next_object_id := next_object_id db;
          insert_faults := faults |})
  | faults =>
      let oid := next_object_id db in
      (inr oid,
       {| source_collection := source_collection db;
          metadata_collection := metadata_collection db ++ [mk oid];
          next_object_id := S oid;
          insert_faults := tail faults |})
  end.

End World.

(** ** embedder.py *)

Module EmbeddingGenerator.
Section EmbeddingGenerator.
Context `{Faiss}.

(** The chunk dictionaries built by the pipeline's [split_into_chunks]. *)
Record ChunkDict := {
  text : string;
  metadata : gmap string PyVal;
  chunk_index : Z;
  token_count : Z;
  athlete_name : PyVal
}.

(** A chunk dictionary after [embed_chunks]: a copy with three more keys. *)
Record EnrichedChunk := {
  chunk : ChunkDict;
  embedding : list float;
  embedding_model : string;
  embedding_dimension : Z
}.

(** The [SentenceTransformer] model: a call can raise. *)
Record SentenceTransformer := {
  encode : list string → PyExn + list (list float);
  encode_one : string → PyExn + list float;
  get_sentence_embedding_dimension : Z
}.

Record t := {
  model_name : string;
  model : SentenceTransformer
}.

Definition dimension (self : t) : Z :=
  get_sentence_embedding_dimension (model self).

Definition embed_text (self : t) (s : string) : PyExn + list float :=
  encode_one (model self) s.

Definition embed_batch (self : t) (texts : list string)
    : PyExn + list (list float) :=
  match texts with
  | [] => inr []
  | _ => encode (model self) texts
  end.

(** [zip] stops at the shorter of the two lists. *)
Definition embed_chunks (self : t) (chunks : list ChunkDict)
    : PyExn + list EnrichedChunk :=
  match chunks with
  | [] => inr []
  | _ =>
      let texts := map text chunks in
      match embed_batch self texts with
      | inl e => inl e
      | inr embeddings =>
          inr (zip_with
                 (λ c e, {| chunk := c; embedding := e;
                            embedding_model := model_name self;
                            embedding_dimension := dimension self |})
                 chunks embeddings)
      end
  end.

End EmbeddingGenerator.
End EmbeddingGenerator.

(** ** vector_store.py *)

Module VectorStore.
Section VectorStore.
Context `{Faiss}.
Import EmbeddingGenerator.

(** The Python object: the FAISS index is the list of its rows, so
    [index.ntotal] is the length of the list and the id of a row is its
    position. *)
Record t := {
  embedding_dimension : Z;
  index : list (list float);
  faiss_id_to_metadata_id : gmap Z ObjectId;
  next_faiss_id : Z
}.

Definition ntotal (self : t) : Z := Z.of_nat (length (index self)).

(** The state [__init__] sets up before it calls [_load_index]. *)
Definition fresh (embedding_dimension : Z) : t :=
  {| embedding_dimension := embedding_dimension;
     index := [];
     faiss_id_to_metadata_id := ∅;
     next_faiss_id := 0 |}.

Definition reset (self : t) : t := fresh (embedding_dimension self).

Definition _load_index (self : t) (d : Disk) : t * list LogRecord :=
  match index_file d, mapping_file d with
  | Some fi, Some fm =>
      let failed :=
        (reset self,
         [{| level := WARNING;
             message := "Fehler beim Laden des Index. Erstelle neuen Index." |}]) in
      match fi with
      | Corrupt _ => failed
      | Content idx =>
          match fm with
          | Corrupt _ => failed
          | Content data =>
              match pkl_mapping data, pkl_next_id data with
              | Some m, Some n =>
                  ({| embedding_dimension := embedding_dimension self;
                      index := idx;
                      faiss_id_to_metadata_id := m;
                      next_faiss_id := n |},
                   [{| level := INFO; message := "FAISS Index geladen" |}])
              | _, _ => failed
              end
          end
      end
  | _, _ =>
      (self,
       [{| level := INFO;
           message := "Kein existierender Index gefunden. Starte mit leerem Index." |}])
  end.

(** [VectorStore(...)]: the constructor. *)
Definition init (embedding_dimension : Z) (d : Disk) : t * list LogRecord :=
  _load_index (fresh embedding_dimension) d.

(** [_save_index]: the index file is written, then the mapping file, inside
    one [try]; a write that raises ends the attempt, the error is logged and
    the call returns as if nothing had happened.  The result is the directory
    it leaves and what it logs. *)
Definition _save_index (self : t) (d : Disk) : Disk * list LogRecord :=
  let pickled := {| pkl_mapping := Some (faiss_id_to_metadata_id self);
                    pkl_next_id := Some (next_faiss_id self) |} in
  let failed := [{| level := ERROR; message := "Fehler beim Speichern des Index" |}] in
  match write_faults d with
  | Some w :: faults =>
      ({| index_file := write_file (Some w) (index_file d) (index self);
          mapping_file := mapping_file d;
          write_faults := faults |}, failed)
  | faults =>
      match tail faults with
      | Some w :: faults' =>
          ({| index_file := Some (Content (index self));
              mapping_file := write_file (Some w) (mapping_file d) pickled;
              write_faults := faults' |}, failed)
      | faults' =>
          ({| index_file := Some (Content (index self));
              mapping_file := Some (Content pickled);
              write_faults := tail faults' |},
           [{| level := DEBUG; message := "FAISS Index gespeichert" |}])
      end
  end.

(** The state of the [for chunk in chunks] loop of [index_chunks]. *)
Record Loop := {
  self_ : t;
  db : Mongo;
  inserted_count : Z;
  embeddings_to_add : list (list float)
}.

(** The dictionary [index_chunks] stores for a chunk: its [faiss_id] is the
    counter at that time, its [_id] is assigned by the database. *)
Definition metadata_document (faiss_id : Z) (now : Z) (c : EnrichedChunk)
    (oid : ObjectId) : MetaDoc :=
  {| md_id := oid;
     faiss_id := faiss_id;
     md_text := text (chunk c);
     md_athlete_name := athlete_name (chunk c);
     md_chunk_index := chunk_index (chunk c);
     md_token_count := token_count (chunk c);
     md_metadata := metadata (chunk c);
     md_embedding_model := embedding_model c;
     md_embedding_dimension := EmbeddingGenerator.embedding_dimension c;
     indexed_at := now |}.

(** [len(embedding) == 0 or len(embedding) != self.embedding_dimension] *)
Definition invalid_embedding (self : t) (c : EnrichedChunk) : bool :=
  let n := Z.of_nat (length (embedding c)) in
  (n =? 0) || negb (n =? embedding_dimension self).

(** [self.metadata_collection.find_one(duplicate_filter)] is true. *)
Definition is_duplicate (docs : list MetaDoc) (c : EnrichedChunk) : bool :=
  bool_decide (is_Some
    (find_duplicate docs (dict_get (metadata (chunk c)) "source_doc_id")
       (chunk_index (chunk c)))).

(** The body of the [for chunk in chunks] loop. *)
Definition index_chunk (skip_duplicates : bool) (now : Z)
    (st : Loop) (c : EnrichedChunk) : Loop :=
  let self := self_ st in
  if skip_duplicates && is_duplicate (metadata_collection (db st)) c then st
  else if invalid_embedding self c then st
  else
    let normalized := normalize_L2 (embedding c) in
    match insert_one (db st) (metadata_document (next_faiss_id self) now c) with
    | (inr metadata_id, db') =>
        {| self_ :=
             {| embedding_dimension := embedding_dimension self;
                index := index self;
                faiss_id_to_metadata_id :=
                  <[next_faiss_id self := metadata_id]>
                    (faiss_id_to_metadata_id self);
                next_faiss_id := next_faiss_id self + 1 |};
           db := db';
           inserted_count := inserted_count st + 1;
           embeddings_to_add := embeddings_to_add st ++ [normalized] |}
    | (inl _, db') =>
        {| self_ := self; db := db';
           inserted_count := inserted_count st;
           embeddings_to_add := embeddings_to_add st |}
    end.

Definition index_chunks (self : t) (env : Env) (chunks : list EnrichedChunk)
    (skip_duplicates : bool) : Z * t * Env :=
  match chunks with
  | [] => (0, self, env)
  | _ =>
      let now := clock env in
      let st := foldl (index_chunk skip_duplicates now)
                  {| self_ := self; db := mongo env;
                     inserted_count := 0; embeddings_to_add := [] |}
                  chunks in
      let self := self_ st in
      match embeddings_to_add st with
      | [] => (inserted_count st, self,
               {| mongo := db st; disk := disk env; clock := clock env |})
      | rows =>
          let self :=
            {| embedding_dimension := embedding_dimension self;
               index := index self ++ rows;
               faiss_id_to_metadata_id := faiss_id_to_metadata_id self;
               next_faiss_id := next_faiss_id self |} in
          (inserted_count st, self,
           {| mongo := db st; disk := (_save_index self (disk env)).1;
              clock := clock env |})
      end
  end.

(** [get_indexed_doc_ids]: [$match] on the athlete, [$group] on
    [metadata.source_doc_id], and the set of the group keys that are true. *)
Definition get_indexed_doc_ids (env : Env) (athlete_name : string)
    : gset PyVal :=
  let matched :=
    List.filter (λ d, bool_decide (md_athlete_name d = VStr athlete_name))
      (metadata_collection (mongo env)) in
  let results := map (λ d, dict_get (md_metadata d) "source_doc_id") matched in
  list_to_set (List.filter truthy results).

Record SearchResult := {
  sr_chunk : MetaDoc;
  sr_similarity : float;
  sr_faiss_id : Z
}.

(** The number of candidates [search_similar] asks FAISS for. *)
Definition search_k (self : t) (athlete_name : option string) (top_k : Z) : Z :=
  let search_k := if opt_truthy athlete_name then top_k * 10 else top_k in
  Z.min search_k (ntotal self).

(** The [for dist, idx in zip(distances[0], indices[0])] loop. *)
Fixpoint search_loop (self : t) (env : Env) (athlete_name : option string)
    (top_k : Z) (hits : list (float * Z)) (results : list SearchResult)
    : list SearchResult :=
  match hits with
  | [] => results
  | (dist, idx) :: hits' =>
      let continue := search_loop self env athlete_name top_k hits' results in
      if idx =? -1 then continue
      else
        match faiss_id_to_metadata_id self !! idx with
        | None => continue
        | Some metadata_id =>
            match find_by_id (metadata_collection (mongo env)) metadata_id with
            | None => continue
            | Some metadata =>
                if opt_truthy athlete_name &&
                   negb (bool_decide
                           (Some (md_athlete_name metadata) = VStr <$> athlete_name))
                then continue
                else
                  let results :=
                    results ++ [{| sr_chunk := metadata;
                                   sr_similarity := dist;
                                   sr_faiss_id := idx |}] in
                  if Z.of_nat (length results) >=? top_k then results
                  else search_loop self env athlete_name top_k hits' results
            end
        end
  end.

Definition search_similar (self : t) (env : Env) (query_embedding : list float)
    (athlete_name : option string) (top_k : Z) : list SearchResult :=
  if ntotal self =? 0 then []
  else
    let query_vec := normalize_L2 query_embedding in
    let hits :=
      IndexFlatIP_search (index self) query_vec (search_k self athlete_name top_k) in
    py_slice (search_loop self env athlete_name top_k hits []) 0 top_k.

(** The dictionary [get_stats] returns, without [index_path].  The list
    under [athletes] has one entry per group of the [$group] stage, in an
    order MongoDB does not fix: it is the map from the group key to its
    count.  [st_athlete_name] is the key [athlete_name], set only when a
    filter is given. *)
Record StoreStats := {
  total_chunks : Z;
  faiss_vectors : Z;
  athletes : gmap PyVal Z;
  st_embedding_dimension : Z;
  st_athlete_name : option string
}.

(** The documents a [match_filter] selects: all of them for [{}], those of
    the athlete for [{"athlete_name": athlete_name}]. *)
Definition match_filter (athlete_name : option string) (d : MetaDoc) : bool :=
  if opt_truthy athlete_name
  then bool_decide (Some (md_athlete_name d) = VStr <$> athlete_name)
  else true.

(** [{"$group": {"_id": "$athlete_name", "count": {"$sum": 1}}}] *)
Definition group_by_athlete (docs : list MetaDoc) : gmap PyVal Z :=
  foldr (λ d groups,
           <[md_athlete_name d := default 0 (groups !! md_athlete_name d) + 1]>
             groups)
        ∅ docs.

Definition get_stats (self : t) (env : Env) (athlete_name : option string)
    : StoreStats :=
  let matched :=
    List.filter (match_filter athlete_name) (metadata_collection (mongo env)) in
  {| total_chunks := Z.of_nat (length matched);
     faiss_vectors := ntotal self;
     athletes := group_by_athlete matched;
     st_embedding_dimension := embedding_dimension self;
     st_athlete_name := if opt_truthy athlete_name then athlete_name else None |}.

(** [delete_athlete_chunks]: [delete_many] on the metadata collection; the
    index is not touched. *)
Definition delete_athlete_chunks (self : t) (env : Env) (athlete_name : string)
    : Z * Env :=
  let hit d := bool_decide (md_athlete_name d = VStr athlete_name) in
  let docs := metadata_collection (mongo env) in
  (Z.of_nat (length (List.filter hit docs)),
   {| mongo := {| source_collection := source_collection (mongo env);
                  metadata_collection := List.filter (λ d, negb (hit d)) docs;
                  next_object_id := next_object_id (mongo env);
                  insert_faults := insert_faults (mongo env) |};
      disk := disk env;
      clock := clock env |}).

(** [rebuild_index]: a new empty index, mapping and counter, saved in
    either branch; the metadata only decides what is logged. *)
Definition rebuild_index (self : t) (env : Env) : t * Env * list LogRecord :=
  let self := fresh (embedding_dimension self) in
  let saved := _save_index self (disk env) in
  let env' := {| mongo := mongo env; disk := saved.1; clock := clock env |} in
  match metadata_collection (mongo env) with
  | [] =>
      (self, env',
       [{| level := INFO; message := "Baue FAISS-Index neu auf..." |};
        {| level := INFO;
           message := "Keine Metadaten gefunden. Index bleibt leer." |}]
       ++ saved.2)
  | _ =>
      (self, env',
       [{| level := INFO; message := "Baue FAISS-Index neu auf..." |};
        {| level := WARNING;
           message := "Index-Rebuild benötigt gespeicherte Embeddings. Implementierung ausstehend." |}]
       ++ saved.2)
  end.

(** [close]: the index is saved. *)
Definition close (self : t) (env : Env) : Env :=
  {| mongo := mongo env; disk := (_save_index self (disk env)).1;
     clock := clock env |}.

End VectorStore.
End VectorStore.

(** ** pipeline.py *)

Module AthleteIndexingPipeline.
Section AthleteIndexingPipeline.
Context `{Faiss}.

Record IndexingConfig := {
  vector_dimension : Z;
  chunk_size : Z;
  chunk_overlap : Z;
  prepend_metadata_to_chunks : bool;
  embedding_model : string;
  batch_size : Z
}.

Record t := {
  config : IndexingConfig;
  chunker : TextChunker.t;
  embedder : EmbeddingGenerator.t;
  vector_store : VectorStore.t
}.

(** The statistics dictionary of one run; a key that is not set is [None].
    [duration_seconds] is wall-clock time and is left out. *)
Record Stats := {
  athlete_name : string;
  documents_loaded : option Z;
  chunks_created : option Z;
  chunks_indexed : option Z;
  status : string;
  error : option string
}.

(** [a or b] on optional strings: the first operand when it is true. *)
Definition or_else (a : option string) (b : option string) : option string :=
  if opt_truthy a then a else b.

(** The text of one [web] entry: markdown, else html, else rawHtml. *)
Definition web_text (w : WebItem) : option string :=
  or_else (or_else (wi_markdown w) (wi_html w))
          (Some (default "" (wi_rawHtml w))).

(** The body of [for idx, web_item in enumerate(web_items)]. *)
Definition process_web_item (now : Z) (doc : RawDoc) (idx : nat) (w : WebItem)
    : list TextChunker.Document :=
  let s := default "" (web_text w) in
  if negb (opt_truthy (web_text w)) || (len_str (strip s) <? 100) then []
  else
    [ {| TextChunker._id := raw_id doc +:+ "_" +:+ pretty idx;
         TextChunker.markdown := s;
         TextChunker.athlete_name := raw_athlete_name doc;
         TextChunker.topic := default "unknown" (raw_topic doc);
         TextChunker.url := default "" (sourceURL (wi_metadata w));
         TextChunker.title := default "" (wm_title (wi_metadata w));
         TextChunker.status_code := statusCode (wi_metadata w);
         TextChunker.scraped_at := now;
         TextChunker.created_at := now;
         TextChunker.web_index := Z.of_nat idx;
         TextChunker.original_doc_id := raw_id doc |} ].

(** The passages of one raw document, in the order of its [web] array; a
    document without [web] entries gives none. *)
Definition process_raw_doc (now : Z) (doc : RawDoc) : list TextChunker.Document :=
  concat (imap (process_web_item now doc) (raw_web doc)).

Definition fetch_documents (self : t) (env : Env) (athlete_name : string)
    (skip_indexed : bool) : list TextChunker.Document :=
  let raw_documents :=
    List.filter (λ d, bool_decide (raw_athlete_name d = athlete_name))
      (source_collection (mongo env)) in
  match raw_documents with
  | [] => []
  | _ =>
      let processed_documents :=
        concat (map (process_raw_doc (clock env)) raw_documents) in
      if skip_indexed then
        let indexed_doc_ids := VectorStore.get_indexed_doc_ids env athlete_name in
        if bool_decide (indexed_doc_ids = ∅) then processed_documents
        else
          List.filter
            (λ doc, negb (bool_decide (VStr (TextChunker._id doc) ∈ indexed_doc_ids)))
            processed_documents
      else processed_documents
  end.

Definition chunk_dict (c : TextChunker.TextChunk) : EmbeddingGenerator.ChunkDict :=
  {| EmbeddingGenerator.text := TextChunker.text c;
     EmbeddingGenerator.metadata := TextChunker.metadata c;
     EmbeddingGenerator.chunk_index := TextChunker.chunk_index c;
     EmbeddingGenerator.token_count := TextChunker.token_count c;
     EmbeddingGenerator.athlete_name :=
       dict_get (TextChunker.metadata c) "athlete_name" |}.

Definition split_into_chunks (self : t) (documents : list TextChunker.Document)
    : option (list EmbeddingGenerator.ChunkDict) :=
  match TextChunker.split_documents (chunker self) documents
          (prepend_metadata_to_chunks (config self)) with
  | None => None
  | Some text_chunks => Some (map chunk_dict text_chunks)
  end.

Definition embed_chunks (self : t) (chunks : list EmbeddingGenerator.ChunkDict)
    : PyExn + list EmbeddingGenerator.EnrichedChunk :=
  EmbeddingGenerator.embed_chunks (embedder self) chunks.

Definition with_vector_store (self : t) (vs : VectorStore.t) : t :=
  {| config := config self; chunker := chunker self;
     embedder := embedder self; vector_store := vs |}.

Definition index_chunks (self : t) (env : Env)
    (chunks : list EmbeddingGenerator.EnrichedChunk) : Z * t * Env :=
  let '(indexed_count, vs, env') :=
    VectorStore.index_chunks (vector_store self) env chunks true in
  (indexed_count, with_vector_store self vs, env').

Definition process_athlete_indexing (self : t) (env : Env)
    (athlete_name : string) (skip_indexed : bool)
    : Outcome Stats * t * Env :=
  let documents := fetch_documents self env athlete_name skip_indexed in
  match documents with
  | [] =>
      (Return {| athlete_name := athlete_name;
                 documents_loaded := Some 0;
                 chunks_created := Some 0;
                 chunks_indexed := Some 0;
                 status := "no_new_documents";
                 error := None |}, self, env)
  | _ =>
      match split_into_chunks self documents with
      | None => (Diverge, self, env)
      | Some [] =>
          (Return {| athlete_name := athlete_name;
                     documents_loaded := Some (Z.of_nat (length documents));
                     chunks_created := Some 0;
                     chunks_indexed := Some 0;
                     status := "no_chunks_created";
                     error := None |}, self, env)
      | Some chunks =>
          match embed_chunks self chunks with
          | inl e => (Raise e, self, env)
          | inr enriched_chunks =>
              let '(indexed_count, self', env') :=
                index_chunks self env enriched_chunks in
              (Return {| athlete_name := athlete_name;
                         documents_loaded := Some (Z.of_nat (length documents));
                         chunks_created := Some (Z.of_nat (length chunks));
                         chunks_indexed := Some indexed_count;
                         status := "success";
                         error := None |}, self', env')
          end
      end
  end.

(** The [for athlete_name in athlete_names] loop of [process_all_athletes];
    [None] when one of the runs never ends. *)
Fixpoint process_all_loop (self : t) (env : Env) (athlete_names : list string)
    (results : list Stats) : option (list Stats * t * Env) :=
  match athlete_names with
  | [] => Some (results, self, env)
  | athlete_name :: rest =>
      match process_athlete_indexing self env athlete_name true with
      | (Return stats, self', env') =>
          process_all_loop self' env' rest (results ++ [stats])
      | (Raise e, self', env') =>
          process_all_loop self' env' rest
            (results ++ [{| athlete_name := athlete_name;
                            documents_loaded := None;
                            chunks_created := None;
                            chunks_indexed := None;
                            status := "error";
                            error := Some (exn_str e) |}])
      | (Diverge, _, _) => None
      end
  end.

Definition process_all_athletes (self : t) (env : Env)
    (athlete_names : list string) : option (list Stats * t * Env) :=
  process_all_loop self env athlete_names [].

(** [AthleteIndexingPipeline(config)]: the constructor wires the components
    from the configuration; the tokenizer, the model and the directory of
    the index are what it finds in its environment. *)
Definition init (config : IndexingConfig) (encoding : TextChunker.Encoding)
    (model : EmbeddingGenerator.SentenceTransformer) (d : Disk) : t :=
  {| config := config;
     chunker := {| TextChunker.chunk_size := chunk_size config;
                   TextChunker.chunk_overlap := chunk_overlap config;
                   TextChunker.encoding := encoding |};
     embedder := {| EmbeddingGenerator.model_name := embedding_model config;
                    EmbeddingGenerator.model := model |};
     vector_store := (VectorStore.init (vector_dimension config) d).1 |}.

Definition get_vector_store_stats (self : t) (env : Env)
    (athlete_name : option string) : VectorStore.StoreStats :=
  VectorStore.get_stats (vector_store self) env athlete_name.

(** [search]: the query is embedded, then the vector store is searched. *)
Definition search (self : t) (env : Env) (query : string)
    (athlete_name : option string) (top_k : Z)
    : PyExn + list VectorStore.SearchResult :=
  match EmbeddingGenerator.embed_text (embedder self) query with
  | inl e => inl e
  | inr query_embedding =>
      inr (VectorStore.search_similar (vector_store self) env query_embedding
             athlete_name top_k)
  end.

Definition close (self : t) (env : Env) : Env :=
  VectorStore.close (vector_store self) env.

End AthleteIndexingPipeline.
End AthleteIndexingPipeline.

(** ** retriever.py *)

Module FAISSRetriever.
Section FAISSRetriever.
Context `{Faiss}.

Record t := {
  index : list (list float);
  faiss_id_to_metadata_id : gmap Z ObjectId;
  embedder : EmbeddingGenerator.SentenceTransformer
}.

(** [_load_faiss_index]: the index and the mapping it leaves in [self], or
    the exception it raises.  [data.get('mapping', {})] reads a missing key
    as the empty mapping. *)
Definition _load_faiss_index (d : Disk)
    : PyExn + (list (list float) * gmap Z ObjectId) :=
  match index_file d with
  | None => inl (FileNotFoundError "FAISS-Index nicht gefunden")
  | Some (Corrupt msg) => inl (Exception msg)
  | Some (Content idx) =>
      match mapping_file d with
      | Some (Corrupt msg) => inl (Exception msg)
      | Some (Content data) => inr (idx, default ∅ (pkl_mapping data))
      | None => inl (FileNotFoundError "ID-Mapping nicht gefunden")
      end
  end.

(** [FAISSRetriever(...)]: the constructor. *)
Definition init (d : Disk) (model : EmbeddingGenerator.SentenceTransformer)
    : PyExn + t :=
  match _load_faiss_index d with
  | inl e => inl e
  | inr (idx, m) =>
      inr {| index := idx; faiss_id_to_metadata_id := m; embedder := model |}
  end.

Record ResultMetadata := {
  topic : PyVal;
  url : PyVal;
  title : PyVal;
  source_doc_id : PyVal
}.

Record Result := {
  text : string;
  athlete_name : PyVal;
  similarity : float;
  metadata : ResultMetadata
}.

(** The number of candidates [retrieve] asks FAISS for. *)
Definition search_k (athlete_name : option string) (top_k : Z) : Z :=
  if opt_truthy athlete_name then top_k * 10 else top_k.

(** The [for idx, similarity in zip(indices[0], similarities[0])] loop. *)
Fixpoint retrieve_loop (self : t) (env : Env) (athlete_name : option string)
    (top_k : Z) (min_similarity : float) (hits : list (float * Z))
    (results : list Result) : list Result :=
  match hits with
  | [] => results
  | (similarity, idx) :: hits' =>
      let continue :=
        retrieve_loop self env athlete_name top_k min_similarity hits' results in
      if float_lt similarity min_similarity then continue
      else
        match faiss_id_to_metadata_id self !! idx with
        | None => continue
        | Some metadata_id =>
            match find_by_id (metadata_collection (mongo env)) metadata_id with
            | None => continue
            | Some metadata =>
                if opt_truthy athlete_name &&
                   negb (bool_decide
                           (Some (md_athlete_name metadata) = VStr <$> athlete_name))
                then continue
                else
                  let results :=
                    results ++
                    [{| text := md_text metadata;
                        athlete_name := md_athlete_name metadata;
                        similarity := similarity;
                        metadata :=
                          {| topic := dict_get (md_metadata metadata) "topic";
                             url := dict_get (md_metadata metadata) "url";
                             title := dict_get (md_metadata metadata) "title";
                             source_doc_id :=
                               dict_get (md_metadata metadata) "source_doc_id" |}
                     |}] in
                  if Z.of_nat (length results) >=? top_k then results
                  else retrieve_loop self env athlete_name top_k min_similarity
                         hits' results
            end
        end
  end.

Definition retrieve (self : t) (env : Env) (query : string)
    (athlete_name : option string) (top_k : Z) (min_similarity : float)
    : PyExn + list Result :=
  match EmbeddingGenerator.encode_one (embedder self) query with
  | inl e => inl e
  | inr query_embedding =>
      let query_embedding := normalize_L2 query_embedding in
      let hits :=
        IndexFlatIP_search (index self) query_embedding
          (search_k athlete_name top_k) in
      inr (retrieve_loop self env athlete_name top_k min_similarity hits [])
  end.

End FAISSRetriever.
End FAISSRetriever.

(** ** A small concrete instance

    One tokenizer (a token per character), one embedding model (two
    coordinates per text) and one reading of the FAISS kernels over integer
    "floats".  The theorems below hold for every instance; this one is only
    used to run them on concrete inputs. *)

Module Demo.

Definition char_encoding : TextChunker.Encoding :=
  {| TextChunker.encode s :=
       map (λ a, Z.of_nat (Ascii.nat_of_ascii a)) (String.list_ascii_of_string s);
     TextChunker.decode ts :=
       String.string_of_list_ascii (map (λ z, Ascii.ascii_of_nat (Z.to_nat z)) ts) |}.

(** Scores are integers; a candidate's score is the first coordinate of its
    row, candidates come in index order, and the result row is padded with
    id -1 up to [k] entries. *)
#[local] Instance int_faiss : Faiss :=
  {| float := Z;
     float_lt := Z.ltb;
     normalize_L2 v := v;
     IndexFlatIP_search rows q k :=
       let found := imap (λ i row, (hd 0 row, Z.of_nat i)) rows in
       take (Z.to_nat k) (found ++ replicate (Z.to_nat k) (-1, -1)) |}.

Definition pair_model : EmbeddingGenerator.SentenceTransformer :=
  {| EmbeddingGenerator.encode texts :=
       inr (map (λ s, [len_str s; 1]) texts);
     EmbeddingGenerator.encode_one s := inr [len_str s; 1];
     EmbeddingGenerator.get_sentence_embedding_dimension := 2 |}.

(** A model whose batch call fails. *)
Definition failing_model : EmbeddingGenerator.SentenceTransformer :=
  {| EmbeddingGenerator.encode texts := inl (Exception "connection refused");
     EmbeddingGenerator.encode_one s := inl (Exception "connection refused");
     EmbeddingGenerator.get_sentence_embedding_dimension := 2 |}.

Fixpoint repeat_string (n : nat) (s : string) : string :=
  match n with
  | O => ""
  | S n' => s +:+ repeat_string n' s
  end.

Definition chunker_1000_200 : TextChunker.t :=
  {| TextChunker.chunk_size := 1000;
     TextChunker.chunk_overlap := 200;
     TextChunker.encoding := char_encoding |}.

Definition chunker_10_2 : TextChunker.t :=
  {| TextChunker.chunk_size := 10;
     TextChunker.chunk_overlap := 2;
     TextChunker.encoding := char_encoding |}.

(** 2500 characters, hence 2500 tokens. *)
Definition text_2500 : string := repeat_string (Z.to_nat 250) "abcdefghij".

(** 144 characters of text. *)
Definition passage_text : string := repeat_string 12 "triple axel ".

Definition web_item (s : string) (url : string) : WebItem :=
  {| wi_markdown := Some s; wi_html := None; wi_rawHtml := None;
     wi_metadata := {| sourceURL := Some url; wm_title := Some "Programme";
                       statusCode := Some 200 |} |}.

Definition raw_doc_A : RawDoc :=
  {| raw_id := "65a1"; raw_athlete_name := "A"; raw_topic := Some "jumps";
     raw_web := [web_item passage_text "https://example.org/a";
                 web_item "too short" "https://example.org/a2"] |}.

Definition raw_doc_B : RawDoc :=
  {| raw_id := "65b2"; raw_athlete_name := "B"; raw_topic := None;
     raw_web := [web_item passage_text "https://example.org/b"] |}.

Definition empty_disk : Disk :=
  {| index_file := None; mapping_file := None; write_faults := [] |}.

Definition env0 : Env :=
  {| mongo := {| source_collection := [raw_doc_A; raw_doc_B];
                 metadata_collection := [];
                 next_object_id := 0%nat;
                 insert_faults := [] |};
     disk := empty_disk;
     clock := 1700000000 |}.

Definition config : AthleteIndexingPipeline.IndexingConfig :=
  {| AthleteIndexingPipeline.vector_dimension := 2;
     AthleteIndexingPipeline.chunk_size := 1000;
     AthleteIndexingPipeline.chunk_overlap := 200;
     AthleteIndexingPipeline.prepend_metadata_to_chunks := true;
     AthleteIndexingPipeline.embedding_model := "pair";
     AthleteIndexingPipeline.batch_size := 32 |}.

Definition pipeline : AthleteIndexingPipeline.t :=
  AthleteIndexingPipeline.init config char_encoding pair_model empty_disk.

Definition failing_pipeline : AthleteIndexingPipeline.t :=
  AthleteIndexingPipeline.init config char_encoding failing_model empty_disk.

Definition enriched (sid : string) (ci : Z) (name : string) (s : string)
    (e : list Z) : EmbeddingGenerator.EnrichedChunk :=
  {| EmbeddingGenerator.chunk :=
       {| EmbeddingGenerator.text := s;
          EmbeddingGenerator.metadata :=
            <["source_doc_id" := VStr sid]> (<["athlete_name" := VStr name]> ∅);
          EmbeddingGenerator.chunk_index := ci;
          EmbeddingGenerator.token_count := len_str s;
          EmbeddingGenerator.athlete_name := VStr name |};
     EmbeddingGenerator.embedding := e;
     EmbeddingGenerator.embedding_model := "pair";
     EmbeddingGenerator.embedding_dimension := 2 |}.

Definition chunk_a0 := enriched "65a1_0" 0 "A" "triple axel" [3; 4].
Definition chunk_a0_again := enriched "65a1_0" 0 "A" "triple axel, again" [4; 3].
Definition chunk_a1 := enriched "65a1_0" 1 "A" "quad loop" [1; 0].
Definition chunk_b0 := enriched "65b2_0" 0 "B" "step sequence" [0; 1].

Definition store0 : VectorStore.t := VectorStore.fresh 2.

(** The store and the world after three chunks of A and B are indexed. *)
Definition indexed : Z * VectorStore.t * Env :=
  VectorStore.index_chunks store0 env0 [chunk_a0; chunk_a1; chunk_b0] true.

Definition retriever : FAISSRetriever.t :=
  {| FAISSRetriever.index := VectorStore.index indexed.1.2;
     FAISSRetriever.faiss_id_to_metadata_id :=
       VectorStore.faiss_id_to_metadata_id indexed.1.2;
     FAISSRetriever.embedder := pair_model |}.

(** A database whose next insert fails. *)
Definition env_faulty : Env :=
  {| mongo := {| source_collection := [];
                 metadata_collection := [];
                 next_object_id := 0%nat;
                 insert_faults := [true] |};
     disk := empty_disk;
     clock := 1700000000 |}.

(** A model that is out of service for athlete B: its batch call raises when
    one of the texts starts with the header of B. *)
Definition moody_model : EmbeddingGenerator.SentenceTransformer :=
  {| EmbeddingGenerator.encode texts :=
       if existsb (λ s, bool_decide (String.get 9 s = Some (Ascii.ascii_of_nat 66)))
            texts
       then inl (Exception "rate limit exceeded")
       else inr (map (λ s, [len_str s; 1]) texts);
     EmbeddingGenerator.encode_one s := inr [len_str s; 1];
     EmbeddingGenerator.get_sentence_embedding_dimension := 2 |}.

Definition moody_pipeline : AthleteIndexingPipeline.t :=
  AthleteIndexingPipeline.init config char_encoding moody_model empty_disk.

(** A chunker whose window cannot advance. *)
Definition chunker_stuck : TextChunker.t :=
  {| TextChunker.chunk_size := 5;
     TextChunker.chunk_overlap := 5;
     TextChunker.encoding := char_encoding |}.

Definition document (id name s : string) : TextChunker.Document :=
  {| TextChunker._id := id; TextChunker.markdown := s;
     TextChunker.athlete_name := name; TextChunker.topic := "jumps";
     TextChunker.url := ""; TextChunker.title := "";
     TextChunker.status_code := Some 200;
     TextChunker.scraped_at := 1700000000; TextChunker.created_at := 1700000000;
     TextChunker.web_index := 0; TextChunker.original_doc_id := id |}.

(** A database whose first insert fails, with the documents of A and B to
    index. *)
Definition env_insert_fails : Env :=
  {| mongo := {| source_collection := [raw_doc_A; raw_doc_B];
                 metadata_collection := [];
                 next_object_id := 0%nat;
                 insert_faults := [true] |};
     disk := empty_disk;
     clock := 1700000000 |}.

(** Two readable files that do not fit: one vector in the index, no entry in
    the id-mapping, and a counter of 7. *)
Definition inconsistent_disk : Disk :=
  {| index_file := Some (Content [[3; 4]]);
     mapping_file :=
       Some (Content {| pkl_mapping := Some ∅; pkl_next_id := Some 7 |});
     write_faults := [] |}.

End Demo.

(** ** FAISS in exact arithmetic

    The two kernels over the real numbers, as the FAISS documentation states
    them; what the engine computes in 32-bit floats agrees with this up to
    rounding. *)

Module Exact.
Import Reals.

(** The inner product, the quantity [IndexFlatIP] scores with. *)
Definition dot (u v : list R) : R := foldr Rplus 0%R (zip_with Rmult u v).



(** [faiss.normalize_L2] on one row: the row is scaled by the inverse of its
    norm when its squared norm is positive, and left as it is otherwise. *)
Definition renorm_L2 (v : list R) : list R :=
  if Rlt_dec 0 (dot v v) then map (λ x, (x * / sqrt (dot v v))%R) v else v.

(** The engine over real numbers, for any search kernel. *)
Definition real_faiss (search : list (list R) → list R → Z → list (R * Z))
    : Faiss :=
  {| float := R;
     float_lt a b := if Rlt_dec a b then true else false;
     normalize_L2 := renorm_L2;
     IndexFlatIP_search := search |}.


(** A kernel that keeps the promise: the rows in index order, the first [k]
    of them. *)
Definition scan_search (rows : list (list R)) (q : list R) (k : Z)
    : list (R * Z) :=
  take (Z.to_nat k) (imap (λ i row, (dot row q, Z.of_nat i)) rows).

#[local] Instance scan_faiss : Faiss := real_faiss scan_search.


Definition env0 : Env :=
  {| mongo := {| source_collection := [];
                 metadata_collection := [];
                 next_object_id := 0%nat;
                 insert_faults := [] |};
     disk := {| index_file := None; mapping_file := None; write_faults := [] |};
     clock := 1700000000 |}.

End Exact.

(** * Vocabulary of the properties *)

(** The chunk that [split_text] cuts as number [i]: the window of [cnt]
    tokens that starts at token offset [off]. *)
Definition window (self : TextChunker.t) (tokens : list Z)
    (md : gmap string PyVal) (i off cnt : Z) : TextChunker.TextChunk :=
  {| TextChunker.text :=
       TextChunker.decode (TextChunker.encoding self)
         (take (Z.to_nat cnt) (drop (Z.to_nat off) tokens));
     TextChunker.metadata := <["chunk_index" := VInt i]> md;
     TextChunker.chunk_index := i;
     TextChunker.token_count := cnt |}.

(** The chunk carries its own number under the key [chunk_index]. *)
Definition has_chunk_index_key (c : TextChunker.TextChunk) : Prop :=
  TextChunker.metadata c !! "chunk_index" = Some (VInt (TextChunker.chunk_index c)).

(** A mapping file that cannot be used: unreadable, or without one of the
    two keys. *)
Definition unusable_mapping (f : Readable Pickle) : Prop :=
  match f with
  | Corrupt _ => True
  | Content data => pkl_mapping data = None ∨ pkl_next_id data = None
  end.

Definition unreadable {A} (f : Readable A) : Prop :=
  match f with
  | Corrupt _ => True
  | Content _ => False
  end.

Definition warned (log : list LogRecord) : Prop :=
  ∃ r, r ∈ log ∧ level r = WARNING.

Section IndexVocabulary.
Context `{Faiss}.

(** The duplicate key of a stored document is the pair [(sid, ci)]. *)
Definition same_key (sid : PyVal) (ci : Z) (d : MetaDoc) : bool :=
  bool_decide (dict_get (md_metadata d) "source_doc_id" = sid)
  && bool_decide (md_chunk_index d = ci).

(** The number of stored documents with the key [(sid, ci)]. *)
Definition key_count (docs : list MetaDoc) (sid : PyVal) (ci : Z) : nat :=
  length (List.filter (same_key sid ci) docs).

(** At most one stored document for every key. *)
Definition unique_keys (docs : list MetaDoc) : Prop :=
  ∀ sid ci, (key_count docs sid ci ≤ 1)%nat.

(** The key under which [index_chunks] looks a chunk up. *)
Definition chunk_key (c : EmbeddingGenerator.EnrichedChunk) : PyVal * Z :=
  (dict_get (EmbeddingGenerator.metadata (EmbeddingGenerator.chunk c)) "source_doc_id",
   EmbeddingGenerator.chunk_index (EmbeddingGenerator.chunk c)).

(** The ids in use are exactly [0 .. next_faiss_id - 1], and there are as
    many vectors in the index. *)
Definition dense_ids (vs : VectorStore.t) : Prop :=
  VectorStore.next_faiss_id vs = VectorStore.ntotal vs
  ∧ ∀ k, is_Some (VectorStore.faiss_id_to_metadata_id vs !! k)
         ↔ 0 ≤ k < VectorStore.next_faiss_id vs.

(** The documents stored for the chunks of [tr], in order, when the counter
    stood at [next0] before the first of them. *)
Definition trace_docs (next0 now : Z)
    (tr : list (EmbeddingGenerator.EnrichedChunk * ObjectId)) : list MetaDoc :=
  imap (λ j p, VectorStore.metadata_document (next0 + Z.of_nat j) now p.1 p.2) tr.

(** The rows added to the index for the chunks of [tr]. *)
Definition trace_rows
    (tr : list (EmbeddingGenerator.EnrichedChunk * ObjectId)) : list (list float) :=
  map (λ p, normalize_L2 (EmbeddingGenerator.embedding p.1)) tr.

End IndexVocabulary.

Section PipelineVocabulary.
Context `{Faiss}.

(** The entry [process_all_athletes] records for a run that raised [e]. *)
Definition error_entry (name : string) (e : PyExn)
    : AthleteIndexingPipeline.Stats :=
  {| AthleteIndexingPipeline.athlete_name := name;
     AthleteIndexingPipeline.documents_loaded := None;
     AthleteIndexingPipeline.chunks_created := None;
     AthleteIndexingPipeline.chunks_indexed := None;
     AthleteIndexingPipeline.status := "error";
     AthleteIndexingPipeline.error := Some (exn_str e) |}.

(** [batch_run self env names results self' env']: running
    [process_athlete_indexing] for the names one after the other, each run
    starting where the one before it ended, gives [results]: the statistics
    of a run that returned, the error entry of a run that raised. *)
Inductive batch_run :
    AthleteIndexingPipeline.t → Env → list string →
    list AthleteIndexingPipeline.Stats → AthleteIndexingPipeline.t → Env → Prop :=
  | batch_nil self env : batch_run self env [] [] self env
  | batch_return self env name names stats self1 env1 results self' env' :
      AthleteIndexingPipeline.process_athlete_indexing self env name true
        = (Return stats, self1, env1) →
      batch_run self1 env1 names results self' env' →
      batch_run self env (name :: names) (stats :: results) self' env'
  | batch_raise self env name names e self1 env1 results self' env' :
      AthleteIndexingPipeline.process_athlete_indexing self env name true
        = (Raise e, self1, env1) →
      batch_run self1 env1 names results self' env' →
      batch_run self env (name :: names) (error_entry name e :: results) self' env'.

(** The passages of an athlete: what [fetch_documents] extracts before it
    filters out the indexed ones. *)
Definition passages (env : Env) (name : string) : list TextChunker.Document :=
  concat (map (AthleteIndexingPipeline.process_raw_doc (clock env))
            (List.filter (λ d, bool_decide (raw_athlete_name d = name))
               (source_collection (mongo env)))).

(** The statistics of a run that found nothing new to index. *)
Definition no_new_documents (name : string) : AthleteIndexingPipeline.Stats :=
  {| AthleteIndexingPipeline.athlete_name := name;
     AthleteIndexingPipeline.documents_loaded := Some 0;
     AthleteIndexingPipeline.chunks_created := Some 0;
     AthleteIndexingPipeline.chunks_indexed := Some 0;
     AthleteIndexingPipeline.status := "no_new_documents";
     AthleteIndexingPipeline.error := None |}.

(** A run that indexed every chunk it created, or had nothing to index
    because everything was indexed before. *)
Definition indexed_everything (skip_indexed : bool)
    (stats : AthleteIndexingPipeline.Stats) : Prop :=
  (AthleteIndexingPipeline.status stats = "success"
   ∧ AthleteIndexingPipeline.chunks_indexed stats
     = AthleteIndexingPipeline.chunks_created stats)
  ∨ (AthleteIndexingPipeline.status stats = "no_new_documents"
     ∧ skip_indexed = true).

End PipelineVocabulary.

(** The number of windows of [chunk_size] tokens, [chunk_size - chunk_overlap]
    apart, that start before token [T]: [T] divided by the step, rounded up. *)
Definition chunk_count (self : TextChunker.t) (T : Z) : Z :=
  let step := TextChunker.chunk_size self - TextChunker.chunk_overlap self in
  (T + step - 1) / step.

(** The window number [i] of a token list: it starts at [i] steps and has
    [chunk_size] tokens, or what is left of the list. *)
Definition nth_window (self : TextChunker.t) (tokens : list Z)
    (md : gmap string PyVal) (i : Z) : TextChunker.TextChunk :=
  let step := TextChunker.chunk_size self - TextChunker.chunk_overlap self in
  window self tokens md i (i * step)
    (Z.min (TextChunker.chunk_size self) (Z.of_nat (length tokens) - i * step)).

Section JoinVocabulary.
Context `{Faiss}.

(** Every [ObjectId] in the collection was handed out before. *)
Definition well_keyed (db : Mongo) : Prop :=
  Forall (λ d, (md_id d < next_object_id db)%nat) (metadata_collection db).

(** Every id of the mapping leads, through the [ObjectId] it is mapped to, to
    the metadata document that was stored with that id as its [faiss_id]; and
    the counter is above every id in use. *)
Definition joined (self : VectorStore.t) (db : Mongo) : Prop :=
  (∀ k oid, VectorStore.faiss_id_to_metadata_id self !! k = Some oid →
     ∃ d, find_by_id (metadata_collection db) oid = Some d ∧ faiss_id d = k)
  ∧ (∀ k, is_Some (VectorStore.faiss_id_to_metadata_id self !! k) →
       k < VectorStore.next_faiss_id self).

End JoinVocabulary.

(** The number of stored documents attributed to [v]. *)
Definition athlete_count (docs : list MetaDoc) (v : PyVal) : Z :=
  Z.of_nat (length (List.filter (λ d, bool_decide (md_athlete_name d = v)) docs)).

(** The sum of the counts of the groups of an aggregation. *)
Definition group_total (groups : gmap PyVal Z) : Z :=
  map_fold (λ _ count total, count + total) 0 groups.

(** The next [_save_index] finds both of its writes accepted. *)
Definition writes_succeed `{Faiss} (d : Disk) : Prop :=
  hd None (write_faults d) = None ∧ hd None (tail (write_faults d)) = None.

(** The next [_save_index] raises in its first write, the one of the index
    file, which is left as [w] says. *)
Definition index_write_fails `{Faiss} (d : Disk) (w : WriteFault) : Prop :=
  hd None (write_faults d) = Some w.

(** The next [_save_index] writes the index file and raises in its second
    write, the one of the mapping file, which is left as [w] says. *)
Definition mapping_write_fails `{Faiss} (d : Disk) (w : WriteFault) : Prop :=
  hd None (write_faults d) = None ∧ hd None (tail (write_faults d)) = Some w.

(** An error was logged. *)
Definition error_logged (log : list LogRecord) : Prop :=
  ∃ r, r ∈ log ∧ level r = ERROR.

(** The hits of a FAISS answer without the padding entries, the ones with
    id -1. *)
Definition unpadded `{Faiss} (hits : list (float * Z)) : list (float * Z) :=
  List.filter (λ h, negb (h.2 =? -1)) hits.

(** * Properties *)

(** ** Slices *)

Lemma py_slice_inside {A} (l : list A) (start stop : Z) :
  0 ≤ start → start ≤ stop → stop ≤ Z.of_nat (length l) →
  py_slice l start stop = take (Z.to_nat (stop - start)) (drop (Z.to_nat start) l).
Proof.
  intros H0 H1 H2. unfold py_slice, slice_bound.
  destruct (Z.ltb_spec start 0), (Z.ltb_spec stop 0); try lia.
  by rewrite !Z.min_l by lia.
Qed.

Lemma py_slice_inside_length {A} (l : list A) (start stop : Z) :
  0 ≤ start → start ≤ stop → stop ≤ Z.of_nat (length l) →
  Z.of_nat (length (py_slice l start stop)) = stop - start.
Proof.
  intros H0 H1 H2. rewrite py_slice_inside by done.
  rewrite length_take, length_drop. lia.
Qed.

Lemma py_slice_prefix_sublist {A} (l : list A) (stop : Z) :
  py_slice l 0 stop `prefix_of` l.
Proof.
  unfold py_slice. replace (Z.to_nat (slice_bound _ 0)) with 0%nat.
  - rewrite drop_0. apply prefix_take.
  - unfold slice_bound. simpl. lia.
Qed.

(** ** The chunker *)

Module TextChunkerFacts.
Import TextChunker.

Lemma split_loop_done self fuel tokens md start ci chunks :
  Z.of_nat (length tokens) ≤ start →
  split_loop self fuel tokens md start ci chunks = Some chunks.
Proof.
  intros Hge. destruct fuel; simpl;
    by destruct (Z.ltb_spec start (Z.of_nat (length tokens))); try lia.
Qed.

Lemma split_loop_step self fuel tokens md start ci chunks :
  start < Z.of_nat (length tokens) →
  split_loop self (S fuel) tokens md start ci chunks =
  split_loop self fuel tokens md
    (start + (chunk_size self - chunk_overlap self)) (ci + 1)
    (chunks ++
     [{| text := decode (encoding self)
                   (py_slice tokens start
                      (Z.min (start + chunk_size self) (Z.of_nat (length tokens))));
         metadata := <["chunk_index" := VInt ci]> md;
         chunk_index := ci;
         token_count :=
           Z.of_nat (length (py_slice tokens start
                      (Z.min (start + chunk_size self) (Z.of_nat (length tokens))))) |}]).
Proof.
  intros Hlt. simpl.
  by destruct (Z.ltb_spec start (Z.of_nat (length tokens))); try lia.
Qed.

Lemma split_loop_out_of_fuel self tokens md start ci chunks :
  start < Z.of_nat (length tokens) →
  split_loop self 0 tokens md start ci chunks = None.
Proof.
  intros Hlt. simpl.
  by destruct (Z.ltb_spec start (Z.of_nat (length tokens))); try lia.
Qed.

(** A loop that does not advance never ends, whatever the budget. *)
Lemma split_loop_diverges self fuel tokens md start ci chunks :
  chunk_size self ≤ chunk_overlap self →
  start < Z.of_nat (length tokens) →
  split_loop self fuel tokens md start ci chunks = None.
Proof.
  intros Hstep. revert start ci chunks.
  induction fuel as [|fuel IH]; intros start ci chunks Hlt.
  - by apply split_loop_out_of_fuel.
  - rewrite split_loop_step by done. apply IH. lia.
Qed.

(** A loop that advances ends within the budget [split_text] gives it. *)
Lemma split_loop_terminates self fuel tokens md start ci chunks :
  chunk_overlap self < chunk_size self →
  Z.of_nat (length tokens) - start ≤ Z.of_nat fuel →
  is_Some (split_loop self fuel tokens md start ci chunks).
Proof.
  intros Hstep. revert start ci chunks.
  induction fuel as [|fuel IH]; intros start ci chunks Hfuel.
  - rewrite split_loop_done by lia. eauto.
  - destruct (Z.lt_ge_cases start (Z.of_nat (length tokens))).
    + rewrite split_loop_step by done. apply IH. lia.
    + rewrite split_loop_done by lia. eauto.
Qed.

(** The loop only appends to the chunks it has. *)
Lemma split_loop_extends self fuel tokens md start ci chunks result :
  split_loop self fuel tokens md start ci chunks = Some result →
  chunks `prefix_of` result.
Proof.
  revert start ci chunks.
  induction fuel as [|fuel IH]; intros start ci chunks Hres.
  - destruct (Z.lt_ge_cases start (Z.of_nat (length tokens))).
    + by rewrite split_loop_out_of_fuel in Hres.
    + rewrite split_loop_done in Hres by lia. by simplify_eq.
  - destruct (Z.lt_ge_cases start (Z.of_nat (length tokens))).
    + rewrite split_loop_step in Hres by done.
      apply IH in Hres. etrans; [|exact Hres]. by apply prefix_app_r.
    + rewrite split_loop_done in Hres by lia. by simplify_eq.
Qed.

(** Every chunk the loop adds satisfies what its metadata is built to
    satisfy. *)
Lemma split_loop_Forall (P : TextChunk → Prop) self fuel tokens md start ci
    chunks result :
  (∀ s i n, P {| text := s; metadata := <["chunk_index" := VInt i]> md;
                 chunk_index := i; token_count := n |}) →
  Forall P chunks →
  split_loop self fuel tokens md start ci chunks = Some result →
  Forall P result.
Proof.
  intros HP. revert start ci chunks.
  induction fuel as [|fuel IH]; intros start ci chunks Hacc Hres.
  - destruct (Z.lt_ge_cases start (Z.of_nat (length tokens))).
    + by rewrite split_loop_out_of_fuel in Hres.
    + rewrite split_loop_done in Hres by lia. by simplify_eq.
  - destruct (Z.lt_ge_cases start (Z.of_nat (length tokens))).
    + rewrite split_loop_step in Hres by done.
      eapply IH; [|exact Hres]. apply Forall_app. split; [done|].
      by apply Forall_singleton.
    + rewrite split_loop_done in Hres by lia. by simplify_eq.
Qed.

End TextChunkerFacts.

Lemma strip_nonempty s : strip s ≠ "" → s ≠ "".
Proof. intros Hs ->. by apply Hs. Qed.

Lemma split_text_not_blank self s md prepend :
  strip s ≠ "" →
  TextChunker.split_text self s md prepend =
  let s' := TextChunker.prefixed_text s md prepend in
  let tokens := TextChunker.encode (TextChunker.encoding self) s' in
  if Z.of_nat (length tokens) <=? TextChunker.chunk_size self then
    Some [ {| TextChunker.text := s'; TextChunker.metadata := md;
              TextChunker.chunk_index := 0;
              TextChunker.token_count := Z.of_nat (length tokens) |} ]
  else TextChunker.split_loop self (length tokens) tokens md 0 0 [].
Proof.
  intros Hs. pose proof (strip_nonempty _ Hs) as Hs'.
  unfold TextChunker.split_text, str_truthy.
  by rewrite !bool_decide_eq_false_2.
Qed.

(** C6.  With [chunk_size = 1000] and [chunk_overlap = 200], a text that is
    tokenized into exactly 2500 tokens is split into exactly four chunks,
    numbered 0 to 3: the windows of 1000, 1000, 900 and 100 tokens that
    start at token offsets 0, 800, 1600 and 2400. *)
Theorem split_text_2500_tokens (self : TextChunker.t) (s : string)
    (md : gmap string PyVal) (prepend : bool) :
  TextChunker.chunk_size self = 1000 →
  TextChunker.chunk_overlap self = 200 →
  strip s ≠ "" →
  let tokens :=
    TextChunker.encode (TextChunker.encoding self)
      (TextChunker.prefixed_text s md prepend) in
  Z.of_nat (length tokens) = 2500 →
  TextChunker.split_text self s md prepend =
    Some [ window self tokens md 0 0 1000;
           window self tokens md 1 800 1000;
           window self tokens md 2 1600 900;
           window self tokens md 3 2400 100 ]
  ∧ Z.of_nat (length (take (Z.to_nat 1000) (drop (Z.to_nat 0) tokens))) = 1000
  ∧ Z.of_nat (length (take (Z.to_nat 1000) (drop (Z.to_nat 800) tokens))) = 1000
  ∧ Z.of_nat (length (take (Z.to_nat 900) (drop (Z.to_nat 1600) tokens))) = 900
  ∧ Z.of_nat (length (take (Z.to_nat 100) (drop (Z.to_nat 2400) tokens))) = 100.
Proof.
  intros Hsize Hoverlap Hs tokens Htotal.
  split; [|rewrite !length_take, !length_drop; lia].
  rewrite split_text_not_blank by done. cbv zeta. fold tokens.
  rewrite Htotal, Hsize. change (2500 <=? 1000) with false. cbv iota.
  assert (∃ fuel, length tokens = S (S (S (S fuel)))) as [fuel Hfuel].
  { exists (length tokens - 4)%nat. lia. }
  rewrite Hfuel.
  do 4 (rewrite TextChunkerFacts.split_loop_step by lia;
        rewrite Hsize, Hoverlap, Htotal).
  rewrite TextChunkerFacts.split_loop_done by lia.
  simpl app. unfold window.
  rewrite !py_slice_inside by lia.
  repeat f_equal; rewrite ?length_take, ?length_drop; lia.
Qed.

Lemma split_text_2500_tokens_witness :
  ∃ c0 c1 c2 c3,
    TextChunker.split_text Demo.chunker_1000_200 Demo.text_2500 ∅ false
      = Some [c0; c1; c2; c3]
    ∧ TextChunker.token_count <$> [c0; c1; c2; c3] = [1000; 1000; 900; 100].
Proof.
  destruct (split_text_2500_tokens Demo.chunker_1000_200 Demo.text_2500 ∅ false)
    as [Hsplit _].
  - reflexivity.
  - reflexivity.
  - by vm_compute.
  - by vm_compute.
  - eexists _, _, _, _. split; [exact Hsplit | reflexivity].
Defined.

Lemma split_text_blank self s md prepend :
  strip s = "" → TextChunker.split_text self s md prepend = Some [].
Proof.
  intros Hs. unfold TextChunker.split_text, str_truthy.
  rewrite (bool_decide_eq_true_2 (strip s = "")) by done.
  by rewrite orb_true_r.
Qed.

(** C10.  When [split_text] returns more than one chunk, every chunk carries
    its own [chunk_index] under the key [chunk_index] of its metadata; when
    the token count is at most [chunk_size], the single chunk it returns has
    the caller's metadata, unchanged.  With a non-negative overlap the second
    case is the only one in which exactly one chunk is returned. *)
Theorem split_text_chunk_index_key (self : TextChunker.t) (s : string)
    (md : gmap string PyVal) (prepend : bool)
    (chunks : list TextChunker.TextChunk) :
  TextChunker.split_text self s md prepend = Some chunks →
  let total :=
    TextChunker.count_tokens self (TextChunker.prefixed_text s md prepend) in
  ((1 < length chunks)%nat → Forall has_chunk_index_key chunks)
  ∧ (total ≤ TextChunker.chunk_size self → strip s ≠ "" →
     chunks = [ {| TextChunker.text := TextChunker.prefixed_text s md prepend;
                   TextChunker.metadata := md;
                   TextChunker.chunk_index := 0;
                   TextChunker.token_count := total |} ])
  ∧ (0 ≤ TextChunker.chunk_overlap self → length chunks = 1%nat →
     total ≤ TextChunker.chunk_size self).
Proof.
  intros Hsplit total. unfold TextChunker.count_tokens in total.
  destruct (decide (strip s = "")) as [Hblank|Hblank].
  { rewrite split_text_blank in Hsplit by done. simplify_eq.
    split_and!; [simpl; lia | done | done]. }
  rewrite split_text_not_blank in Hsplit by done. cbv zeta in Hsplit.
  set (tokens := TextChunker.encode (TextChunker.encoding self)
                   (TextChunker.prefixed_text s md prepend)) in *.
  destruct (Z.leb_spec (Z.of_nat (length tokens)) (TextChunker.chunk_size self))
    as [Hshort|Hlong].
  { simplify_eq. split_and!; [simpl; lia | done | done]. }
  split_and!.
  - intros _.
    eapply (TextChunkerFacts.split_loop_Forall has_chunk_index_key);
      [|apply Forall_nil_2|exact Hsplit].
    intros s' i n. unfold has_chunk_index_key. simpl.
    by rewrite lookup_insert_eq.
  - subst total. lia.
  - intros Hoverlap Hone. exfalso.
    destruct (decide (length tokens = 0%nat)) as [Hempty|Hnonempty].
    { rewrite TextChunkerFacts.split_loop_done in Hsplit by lia.
      by simplify_eq. }
    destruct (Z.le_gt_cases (TextChunker.chunk_size self)
                (TextChunker.chunk_overlap self)) as [Hstuck|Hstep].
    { rewrite TextChunkerFacts.split_loop_diverges in Hsplit by (done || lia).
      done. }
    assert (∃ fuel, length tokens = S (S fuel)) as [fuel Hfuel].
    { exists (length tokens - 2)%nat. lia. }
    rewrite Hfuel in Hsplit at 1.
    do 2 (rewrite TextChunkerFacts.split_loop_step in Hsplit by lia).
    apply TextChunkerFacts.split_loop_extends, prefix_length in Hsplit.
    rewrite !length_app in Hsplit. simpl in Hsplit. lia.
Qed.

Lemma split_text_chunk_index_key_witness :
  ∃ chunks,
    TextChunker.split_text Demo.chunker_10_2 "the quick brown fox jumps" ∅ false
      = Some chunks
    ∧ length chunks = 4%nat
    ∧ Forall has_chunk_index_key chunks.
Proof.
  eexists. split; [by vm_compute|]. split; [reflexivity|].
  eapply (split_text_chunk_index_key Demo.chunker_10_2
            "the quick brown fox jumps" ∅ false).
  - by vm_compute.
  - simpl. lia.
Defined.

(** ** Entity filter of the two search paths *)

Section EntityFilter.
Context `{Faiss}.

Lemma opt_truthy_Some (E : string) : E ≠ "" → opt_truthy (Some E) = true.
Proof. intros HE. simpl. unfold str_truthy. by rewrite bool_decide_eq_false_2. Qed.

Lemma retrieve_loop_filtered self env (E : string) top_k min_similarity hits
    results :
  E ≠ "" →
  Forall (λ r, FAISSRetriever.athlete_name r = VStr E) results →
  Forall (λ r, FAISSRetriever.athlete_name r = VStr E)
    (FAISSRetriever.retrieve_loop self env (Some E) top_k min_similarity hits
       results).
Proof.
  intros HE. revert results.
  induction hits as [|[similarity idx] hits IH]; intros results Hacc; [done|].
  simpl FAISSRetriever.retrieve_loop.
  destruct (float_lt similarity min_similarity); [by apply IH|].
  destruct (FAISSRetriever.faiss_id_to_metadata_id self !! idx); [|by apply IH].
  destruct (find_by_id _ _) as [metadata|]; [|by apply IH].
  fold (opt_truthy (Some E)). rewrite opt_truthy_Some by done. simpl andb.
  case_bool_decide as Hname; simpl negb; cbv iota; [|by apply IH].
  assert (Forall (λ r, FAISSRetriever.athlete_name r = VStr E)
            (results ++
             [{| FAISSRetriever.text := md_text metadata;
                 FAISSRetriever.athlete_name := md_athlete_name metadata;
                 FAISSRetriever.similarity := similarity;
                 FAISSRetriever.metadata :=
                   {| FAISSRetriever.topic := dict_get (md_metadata metadata) "topic";
                      FAISSRetriever.url := dict_get (md_metadata metadata) "url";
                      FAISSRetriever.title := dict_get (md_metadata metadata) "title";
                      FAISSRetriever.source_doc_id :=
                        dict_get (md_metadata metadata) "source_doc_id" |} |}]))
    as Hacc'.
  { apply Forall_app. split; [done|]. apply Forall_singleton. simpl.
    by simplify_eq/=. }
  destruct (_ >=? top_k); [done|by apply IH].
Qed.

Lemma search_loop_filtered self env (E : string) top_k hits results :
  E ≠ "" →
  Forall (λ r, md_athlete_name (VectorStore.sr_chunk r) = VStr E) results →
  Forall (λ r, md_athlete_name (VectorStore.sr_chunk r) = VStr E)
    (VectorStore.search_loop self env (Some E) top_k hits results).
Proof.
  intros HE. revert results.
  induction hits as [|[dist idx] hits IH]; intros results Hacc; [done|].
  simpl VectorStore.search_loop.
  destruct (idx =? -1); [by apply IH|].
  destruct (VectorStore.faiss_id_to_metadata_id self !! idx); [|by apply IH].
  destruct (find_by_id _ _) as [metadata|]; [|by apply IH].
  fold (opt_truthy (Some E)). rewrite opt_truthy_Some by done. simpl andb.
  case_bool_decide as Hname; simpl negb; cbv iota; [|by apply IH].
  assert (Forall (λ r, md_athlete_name (VectorStore.sr_chunk r) = VStr E)
            (results ++ [{| VectorStore.sr_chunk := metadata;
                            VectorStore.sr_similarity := dist;
                            VectorStore.sr_faiss_id := idx |}])) as Hacc'.
  { apply Forall_app. split; [done|]. apply Forall_singleton. simpl.
    by simplify_eq/=. }
  destruct (_ >=? top_k); [done|by apply IH].
Qed.

(** C5.  With a non-empty entity filter [E], every result of [retrieve], and
    every result of the vector store's [search_similar], is attributed to
    [E]. *)
Theorem retrieve_entity_filter (self : FAISSRetriever.t) (vs : VectorStore.t)
    (env : Env) (query : string) (query_embedding : list float) (E : string)
    (top_k : Z) (min_similarity : float) :
  E ≠ "" →
  match FAISSRetriever.retrieve self env query (Some E) top_k min_similarity with
  | inl _ => True
  | inr results =>
      Forall (λ r, FAISSRetriever.athlete_name r = VStr E) results
  end
  ∧ Forall (λ r, md_athlete_name (VectorStore.sr_chunk r) = VStr E)
      (VectorStore.search_similar vs env query_embedding (Some E) top_k).
Proof.
  intros HE. split.
  - unfold FAISSRetriever.retrieve.
    destruct (EmbeddingGenerator.encode_one _ _); [done|].
    by apply retrieve_loop_filtered.
  - unfold VectorStore.search_similar.
    destruct (_ =? 0); [done|].
    unfold py_slice. apply Forall_take, Forall_drop.
    by apply search_loop_filtered.
Qed.

End EntityFilter.

(** ** How many candidates each search path asks for *)

Section SearchK.
Context `{Faiss}.

Lemma retrieve_loop_unpadded self env athlete_name top_k min_similarity hits acc :
  FAISSRetriever.faiss_id_to_metadata_id self !! (-1) = None →
  FAISSRetriever.retrieve_loop self env athlete_name top_k min_similarity hits acc
  = FAISSRetriever.retrieve_loop self env athlete_name top_k min_similarity
      (unpadded hits) acc.
Proof.
  intros Hpad. revert acc.
  induction hits as [|[sim idx] hits IH]; intros acc; [done|].
  unfold unpadded. cbn [List.filter snd]. fold (unpadded hits).
  destruct (Z.eqb_spec idx (-1)) as [->|Hidx]; cbn [negb].
  - cbn [FAISSRetriever.retrieve_loop]. rewrite Hpad.
    destruct (float_lt sim min_similarity); apply IH.
  - cbn [FAISSRetriever.retrieve_loop].
    destruct (float_lt sim min_similarity); [apply IH|].
    destruct (FAISSRetriever.faiss_id_to_metadata_id self !! idx); [|apply IH].
    destruct (find_by_id _ _); [|apply IH].
    destruct (opt_truthy athlete_name && _); [apply IH|].
    destruct (_ >=? top_k); [done|apply IH].
Qed.

Lemma search_loop_unpadded self env athlete_name top_k hits acc :
  VectorStore.search_loop self env athlete_name top_k hits acc
  = VectorStore.search_loop self env athlete_name top_k (unpadded hits) acc.
Proof.
  revert acc.
  induction hits as [|[sim idx] hits IH]; intros acc; [done|].
  unfold unpadded. cbn [List.filter snd]. fold (unpadded hits).
  destruct (Z.eqb_spec idx (-1)) as [->|Hidx]; cbn [negb].
  - cbn [VectorStore.search_loop]. apply IH.
  - cbn [VectorStore.search_loop].
    destruct (Z.eqb_spec idx (-1)) as [|_]; [done|].
    destruct (VectorStore.faiss_id_to_metadata_id self !! idx); [|apply IH].
    destruct (find_by_id _ _); [|apply IH].
    destruct (opt_truthy athlete_name && _); [apply IH|].
    destruct (_ >=? top_k); [done|apply IH].
Qed.

(** C2, as the code has it.  With a non-empty entity filter [retrieve]
    asks the index for [top_k * 10] candidates and without one for [top_k],
    and passes that number on as it is, also when the index holds fewer
    vectors; what it returns is computed from the answer to that request, the
    padding entries (id -1) left aside when the id-mapping has no entry for
    -1.  The vector store's [search_similar] caps its request at the number
    of vectors, with a filter ([min (top_k * 10) ntotal]) and without one
    ([min top_k ntotal]), and computes its results from the answer to the
    capped request, padding left aside. *)
Theorem search_k_requested (self : FAISSRetriever.t) (vs : VectorStore.t)
    (env : Env) (query : string) (query_vector : list float) (E : string)
    (top_k : Z) (min_similarity : float) :
  E ≠ "" →
  FAISSRetriever.faiss_id_to_metadata_id self !! (-1) = None →
  VectorStore.ntotal vs ≠ 0 →
  let asked (k : Z) q :=
    unpadded (IndexFlatIP_search (FAISSRetriever.index self) (normalize_L2 q) k) in
  let asked_store (k : Z) :=
    unpadded (IndexFlatIP_search (VectorStore.index vs)
                (normalize_L2 query_vector) k) in
  FAISSRetriever.search_k (Some E) top_k = top_k * 10
  ∧ FAISSRetriever.search_k None top_k = top_k
  ∧ VectorStore.search_k vs (Some E) top_k = Z.min (top_k * 10) (VectorStore.ntotal vs)
  ∧ VectorStore.search_k vs None top_k = Z.min top_k (VectorStore.ntotal vs)
  ∧ (∀ q, EmbeddingGenerator.encode_one (FAISSRetriever.embedder self) query = inr q →
       FAISSRetriever.retrieve self env query (Some E) top_k min_similarity
       = inr (FAISSRetriever.retrieve_loop self env (Some E) top_k min_similarity
                (asked (top_k * 10) q) [])
       ∧ FAISSRetriever.retrieve self env query None top_k min_similarity
         = inr (FAISSRetriever.retrieve_loop self env None top_k min_similarity
                  (asked top_k q) []))
  ∧ VectorStore.search_similar vs env query_vector (Some E) top_k
    = py_slice (VectorStore.search_loop vs env (Some E) top_k
                  (asked_store (Z.min (top_k * 10) (VectorStore.ntotal vs))) [])
        0 top_k
  ∧ VectorStore.search_similar vs env query_vector None top_k
    = py_slice (VectorStore.search_loop vs env None top_k
                  (asked_store (Z.min top_k (VectorStore.ntotal vs))) [])
        0 top_k.
Proof.
  intros HE Hpad Hfilled asked asked_store.
  assert (FAISSRetriever.search_k (Some E) top_k = top_k * 10) as Hk.
  { unfold FAISSRetriever.search_k. by rewrite opt_truthy_Some. }
  assert (VectorStore.search_k vs (Some E) top_k
          = Z.min (top_k * 10) (VectorStore.ntotal vs)) as Hks.
  { unfold VectorStore.search_k. by rewrite opt_truthy_Some. }
  split_and!; try done.
  - intros q Hq. unfold FAISSRetriever.retrieve. rewrite Hq. split.
    + rewrite Hk. f_equal. by apply retrieve_loop_unpadded.
    + f_equal. by apply retrieve_loop_unpadded.
  - unfold VectorStore.search_similar.
    rewrite (proj2 (Z.eqb_neq _ _) Hfilled). rewrite Hks.
    f_equal. apply search_loop_unpadded.
  - unfold VectorStore.search_similar.
    rewrite (proj2 (Z.eqb_neq _ _) Hfilled).
    f_equal. apply search_loop_unpadded.
Qed.

End SearchK.

(** ** Loading the persisted index *)

Section Loading.
Context `{Faiss}.

(** C3, as the code has it.  The vector store starts from the empty index
    with counter 0, without a warning, when one of the two files is absent,
    and does the same with a warning when both are there and one cannot be
    read or the mapping file lacks one of its two keys; two files that can be
    read are taken as they are, whether or not they fit each other.  The
    retriever's loader raises instead, in this order: [FileNotFoundError]
    without an index file, the read error of an unreadable index file
    (whatever the mapping file), [FileNotFoundError] without a mapping file,
    the read error of an unreadable mapping file; otherwise it loads, with
    the empty mapping when the key is missing. *)
Theorem load_index_tolerance (dim : Z) (d : Disk) :
  (index_file d = None ∨ mapping_file d = None →
     ∃ log, VectorStore.init dim d = (VectorStore.fresh dim, log) ∧ ¬ warned log)
  ∧ (∀ fi fm, index_file d = Some fi → mapping_file d = Some fm →
       unreadable fi ∨ unusable_mapping fm →
       ∃ log, VectorStore.init dim d = (VectorStore.fresh dim, log) ∧ warned log)
  ∧ (∀ idx m n, index_file d = Some (Content idx) →
       mapping_file d = Some (Content {| pkl_mapping := Some m; pkl_next_id := Some n |}) →
       ∃ log, VectorStore.init dim d
              = ({| VectorStore.embedding_dimension := dim;
                    VectorStore.index := idx;
                    VectorStore.faiss_id_to_metadata_id := m;
                    VectorStore.next_faiss_id := n |}, log)
              ∧ ¬ warned log)
  ∧ (index_file d = None →
       ∃ msg, FAISSRetriever._load_faiss_index d = inl (FileNotFoundError msg))
  ∧ (∀ msg, index_file d = Some (Corrupt msg) →
       FAISSRetriever._load_faiss_index d = inl (Exception msg))
  ∧ (∀ idx, index_file d = Some (Content idx) → mapping_file d = None →
       ∃ msg, FAISSRetriever._load_faiss_index d = inl (FileNotFoundError msg))
  ∧ (∀ idx msg, index_file d = Some (Content idx) →
       mapping_file d = Some (Corrupt msg) →
       FAISSRetriever._load_faiss_index d = inl (Exception msg))
  ∧ (∀ idx data, index_file d = Some (Content idx) →
       mapping_file d = Some (Content data) →
       FAISSRetriever._load_faiss_index d = inr (idx, default ∅ (pkl_mapping data))).
Proof.
  assert (∀ (l : LogLevel) msg, l ≠ WARNING →
            ¬ warned [{| level := l; message := msg |}]) as Hquiet.
  { intros l msg Hl (r & Hr & Hw). apply list_elem_of_singleton in Hr. by subst. }
  assert (warned [{| level := WARNING; message :=
    "Fehler beim Laden des Index. Erstelle neuen Index." |}]) as Hwarn.
  { eexists. split; [by apply list_elem_of_singleton|done]. }
  unfold VectorStore.init, VectorStore._load_index, FAISSRetriever._load_faiss_index,
    VectorStore.reset.
  split_and!.
  - intros [Hi|Hm].
    + rewrite Hi. eexists. split; [done|]. by apply Hquiet.
    + rewrite Hm. destruct (index_file d); (eexists; split; [done|]; by apply Hquiet).
  - intros fi fm -> -> Hbad. exists [{| level := WARNING; message :=
      "Fehler beim Laden des Index. Erstelle neuen Index." |}].
    split; [|done].
    destruct fi as [?|idx]; [done|]. destruct fm as [?|data]; [done|].
    destruct Hbad as [[]|Hbad]. simpl in Hbad.
    by destruct (pkl_mapping data), (pkl_next_id data), Hbad.
  - intros idx m n -> ->. eexists. split; [done|]. by apply Hquiet.
  - intros ->. eauto.
  - by intros msg ->.
  - intros idx -> ->. eauto.
  - by intros idx msg -> ->.
  - by intros idx data -> ->.
Qed.

End Loading.

(** ** The indexing loop of the vector store *)

Section IndexLoop.
Context `{Faiss}.
Import EmbeddingGenerator.

Lemma find_duplicate_same_key docs sid ci :
  find_duplicate docs sid ci = List.find (same_key sid ci) docs.
Proof. reflexivity. Qed.

Lemma find_none_filter {A} (f : A → bool) (l : list A) :
  List.find f l = None ↔ List.filter f l = [].
Proof.
  induction l as [|x l IH]; [done|]. simpl. destruct (f x); [done|]. exact IH.
Qed.

Lemma is_duplicate_false docs c :
  VectorStore.is_duplicate docs c = false ↔
  key_count docs (chunk_key c).1 (chunk_key c).2 = 0%nat.
Proof.
  unfold VectorStore.is_duplicate, key_count, chunk_key. simpl.
  rewrite find_duplicate_same_key, bool_decide_eq_false.
  rewrite <- eq_None_not_Some, find_none_filter. split.
  - by intros ->.
  - by intros ?%nil_length_inv.
Qed.

Lemma is_duplicate_true docs c :
  VectorStore.is_duplicate docs c = true ↔
  (0 < key_count docs (chunk_key c).1 (chunk_key c).2)%nat.
Proof.
  destruct (VectorStore.is_duplicate docs c) eqn:Hd.
  - split; [intros _|done].
    destruct (key_count docs _ _) eqn:Hk; [|lia].
    apply is_duplicate_false in Hk. congruence.
  - apply is_duplicate_false in Hd. split; [done|lia].
Qed.

(** One round of the loop either leaves the store, the counter and the
    pending rows as they are, or stores one document and queues one row. *)
Lemma index_chunk_cases skip now st c :
  let st' := VectorStore.index_chunk skip now st c in
  (VectorStore.self_ st' = VectorStore.self_ st
   ∧ VectorStore.inserted_count st' = VectorStore.inserted_count st
   ∧ VectorStore.embeddings_to_add st' = VectorStore.embeddings_to_add st
   ∧ metadata_collection (VectorStore.db st') = metadata_collection (VectorStore.db st)
   ∧ source_collection (VectorStore.db st') = source_collection (VectorStore.db st))
  ∨ (∃ oid,
       (skip = true →
        VectorStore.is_duplicate (metadata_collection (VectorStore.db st)) c = false)
       ∧ VectorStore.invalid_embedding (VectorStore.self_ st) c = false
       ∧ hd false (insert_faults (VectorStore.db st)) = false
       ∧ VectorStore.index (VectorStore.self_ st') = VectorStore.index (VectorStore.self_ st)
       ∧ VectorStore.embedding_dimension (VectorStore.self_ st')
         = VectorStore.embedding_dimension (VectorStore.self_ st)
       ∧ VectorStore.next_faiss_id (VectorStore.self_ st')
         = VectorStore.next_faiss_id (VectorStore.self_ st) + 1
       ∧ VectorStore.faiss_id_to_metadata_id (VectorStore.self_ st')
         = <[VectorStore.next_faiss_id (VectorStore.self_ st) := oid]>
             (VectorStore.faiss_id_to_metadata_id (VectorStore.self_ st))
       ∧ VectorStore.inserted_count st' = VectorStore.inserted_count st + 1
       ∧ VectorStore.embeddings_to_add st'
         = VectorStore.embeddings_to_add st ++ [normalize_L2 (embedding c)]
       ∧ metadata_collection (VectorStore.db st')
         = metadata_collection (VectorStore.db st)
           ++ [VectorStore.metadata_document
                 (VectorStore.next_faiss_id (VectorStore.self_ st)) now c oid]
       ∧ source_collection (VectorStore.db st') = source_collection (VectorStore.db st)).
Proof.
  unfold VectorStore.index_chunk.
  destruct (skip && VectorStore.is_duplicate _ c) eqn:Hdup; [by left|].
  destruct (VectorStore.invalid_embedding _ c) eqn:Hinv; [by left|].
  unfold insert_one.
  destruct (insert_faults (VectorStore.db st)) as [|[] faults] eqn:Hfaults;
    simpl; [right|by left|right].
  all: exists (next_object_id (VectorStore.db st)).
  all: split_and!; try done.
  all: intros ->; by destruct (VectorStore.is_duplicate _ c).
Qed.

End IndexLoop.

Section IndexTrace.
Context `{Faiss}.
Import EmbeddingGenerator.

Lemma invalid_embedding_dim s1 s2 c :
  VectorStore.embedding_dimension s1 = VectorStore.embedding_dimension s2 →
  VectorStore.invalid_embedding s1 c = VectorStore.invalid_embedding s2 c.
Proof. unfold VectorStore.invalid_embedding. by intros ->. Qed.

Lemma trace_docs_snoc next0 now tr c oid :
  trace_docs next0 now (tr ++ [(c, oid)]) =
  trace_docs next0 now tr
  ++ [VectorStore.metadata_document (next0 + Z.of_nat (length tr)) now c oid].
Proof.
  unfold trace_docs. rewrite imap_app. simpl. by rewrite Nat.add_0_r.
Qed.

Lemma trace_docs_length next0 now tr :
  length (trace_docs next0 now tr) = length tr.
Proof. unfold trace_docs. by rewrite length_imap. Qed.

(** What the loop has done after any number of rounds, told by the list [tr]
    of the chunks it stored, each with the [ObjectId] it was given. *)
Lemma index_loop_trace skip now chunks st0 :
  let st := foldl (VectorStore.index_chunk skip now) st0 chunks in
  let next0 := VectorStore.next_faiss_id (VectorStore.self_ st0) in
  ∃ tr : list (EnrichedChunk * ObjectId),
    tr.*1 `sublist_of` chunks
    ∧ metadata_collection (VectorStore.db st)
      = metadata_collection (VectorStore.db st0) ++ trace_docs next0 now tr
    ∧ VectorStore.embeddings_to_add st
      = VectorStore.embeddings_to_add st0 ++ trace_rows tr
    ∧ VectorStore.inserted_count st
      = VectorStore.inserted_count st0 + Z.of_nat (length tr)
    ∧ VectorStore.next_faiss_id (VectorStore.self_ st)
      = next0 + Z.of_nat (length tr)
    ∧ VectorStore.index (VectorStore.self_ st) = VectorStore.index (VectorStore.self_ st0)
    ∧ VectorStore.embedding_dimension (VectorStore.self_ st)
      = VectorStore.embedding_dimension (VectorStore.self_ st0)
    ∧ source_collection (VectorStore.db st) = source_collection (VectorStore.db st0)
    ∧ (∀ k, VectorStore.faiss_id_to_metadata_id (VectorStore.self_ st) !! k =
            if decide (next0 ≤ k < next0 + Z.of_nat (length tr))
            then snd <$> tr !! Z.to_nat (k - next0)
            else VectorStore.faiss_id_to_metadata_id (VectorStore.self_ st0) !! k)
    ∧ Forall (λ p, VectorStore.invalid_embedding (VectorStore.self_ st0) p.1 = false) tr.
Proof.
  induction chunks as [|c chunks IH] using rev_ind; intros st next0.
  { exists []. subst st. simpl. rewrite !app_nil_r.
    split_and!; try done; try lia.
    intros k. case_decide; [lia|done]. }
  subst st. rewrite foldl_app. simpl.
  destruct IH as (tr & Hsub & Hdocs & Hrows & Hcount & Hnext & Hindex & Hdim
                  & Hsrc & Hmap & Hvalid).
  fold next0 in Hdocs, Hnext, Hmap.
  set (mid := foldl (VectorStore.index_chunk skip now) st0 chunks) in *.
  destruct (index_chunk_cases skip now mid c)
    as [(Hself & Hc & Hr & Hd & Hs)
       |(oid & _ & Hinv & _ & Hi & Hdm & Hn & Hm & Hc & Hr & Hd & Hs)].
  - exists tr. rewrite Hself, Hc, Hr, Hd, Hs.
    split_and!; try done. by apply sublist_inserts_r.
  - exists (tr ++ [(c, oid)]).
    rewrite Hi, Hdm, Hn, Hm, Hc, Hr, Hd, Hs, Hdocs, Hrows, Hcount, Hnext.
    rewrite trace_docs_snoc, length_app. unfold trace_rows. rewrite map_app.
    simpl. rewrite <- !(assoc_L (++)).
    split_and!; try done; try lia.
    + by apply sublist_app.
    + by rewrite map_app.
    + intros k.
      destruct (decide (k = next0 + Z.of_nat (length tr))) as [->|Hk].
      * rewrite lookup_insert_eq. rewrite decide_True by lia.
        replace (Z.to_nat (next0 + Z.of_nat (length tr) - next0)) with (length tr)
          by lia.
        by rewrite lookup_app_r, Nat.sub_diag by lia.
      * rewrite lookup_insert_ne by done. rewrite Hmap.
        case_decide as H1; case_decide as H2; try lia; [|done].
        rewrite lookup_app_l by lia. done.
    + apply Forall_app. split; [done|]. apply Forall_singleton. simpl.
      by rewrite <- (invalid_embedding_dim (VectorStore.self_ mid)).
Qed.

End IndexTrace.

Section IndexChunks.
Context `{Faiss}.
Import EmbeddingGenerator.

Lemma foldl_invariant {A B} (P : A → Prop) (f : A → B → A) (l : list B) (a : A) :
  (∀ a b, P a → P (f a b)) → P a → P (foldl f a l).
Proof.
  intros Hstep. revert a. induction l as [|b l IH]; intros a Ha; [done|].
  simpl. apply IH. by apply Hstep.
Qed.

(** [index_chunks] as a whole, told by the chunks it stored. *)
Lemma index_chunks_trace self env chunks skip n self' env' :
  VectorStore.index_chunks self env chunks skip = (n, self', env') →
  ∃ tr : list (EnrichedChunk * ObjectId),
    tr.*1 `sublist_of` chunks
    ∧ n = Z.of_nat (length tr)
    ∧ metadata_collection (mongo env')
      = metadata_collection (mongo env)
        ++ trace_docs (VectorStore.next_faiss_id self) (clock env) tr
    ∧ VectorStore.index self' = VectorStore.index self ++ trace_rows tr
    ∧ VectorStore.next_faiss_id self'
      = VectorStore.next_faiss_id self + Z.of_nat (length tr)
    ∧ VectorStore.embedding_dimension self' = VectorStore.embedding_dimension self
    ∧ source_collection (mongo env') = source_collection (mongo env)
    ∧ clock env' = clock env
    ∧ (∀ k, VectorStore.faiss_id_to_metadata_id self' !! k =
            if decide (VectorStore.next_faiss_id self ≤ k
                       < VectorStore.next_faiss_id self + Z.of_nat (length tr))
            then snd <$> tr !! Z.to_nat (k - VectorStore.next_faiss_id self)
            else VectorStore.faiss_id_to_metadata_id self !! k)
    ∧ Forall (λ p, VectorStore.invalid_embedding self p.1 = false) tr.
Proof.
  unfold VectorStore.index_chunks. destruct chunks as [|c0 chunks'].
  { intros [= <- <- <-]. exists []. simpl. rewrite !app_nil_r.
    split_and!; try done; [lia|]. intros k. case_decide; [lia|done]. }
  intros Hrun.
  pose proof (index_loop_trace skip (clock env) (c0 :: chunks')
                {| VectorStore.self_ := self; VectorStore.db := mongo env;
                   VectorStore.inserted_count := 0;
                   VectorStore.embeddings_to_add := [] |}) as Htrace.
  cbv zeta in Htrace.
  remember (foldl (VectorStore.index_chunk skip (clock env)) _ (c0 :: chunks'))
    as st eqn:Hst in Hrun, Htrace.
  clear Hst.
  destruct Htrace as (tr & Hsub & Hdocs & Hrows & Hcount & Hnext & Hindex & Hdim
                      & Hsrc & Hmap & Hvalid).
  simpl in Hdocs, Hrows, Hcount, Hnext, Hindex, Hdim, Hsrc, Hmap, Hvalid.
  exists tr.
  destruct (VectorStore.embeddings_to_add st) as [|row rows] eqn:Hadd;
    revert Hrun; intros [= <- <- <-]; simpl.
  - rewrite <- Hrows, app_nil_r. by split_and!.
  - rewrite <- Hrows, Hindex. by split_and!.
Qed.

Lemma key_count_snoc docs d sid ci :
  key_count (docs ++ [d]) sid ci =
  (key_count docs sid ci + if same_key sid ci d then 1 else 0)%nat.
Proof.
  unfold key_count. rewrite List.filter_app, length_app. simpl.
  by destruct (same_key sid ci d).
Qed.

Lemma same_key_metadata_document sid ci fid now c oid :
  same_key sid ci (VectorStore.metadata_document fid now c oid) = true ↔
  chunk_key c = (sid, ci).
Proof.
  unfold same_key, chunk_key. simpl.
  rewrite andb_true_iff, !bool_decide_eq_true.
  split; [by intros [-> ->]|by intros [= -> ->]].
Qed.

(** With [skip_duplicates], a round of the loop keeps the keys unique. *)
Lemma index_chunk_unique_keys now st c :
  unique_keys (metadata_collection (VectorStore.db st)) →
  unique_keys (metadata_collection
                 (VectorStore.db (VectorStore.index_chunk true now st c))).
Proof.
  intros Huniq.
  destruct (index_chunk_cases true now st c)
    as [(_ & _ & _ & -> & _)|(oid & Hdup & _ & _ & _ & _ & _ & _ & _ & _ & -> & _)];
    [done|].
  intros sid ci. rewrite key_count_snoc.
  destruct (same_key sid ci _) eqn:Hkey; [|specialize (Huniq sid ci); lia].
  apply same_key_metadata_document in Hkey.
  specialize (Hdup eq_refl). apply is_duplicate_false in Hdup.
  rewrite Hkey in Hdup. simpl in Hdup. lia.
Qed.

Lemma index_chunks_unique_keys self env chunks n self' env' :
  VectorStore.index_chunks self env chunks true = (n, self', env') →
  unique_keys (metadata_collection (mongo env)) →
  unique_keys (metadata_collection (mongo env')).
Proof.
  unfold VectorStore.index_chunks. destruct chunks as [|c0 chunks'].
  { by intros [= <- <- <-]. }
  intros Hrun Huniq.
  set (st0 := {| VectorStore.self_ := self; VectorStore.db := mongo env;
                 VectorStore.inserted_count := 0;
                 VectorStore.embeddings_to_add := [] |}) in *.
  assert (unique_keys (metadata_collection (VectorStore.db
            (foldl (VectorStore.index_chunk true (clock env)) st0 (c0 :: chunks')))))
    as Hfinal.
  { apply (foldl_invariant
             (λ st, unique_keys (metadata_collection (VectorStore.db st))));
      [|done].
    intros st c. apply index_chunk_unique_keys. }
  destruct (VectorStore.embeddings_to_add _);
    revert Hrun; by intros [= <- <- <-].
Qed.

End IndexChunks.

(** ** Internal ids *)

Section DenseIds.
Context `{Faiss}.
Import EmbeddingGenerator.

Lemma dense_size (m : gmap Z ObjectId) (n : Z) :
  0 ≤ n → (∀ k, is_Some (m !! k) ↔ 0 ≤ k < n) → Z.of_nat (size m) = n.
Proof.
  intros Hn Hdense.
  assert (dom m = list_to_set (seqZ 0 n)) as Hdom.
  { apply set_eq. intros k.
    rewrite elem_of_dom, elem_of_list_to_set, elem_of_seqZ, Hdense. lia. }
  rewrite <- size_dom, Hdom, size_list_to_set by apply NoDup_seqZ.
  rewrite length_seqZ. lia.
Qed.

Lemma trace_docs_lookup next0 now tr j c oid :
  tr !! j = Some (c, oid) →
  trace_docs next0 now tr !! j
  = Some (VectorStore.metadata_document (next0 + Z.of_nat j) now c oid).
Proof. intros Hj. unfold trace_docs. by rewrite list_lookup_imap, Hj. Qed.

Lemma trace_docs_faiss_ids next0 now tr :
  faiss_id <$> trace_docs next0 now tr = seqZ next0 (Z.of_nat (length tr)).
Proof.
  apply list_eq. intros j. unfold trace_docs.
  rewrite list_lookup_fmap, list_lookup_imap.
  destruct (tr !! j) as [[c oid]|] eqn:Hj; simpl.
  - apply lookup_lt_Some in Hj. by rewrite lookup_seqZ_lt by lia.
  - apply lookup_ge_None in Hj. by rewrite lookup_seqZ_ge by lia.
Qed.

(** C8.  When the ids in use are [0 .. next_faiss_id - 1] and the index
    holds as many vectors, [index_chunks] keeps it so, whatever the database
    answers to its inserts: afterwards the counter, the number of vectors and
    the number of entries of the id-mapping are again equal.  The chunks it
    stores get the ids [ntotal], [ntotal + 1], ... in order; each id is the
    number of vectors that precede the chunk's row, the row sits at that
    position of the index, and the mapping sends the id to the chunk's
    metadata document. *)
Theorem index_chunks_dense_ids (self : VectorStore.t) (env : Env)
    (chunks : list EnrichedChunk) (skip : bool)
    (n : Z) (self' : VectorStore.t) (env' : Env) :
  dense_ids self →
  VectorStore.index_chunks self env chunks skip = (n, self', env') →
  dense_ids self'
  ∧ VectorStore.next_faiss_id self' = VectorStore.ntotal self'
  ∧ Z.of_nat (size (VectorStore.faiss_id_to_metadata_id self'))
    = VectorStore.next_faiss_id self'
  ∧ ∃ tr : list (EnrichedChunk * ObjectId),
      tr.*1 `sublist_of` chunks
      ∧ n = Z.of_nat (length tr)
      ∧ metadata_collection (mongo env')
        = metadata_collection (mongo env)
          ++ trace_docs (VectorStore.ntotal self) (clock env) tr
      ∧ VectorStore.index self' = VectorStore.index self ++ trace_rows tr
      ∧ faiss_id <$> trace_docs (VectorStore.ntotal self) (clock env) tr
        = seqZ (VectorStore.ntotal self) n
      ∧ ∀ (j : nat) c oid, tr !! j = Some (c, oid) →
          let id := VectorStore.ntotal self + Z.of_nat j in
          trace_docs (VectorStore.ntotal self) (clock env) tr !! j
          = Some (VectorStore.metadata_document id (clock env) c oid)
          ∧ id = Z.of_nat (length (VectorStore.index self ++ take j (trace_rows tr)))
          ∧ VectorStore.index self' !! Z.to_nat id = Some (normalize_L2 (embedding c))
          ∧ VectorStore.faiss_id_to_metadata_id self' !! id = Some oid.
Proof.
  intros [Hnext Hdense] Hrun.
  destruct (index_chunks_trace _ _ _ _ _ _ _ Hrun)
    as (tr & Hsub & -> & Hdocs & Hindex & Hnext' & _ & _ & _ & Hmap & _).
  rewrite Hnext in Hdocs, Hnext', Hmap.
  assert (VectorStore.next_faiss_id self' = VectorStore.ntotal self') as Heq.
  { rewrite Hnext'. unfold VectorStore.ntotal. rewrite Hindex, length_app.
    unfold trace_rows. rewrite length_map. lia. }
  assert (dense_ids self') as Hdense'.
  { split; [done|]. intros k. rewrite Hmap, Hnext'. case_decide as Hk.
    - split; [unfold VectorStore.ntotal in *; lia|].
      intros _. apply fmap_is_Some, lookup_lt_is_Some. lia.
    - rewrite Hdense. unfold VectorStore.ntotal in *. lia. }
  split_and!; [done|done| |].
  { apply dense_size; [|apply Hdense']. rewrite Heq. unfold VectorStore.ntotal. lia. }
  exists tr. split_and!; [done|done|done|done|apply trace_docs_faiss_ids|].
  intros j c oid Hj. pose proof (lookup_lt_Some _ _ _ Hj) as Hlt. cbv zeta.
  split_and!.
  - by apply trace_docs_lookup.
  - rewrite length_app, length_take. unfold trace_rows, VectorStore.ntotal.
    rewrite length_map. lia.
  - rewrite Hindex. unfold VectorStore.ntotal.
    rewrite lookup_app_r by lia.
    replace (Z.to_nat (Z.of_nat (length (VectorStore.index self)) + Z.of_nat j)
             - length (VectorStore.index self))%nat with j by lia.
    unfold trace_rows. by rewrite list_lookup_fmap, Hj.
  - rewrite Hmap. rewrite decide_True by lia.
    replace (Z.to_nat (VectorStore.ntotal self + Z.of_nat j - VectorStore.ntotal self))
      with j by lia.
    by rewrite Hj.
Qed.

End DenseIds.

(** ** Duplicate suppression *)

Section Duplicates.
Context `{Faiss}.
Import EmbeddingGenerator.

(** The state after a round that stores its chunk. *)
Lemma index_chunk_inserts skip now st c :
  (skip = true →
   VectorStore.is_duplicate (metadata_collection (VectorStore.db st)) c = false) →
  VectorStore.invalid_embedding (VectorStore.self_ st) c = false →
  hd false (insert_faults (VectorStore.db st)) = false →
  VectorStore.index_chunk skip now st c =
  {| VectorStore.self_ :=
       {| VectorStore.embedding_dimension :=
            VectorStore.embedding_dimension (VectorStore.self_ st);
          VectorStore.index := VectorStore.index (VectorStore.self_ st);
          VectorStore.faiss_id_to_metadata_id :=
            <[VectorStore.next_faiss_id (VectorStore.self_ st)
              := next_object_id (VectorStore.db st)]>
              (VectorStore.faiss_id_to_metadata_id (VectorStore.self_ st));
          VectorStore.next_faiss_id :=
            VectorStore.next_faiss_id (VectorStore.self_ st) + 1 |};
     VectorStore.db :=
       {| source_collection := source_collection (VectorStore.db st);
          metadata_collection :=
            metadata_collection (VectorStore.db st)
            ++ [VectorStore.metadata_document
                  (VectorStore.next_faiss_id (VectorStore.self_ st)) now c
                  (next_object_id (VectorStore.db st))];
          next_object_id := S (next_object_id (VectorStore.db st));
          insert_faults := tail (insert_faults (VectorStore.db st)) |};
     VectorStore.inserted_count := VectorStore.inserted_count st + 1;
     VectorStore.embeddings_to_add :=
       VectorStore.embeddings_to_add st ++ [normalize_L2 (embedding c)] |}.
Proof.
  intros Hdup Hinv Hfault. unfold VectorStore.index_chunk.
  replace (skip && VectorStore.is_duplicate _ c) with false
    by (destruct skip; [by rewrite Hdup|done]).
  rewrite Hinv. unfold insert_one.
  by destruct (insert_faults (VectorStore.db st)) as [|[] faults].
Qed.

Lemma index_chunk_skips_duplicate now st c :
  VectorStore.is_duplicate (metadata_collection (VectorStore.db st)) c = true →
  VectorStore.index_chunk true now st c = st.
Proof. intros Hdup. unfold VectorStore.index_chunk. by rewrite Hdup. Qed.

(** Once a chunk is stored, a chunk with the same key is a duplicate. *)
Lemma is_duplicate_after_insert docs fid now c1 oid c2 :
  chunk_key c1 = chunk_key c2 →
  VectorStore.is_duplicate
    (docs ++ [VectorStore.metadata_document fid now c1 oid]) c2 = true.
Proof.
  intros Hkey. apply is_duplicate_true. rewrite key_count_snoc.
  assert (same_key (chunk_key c2).1 (chunk_key c2).2
            (VectorStore.metadata_document fid now c1 oid) = true) as ->; [|lia].
  apply same_key_metadata_document. rewrite Hkey. by destruct (chunk_key c2).
Qed.

(** C4.  With [skip_duplicates], [index_chunks] never stores a second
    document for a key that is there already, so keys that are unique stay
    unique.  A key that is new and is submitted twice, with an embedding of
    the right dimension and a database that accepts the insert, gives one
    document and one vector, and an indexed count of 1: in one batch, and in
    two calls of which the second indexes nothing. *)
Theorem index_chunks_skip_duplicates (self : VectorStore.t) (env : Env)
    (c1 c2 : EnrichedChunk) :
  chunk_key c1 = chunk_key c2 →
  VectorStore.is_duplicate (metadata_collection (mongo env)) c1 = false →
  VectorStore.invalid_embedding self c1 = false →
  hd false (insert_faults (mongo env)) = false →
  (∃ self1 env1,
     VectorStore.index_chunks self env [c1; c2] true = (1, self1, env1)
     ∧ length (metadata_collection (mongo env1))
       = S (length (metadata_collection (mongo env)))
     ∧ length (VectorStore.index self1) = S (length (VectorStore.index self))
     ∧ key_count (metadata_collection (mongo env1)) (chunk_key c1).1 (chunk_key c1).2
       = 1%nat)
  ∧ (∃ self1 env1,
       VectorStore.index_chunks self env [c1] true = (1, self1, env1)
       ∧ VectorStore.index_chunks self1 env1 [c2] true = (0, self1, env1)
       ∧ length (metadata_collection (mongo env1))
         = S (length (metadata_collection (mongo env)))
       ∧ length (VectorStore.index self1) = S (length (VectorStore.index self))
       ∧ key_count (metadata_collection (mongo env1)) (chunk_key c1).1 (chunk_key c1).2
         = 1%nat)
  ∧ (∀ vs e chunks n vs' e',
       VectorStore.index_chunks vs e chunks true = (n, vs', e') →
       unique_keys (metadata_collection (mongo e)) →
       unique_keys (metadata_collection (mongo e'))).
Proof.
  intros Hkey Hnew Hvalid Hfault.
  pose proof Hnew as Hzero. apply is_duplicate_false in Hzero.
  assert (key_count
            (metadata_collection (mongo env)
             ++ [VectorStore.metadata_document (VectorStore.next_faiss_id self)
                   (clock env) c1 (next_object_id (mongo env))])
            (chunk_key c1).1 (chunk_key c1).2 = 1%nat) as Hone.
  { rewrite key_count_snoc, Hzero.
    assert (same_key (chunk_key c1).1 (chunk_key c1).2
              (VectorStore.metadata_document (VectorStore.next_faiss_id self)
                 (clock env) c1 (next_object_id (mongo env))) = true) as ->; [|done].
    apply same_key_metadata_document. by destruct (chunk_key c1). }
  split_and!.
  - unfold VectorStore.index_chunks. simpl foldl.
    rewrite (index_chunk_inserts true (clock env) _ c1) by done. simpl.
    rewrite index_chunk_skips_duplicate
      by (simpl; by apply is_duplicate_after_insert).
    simpl. eexists _, _. split; [reflexivity|]. simpl.
    rewrite !length_app. simpl. split_and!; [lia|lia|done].
  - unfold VectorStore.index_chunks. simpl foldl.
    rewrite (index_chunk_inserts true (clock env) _ c1) by done. simpl.
    eexists _, _. split; [reflexivity|]. simpl.
    rewrite index_chunk_skips_duplicate
      by (simpl; by apply is_duplicate_after_insert).
    simpl. rewrite !length_app. simpl. split_and!; [done|lia|lia|done].
  - intros vs e chunks n vs' e'. apply index_chunks_unique_keys.
Qed.

End Duplicates.

(** ** The batch run *)

Section Batch.
Context `{Faiss}.
Import AthleteIndexingPipeline.

Lemma split_text_terminates self s md prepend :
  TextChunker.chunk_overlap self < TextChunker.chunk_size self →
  is_Some (TextChunker.split_text self s md prepend).
Proof.
  intros Hstep. unfold TextChunker.split_text.
  destruct (_ || _); [eauto|]. cbv zeta.
  destruct (_ <=? _); [eauto|].
  apply TextChunkerFacts.split_loop_terminates; [done|lia].
Qed.

Lemma split_documents_loop_terminates self docs prepend acc :
  TextChunker.chunk_overlap self < TextChunker.chunk_size self →
  is_Some (TextChunker.split_documents_loop self docs prepend acc).
Proof.
  intros Hstep. revert acc. induction docs as [|doc docs IH]; intros acc.
  - simpl. eauto.
  - simpl. destruct (negb _); [apply IH|].
    destruct (split_text_terminates self (TextChunker.markdown doc)
                (TextChunker.document_metadata doc) prepend Hstep) as [cs ->].
    apply IH.
Qed.

(** A run of [process_athlete_indexing] ends when the chunker advances; it
    leaves the chunker as it is, and the statistics it returns are filed
    under the name it was called with. *)
Lemma process_athlete_indexing_ends self env name skip :
  TextChunker.chunk_overlap (chunker self) < TextChunker.chunk_size (chunker self) →
  ∃ o self1 env1,
    process_athlete_indexing self env name skip = (o, self1, env1)
    ∧ o ≠ Diverge
    ∧ chunker self1 = chunker self
    ∧ (∀ stats, o = Return stats → athlete_name stats = name).
Proof.
  intros Hstep. unfold process_athlete_indexing.
  destruct (fetch_documents self env name skip) as [|d ds].
  { eexists _, _, _. split; [done|]. split_and!; [done|done|].
    by intros stats [= <-]. }
  unfold split_into_chunks, TextChunker.split_documents.
  destruct (split_documents_loop_terminates (chunker self) (d :: ds)
              (prepend_metadata_to_chunks (config self)) [] Hstep) as [tcs ->].
  destruct (map chunk_dict tcs) as [|c cs].
  { eexists _, _, _. split; [done|]. split_and!; [done|done|].
    by intros stats [= <-]. }
  destruct (embed_chunks self (c :: cs)) as [e|enriched].
  { eexists _, _, _. split; [done|]. split_and!; done. }
  unfold index_chunks.
  destruct (VectorStore.index_chunks _ _ _ _) as [[n vs] env1].
  eexists _, _, _. split; [done|]. split_and!; [done|done|].
  by intros stats [= <-].
Qed.

Lemma process_all_loop_batch self env names acc :
  TextChunker.chunk_overlap (chunker self) < TextChunker.chunk_size (chunker self) →
  ∃ results self' env',
    process_all_loop self env names acc = Some (acc ++ results, self', env')
    ∧ athlete_name <$> results = names
    ∧ batch_run self env names results self' env'.
Proof.
  revert self env acc. induction names as [|name names IH]; intros self env acc Hstep.
  { exists [], self, env. simpl. rewrite app_nil_r. split_and!; [done|done|].
    constructor. }
  destruct (process_athlete_indexing_ends self env name true Hstep)
    as (o & self1 & env1 & Hrun & Hends & Hchunker & Hname).
  simpl. rewrite Hrun.
  destruct o as [stats|e|]; [| |done].
  - destruct (IH self1 env1 (acc ++ [stats])) as (results & self' & env' & -> & Hn & Hb);
      [by rewrite Hchunker|].
    exists (stats :: results), self', env'.
    rewrite <- (assoc_L (++)). simpl. split_and!; [done| |].
    + f_equal; [by apply Hname|exact Hn].
    + by eapply batch_return.
  - destruct (IH self1 env1 (acc ++ [error_entry name e]))
      as (results & self' & env' & Hloop & Hn & Hb); [by rewrite Hchunker|].
    exists (error_entry name e :: results), self', env'.
    unfold error_entry in Hloop at 1. rewrite Hloop.
    rewrite <- (assoc_L (++)). simpl. split_and!; [done| |].
    + f_equal. exact Hn.
    + by eapply batch_raise.
Qed.

(** C9.  When the chunker advances ([chunk_overlap < chunk_size]), the batch
    run returns, and what it returns has one entry per requested name, in the
    order of the names: the statistics of the run for that name when it
    returned, and an entry with status [error] and the message of the
    exception when it raised; the runs for the names that follow are made in
    either case. *)
Theorem process_all_athletes_entries (self : AthleteIndexingPipeline.t)
    (env : Env) (names : list string) :
  TextChunker.chunk_overlap (chunker self) < TextChunker.chunk_size (chunker self) →
  ∃ results self' env',
    process_all_athletes self env names = Some (results, self', env')
    ∧ length results = length names
    ∧ athlete_name <$> results = names
    ∧ batch_run self env names results self' env'.
Proof.
  intros Hstep.
  destruct (process_all_loop_batch self env names [] Hstep)
    as (results & self' & env' & Hloop & Hnames & Hbatch).
  exists results, self', env'. split_and!; try done.
  by rewrite <- Hnames, length_fmap.
Qed.

End Batch.

(** ** Idempotence of the indexing run *)

Section Lists.

Lemma elem_of_List_filter {A} (f : A → bool) (l : list A) (x : A) :
  x ∈ List.filter f l ↔ x ∈ l ∧ f x = true.
Proof. rewrite !list_elem_of_In. apply List.filter_In. Qed.

Lemma List_filter_nil {A} (f : A → bool) (l : list A) :
  (∀ x, x ∈ l → f x = false) → List.filter f l = [].
Proof.
  induction l as [|x l IH]; intros Hall; [done|]. simpl.
  rewrite (Hall x) by apply list_elem_of_here.
  apply IH. intros y Hy. apply Hall. by apply list_elem_of_further.
Qed.

Lemma elem_of_concat {A} (ls : list (list A)) (x : A) :
  x ∈ concat ls ↔ ∃ l, x ∈ l ∧ l ∈ ls.
Proof.
  rewrite list_elem_of_In, in_concat. split.
  - intros (l & Hl & Hx). exists l. by rewrite !list_elem_of_In.
  - intros (l & Hx & Hl). exists l. by rewrite <- !list_elem_of_In.
Qed.

Lemma sublist_same_length {A} (l1 l2 : list A) :
  l1 `sublist_of` l2 → length l1 = length l2 → l1 = l2.
Proof.
  induction 1 as [|x l1 l2 _ IH|x l1 l2 Hsub _]; intros Hlen; [done| |].
  - f_equal. apply IH. simpl in Hlen. lia.
  - apply sublist_length in Hsub. simpl in Hlen. lia.
Qed.

End Lists.

Section Passages.
Context `{Faiss}.
Import AthleteIndexingPipeline.

Lemma fetch_documents_passages self env name skip :
  fetch_documents self env name skip =
  if skip then
    if bool_decide (VectorStore.get_indexed_doc_ids env name = ∅)
    then passages env name
    else List.filter
           (λ doc, negb (bool_decide
              (VStr (TextChunker._id doc) ∈ VectorStore.get_indexed_doc_ids env name)))
           (passages env name)
  else passages env name.
Proof.
  unfold fetch_documents, passages.
  destruct (List.filter _ (source_collection (mongo env))); [|done].
  simpl. destruct skip; [|done]. by case_bool_decide.
Qed.

Lemma strip_short s : 100 ≤ len_str (strip s) → strip s ≠ "".
Proof. intros Hlen Hs. rewrite Hs in Hlen. unfold len_str in Hlen. simpl in Hlen. lia. Qed.

Lemma append_nonempty_r (s1 s2 : string) : s2 ≠ "" → s1 +:+ s2 ≠ "".
Proof. intros Hs2. destruct s1; [done|]. done. Qed.

(** A passage belongs to the athlete it was fetched for, has a text that is
    not blank, and a non-empty id. *)
Lemma passages_ok env name d :
  d ∈ passages env name →
  TextChunker.athlete_name d = name
  ∧ strip (TextChunker.markdown d) ≠ ""
  ∧ TextChunker._id d ≠ "".
Proof.
  unfold passages. intros Hd.
  apply elem_of_concat in Hd as (ds & Hd & Hds).
  apply list_elem_of_fmap in Hds as (raw & -> & Hraw).
  apply elem_of_List_filter in Hraw as [_ Hname%bool_decide_eq_true].
  unfold process_raw_doc in Hd.
  apply elem_of_concat in Hd as (ds & Hd & Hds).
  apply elem_of_lookup_imap in Hds as (idx & w & -> & _).
  unfold process_web_item in Hd.
  destruct (negb _ || _) eqn:Hshort; [by apply not_elem_of_nil in Hd|].
  apply list_elem_of_singleton in Hd as ->. simpl.
  apply orb_false_iff in Hshort as [_ Hlen%Z.ltb_ge].
  split_and!; [done|by apply strip_short|].
  by apply append_nonempty_r.
Qed.

End Passages.

Section ChunkMetadata.
Import TextChunker.

(** Chunking leaves every key of the metadata other than [chunk_index] as
    the caller gave it. *)
Lemma split_text_keeps_metadata self s md prepend chunks :
  split_text self s md prepend = Some chunks →
  Forall (λ c, ∀ k, k ≠ "chunk_index" → dict_get (metadata c) k = dict_get md k)
    chunks.
Proof.
  intros Hsplit.
  destruct (decide (strip s = "")) as [Hblank|Hblank].
  { rewrite split_text_blank in Hsplit by done. by simplify_eq. }
  rewrite split_text_not_blank in Hsplit by done. cbv zeta in Hsplit.
  destruct (_ <=? _).
  { simplify_eq. by apply Forall_singleton. }
  eapply (TextChunkerFacts.split_loop_Forall
            (λ c, ∀ k, k ≠ "chunk_index" → dict_get (metadata c) k = dict_get md k));
    [|apply Forall_nil_2|exact Hsplit].
  intros s' i n k Hk. simpl. unfold dict_get. by rewrite lookup_insert_ne.
Qed.

(** A text that is not blank gives at least one chunk. *)
Lemma split_text_nonempty self s md prepend chunks :
  0 ≤ chunk_size self → strip s ≠ "" →
  split_text self s md prepend = Some chunks → chunks ≠ [].
Proof.
  intros Hsize Hblank Hsplit.
  rewrite split_text_not_blank in Hsplit by done. cbv zeta in Hsplit.
  set (tokens := encode (encoding self) (prefixed_text s md prepend)) in *.
  destruct (Z.leb_spec (Z.of_nat (length tokens)) (chunk_size self)).
  { by simplify_eq. }
  assert (∃ fuel, length tokens = S fuel) as [fuel Hfuel].
  { exists (length tokens - 1)%nat. lia. }
  rewrite Hfuel in Hsplit at 1.
  rewrite TextChunkerFacts.split_loop_step in Hsplit by lia.
  apply TextChunkerFacts.split_loop_extends, prefix_length in Hsplit.
  intros ->. rewrite length_app in Hsplit. simpl in Hsplit. lia.
Qed.

Lemma split_documents_loop_prefix self docs prepend acc result :
  split_documents_loop self docs prepend acc = Some result →
  acc `prefix_of` result.
Proof.
  revert acc. induction docs as [|doc docs IH]; intros acc Hres.
  - simpl in Hres. by simplify_eq.
  - simpl in Hres. destruct (negb _); [by apply IH|].
    destruct (split_text _ _ _ _) as [chunks|]; [|done].
    apply IH in Hres. etrans; [|exact Hres]. by apply prefix_app_r.
Qed.

Lemma dict_get_source_doc_id doc :
  dict_get (document_metadata doc) "source_doc_id" = VStr (_id doc).
Proof. unfold dict_get, document_metadata. by rewrite lookup_insert_eq. Qed.

Lemma dict_get_athlete_name doc :
  dict_get (document_metadata doc) "athlete_name" = VStr (athlete_name doc).
Proof.
  unfold dict_get, document_metadata.
  rewrite lookup_insert_ne by done. by rewrite lookup_insert_eq.
Qed.

(** Every document with a text that is not blank is the source of one of the
    chunks [split_documents] returns. *)
Lemma split_documents_loop_covers self docs prepend acc result :
  0 ≤ chunk_size self →
  split_documents_loop self docs prepend acc = Some result →
  ∀ doc, doc ∈ docs → strip (markdown doc) ≠ "" →
    ∃ c, c ∈ result
         ∧ dict_get (metadata c) "source_doc_id" = VStr (_id doc)
         ∧ dict_get (metadata c) "athlete_name" = VStr (athlete_name doc).
Proof.
  intros Hsize. revert acc.
  induction docs as [|d docs IH]; intros acc Hres doc Hdoc Hblank.
  { by apply not_elem_of_nil in Hdoc. }
  simpl in Hres.
  apply elem_of_cons in Hdoc as [->|Hdoc].
  - pose proof (strip_nonempty _ Hblank) as Hne.
    unfold str_truthy in Hres. rewrite bool_decide_eq_false_2 in Hres by done.
    simpl in Hres.
    destruct (split_text self (markdown d) (document_metadata d) prepend)
      as [chunks|] eqn:Hsplit; [|done].
    pose proof (split_text_nonempty _ _ _ _ _ Hsize Hblank Hsplit) as Hnonempty.
    pose proof (split_text_keeps_metadata _ _ _ _ _ Hsplit) as Hkeys.
    destruct chunks as [|c chunks]; [done|].
    apply Forall_cons in Hkeys as [Hc _].
    exists c. split_and!.
    + apply split_documents_loop_prefix in Hres.
      eapply elem_of_prefix; [|exact Hres].
      apply elem_of_app. right. apply list_elem_of_here.
    + rewrite Hc by done. apply dict_get_source_doc_id.
    + rewrite Hc by done. apply dict_get_athlete_name.
  - destruct (negb _); [by eapply IH|].
    destruct (split_text _ _ _ _) as [chunks|]; [|done]. by eapply IH.
Qed.

End ChunkMetadata.

Section Idempotence.
Context `{Faiss}.
Import AthleteIndexingPipeline.

(** The ids [get_indexed_doc_ids] returns for an athlete. *)
Lemma indexed_doc_ids_elem env name v :
  v ∈ VectorStore.get_indexed_doc_ids env name ↔
  truthy v = true
  ∧ ∃ d, d ∈ metadata_collection (mongo env)
         ∧ md_athlete_name d = VStr name
         ∧ dict_get (md_metadata d) "source_doc_id" = v.
Proof.
  unfold VectorStore.get_indexed_doc_ids.
  rewrite elem_of_list_to_set, elem_of_List_filter.
  change (map ?f ?l) with (f <$> l). rewrite list_elem_of_fmap. split.
  - intros [(d & -> & Hd) Htruthy].
    apply elem_of_List_filter in Hd as [Hd Hname%bool_decide_eq_true]. eauto.
  - intros [Htruthy (d & Hd & Hname & <-)]. split; [|done].
    exists d. split; [done|]. apply elem_of_List_filter.
    by rewrite bool_decide_eq_true.
Qed.

(** When [index_chunks] reports as many chunks indexed as it was given, each
    of them has its metadata document in the store. *)
Lemma index_chunks_all_stored vs env enriched skip n vs' env' :
  VectorStore.index_chunks vs env enriched skip = (n, vs', env') →
  n = Z.of_nat (length enriched) →
  ∀ ec, ec ∈ enriched →
    ∃ d, d ∈ metadata_collection (mongo env')
         ∧ md_athlete_name d
           = EmbeddingGenerator.athlete_name (EmbeddingGenerator.chunk ec)
         ∧ md_metadata d
           = EmbeddingGenerator.metadata (EmbeddingGenerator.chunk ec).
Proof.
  intros Hrun Hall ec Hec.
  destruct (index_chunks_trace _ _ _ _ _ _ _ Hrun)
    as (tr & Hsub & -> & Hdocs & _).
  apply sublist_same_length in Hsub; [|rewrite length_fmap; lia].
  rewrite <- Hsub in Hec.
  apply list_elem_of_fmap in Hec as ([ec' oid] & -> & Hin).
  apply list_elem_of_lookup in Hin as [j Hj].
  eexists. split_and!.
  - rewrite Hdocs. apply elem_of_app. right.
    apply list_elem_of_lookup. exists j. by apply trace_docs_lookup.
  - done.
  - done.
Qed.

Lemma index_chunks_keeps_documents vs env enriched skip n vs' env' d :
  VectorStore.index_chunks vs env enriched skip = (n, vs', env') →
  d ∈ metadata_collection (mongo env) → d ∈ metadata_collection (mongo env').
Proof.
  intros Hrun Hd.
  destruct (index_chunks_trace _ _ _ _ _ _ _ Hrun) as (tr & _ & _ & -> & _).
  apply elem_of_app. by left.
Qed.

Lemma index_chunks_keeps_passages vs env enriched skip n vs' env' name :
  VectorStore.index_chunks vs env enriched skip = (n, vs', env') →
  passages env' name = passages env name.
Proof.
  intros Hrun.
  destruct (index_chunks_trace _ _ _ _ _ _ _ Hrun)
    as (tr & _ & _ & _ & _ & _ & _ & Hsrc & Hclock & _).
  unfold passages. by rewrite Hsrc, Hclock.
Qed.

(** When every passage of the athlete is among the indexed ids, a run with
    [skip_indexed] fetches nothing and returns at once. *)
Lemma all_indexed_nothing_to_do self env name :
  (∀ doc, doc ∈ passages env name →
     VStr (TextChunker._id doc) ∈ VectorStore.get_indexed_doc_ids env name) →
  fetch_documents self env name true = []
  ∧ process_athlete_indexing self env name true
    = (Return (no_new_documents name), self, env).
Proof.
  intros Hall.
  assert (fetch_documents self env name true = []) as Hfetch.
  { rewrite fetch_documents_passages. case_bool_decide as Hempty.
    - destruct (passages env name) as [|doc docs]; [done|].
      specialize (Hall doc (list_elem_of_here _ _)).
      rewrite Hempty in Hall. by apply not_elem_of_empty in Hall.
    - apply List_filter_nil. intros doc Hdoc.
      by rewrite (bool_decide_eq_true_2 _ (Hall doc Hdoc)). }
  split; [done|]. unfold process_athlete_indexing. by rewrite Hfetch.
Qed.

End Idempotence.

Section SecondRun.
Context `{Faiss}.
Import AthleteIndexingPipeline.

Lemma embed_chunks_chunks e chunks enriched :
  EmbeddingGenerator.embed_chunks e chunks = inr enriched →
  (length enriched ≤ length chunks)%nat
  ∧ (length enriched = length chunks →
     EmbeddingGenerator.chunk <$> enriched = chunks).
Proof.
  unfold EmbeddingGenerator.embed_chunks.
  destruct chunks as [|c cs]; [by intros [= <-]|].
  generalize (c :: cs). intros chunks.
  destruct (EmbeddingGenerator.embed_batch _ _) as [?|embeddings]; [done|].
  intros [= <-]. rewrite length_zip_with. split; [lia|].
  intros Hlen. apply fmap_zip_with_l; [done|lia].
Qed.

Lemma fetched_or_indexed self env name skip doc :
  doc ∈ passages env name →
  doc ∈ fetch_documents self env name skip
  ∨ VStr (TextChunker._id doc) ∈ VectorStore.get_indexed_doc_ids env name.
Proof.
  intros Hdoc. rewrite fetch_documents_passages.
  destruct (decide (VStr (TextChunker._id doc)
                    ∈ VectorStore.get_indexed_doc_ids env name)) as [Hin|Hout];
    [by right|left].
  destruct skip; [|done]. case_bool_decide; [done|].
  apply elem_of_List_filter. split; [done|].
  by rewrite bool_decide_eq_false_2.
Qed.


(** C1, as the code has it.  After a run of [process_athlete_indexing] that
    indexed every chunk it created (or that, skipping the indexed passages,
    found nothing new), a second run for the same athlete with
    [skip_indexed] fetches no document: it returns [no_new_documents] and
    leaves the metadata store and the vector index exactly as they were.
    The status [success] alone is not enough for this: a run returns it
    whatever it has indexed. *)
Theorem second_run_indexes_nothing (self : AthleteIndexingPipeline.t) (env : Env)
    (name : string) (skip : bool) (stats : Stats)
    (self1 : AthleteIndexingPipeline.t) (env1 : Env) :
  0 ≤ TextChunker.chunk_size (chunker self) →
  process_athlete_indexing self env name skip = (Return stats, self1, env1) →
  indexed_everything skip stats →
  fetch_documents self1 env1 name true = []
  ∧ process_athlete_indexing self1 env1 name true
    = (Return (no_new_documents name), self1, env1).
Proof.
  intros Hsize Hrun Hall. unfold process_athlete_indexing in Hrun.
  destruct (fetch_documents self env name skip) as [|d0 ds] eqn:Hfetch.
  { injection Hrun as <- <- <-.
    destruct Hall as [[Hstatus _]|[_ ->]]; [done|].
    split; [done|]. unfold process_athlete_indexing. by rewrite Hfetch. }
  unfold split_into_chunks, TextChunker.split_documents in Hrun.
  destruct (TextChunker.split_documents_loop _ _ _ _) as [tcs|] eqn:Hsplit;
    [|done].
  destruct (map chunk_dict tcs) as [|cd0 cds] eqn:Hchunks.
  { injection Hrun as <- <- <-. by destruct Hall as [[Hstatus _]|[Hstatus _]]. }
  destruct (embed_chunks self (cd0 :: cds)) as [?|enriched] eqn:Hembed; [done|].
  unfold index_chunks in Hrun.
  destruct (VectorStore.index_chunks _ _ _ _) as [[n vs] env'] eqn:Hindex.
  injection Hrun as <- <- <-.
  destruct Hall as [[_ Hcount]|[Hstatus _]]; [|done].
  cbn [chunks_indexed chunks_created] in Hcount. injection Hcount as ->.
  destruct (embed_chunks_chunks _ _ _ Hembed) as [Hle Hsame].
  destruct (index_chunks_trace _ _ _ _ _ _ _ Hindex) as (tr & Hsub & Hn & _).
  apply sublist_length in Hsub. rewrite length_fmap in Hsub.
  assert (length enriched = length (cd0 :: cds)) as Hlen by (cbn [length] in *; lia).
  specialize (Hsame Hlen).
  apply all_indexed_nothing_to_do. intros doc Hdoc.
  rewrite (index_chunks_keeps_passages _ _ _ _ _ _ _ name Hindex) in Hdoc.
  apply indexed_doc_ids_elem.
  destruct (passages_ok _ _ _ Hdoc) as (Hname & Hblank & Hid).
  split. { simpl. by rewrite bool_decide_eq_false_2. }
  destruct (fetched_or_indexed self env name skip doc Hdoc) as [Hfetched|Hindexed].
  - rewrite Hfetch in Hfetched.
    destruct (split_documents_loop_covers _ _ _ _ _ Hsize Hsplit
                doc Hfetched Hblank) as (c & Hc & Hsid & Hathlete).
    assert (chunk_dict c ∈ EmbeddingGenerator.chunk <$> enriched) as Hcd.
    { rewrite Hsame, <- Hchunks. by apply list_elem_of_fmap_2. }
    apply list_elem_of_fmap in Hcd as (ec & Hec & Hin).
    destruct (index_chunks_all_stored _ _ _ _ _ _ _ Hindex) with (ec := ec)
      as (d & Hd & Hdname & Hdmeta); [cbn [length] in Hlen; lia|done|].
    exists d. rewrite Hdname, Hdmeta, <- Hec. simpl.
    by rewrite Hathlete, Hsid, Hname.
  - apply indexed_doc_ids_elem in Hindexed as (_ & d & Hd & Hdname & Hdsid).
    exists d. split_and!; [|done|done].
    by eapply index_chunks_keeps_documents.
Qed.

End SecondRun.

(** ** The properties on concrete runs *)

Lemma second_run_indexes_nothing_witness :
  ∃ stats self1 env1,
    AthleteIndexingPipeline.process_athlete_indexing Demo.pipeline Demo.env0 "A" true
      = (Return stats, self1, env1)
    ∧ AthleteIndexingPipeline.chunks_indexed stats = Some 1
    ∧ AthleteIndexingPipeline.process_athlete_indexing self1 env1 "A" true
      = (Return (no_new_documents "A"), self1, env1).
Proof.
  eexists _, _, _. split; [by vm_compute|]. split; [reflexivity|].
  eapply (second_run_indexes_nothing (H := Demo.int_faiss)
            Demo.pipeline Demo.env0 "A" true).
  - simpl. lia.
  - by vm_compute.
  - left. split; reflexivity.
Defined.

Lemma insert_fault_runs :
  ∃ stats self1 env1 stats2 self2 env2,
    AthleteIndexingPipeline.process_athlete_indexing Demo.pipeline
      Demo.env_insert_fails "A" true = (Return stats, self1, env1)
    ∧ AthleteIndexingPipeline.status stats = "success"
    ∧ AthleteIndexingPipeline.chunks_created stats = Some 1
    ∧ AthleteIndexingPipeline.chunks_indexed stats = Some 0
    ∧ AthleteIndexingPipeline.process_athlete_indexing self1 env1 "A" true
      = (Return stats2, self2, env2)
    ∧ AthleteIndexingPipeline.chunks_indexed stats2 = Some 1
    ∧ length (metadata_collection (mongo env1)) = 0%nat
    ∧ length (metadata_collection (mongo env2)) = 1%nat
    ∧ VectorStore.ntotal (AthleteIndexingPipeline.vector_store self1) = 0
    ∧ VectorStore.ntotal (AthleteIndexingPipeline.vector_store self2) = 1.
Proof.
  eexists _, _, _, _, _, _.
  split; [by vm_compute|].
  split; [reflexivity|]. split; [reflexivity|]. split; [reflexivity|].
  split; [by vm_compute|].
  split; [reflexivity|]. split; [reflexivity|]. split; [reflexivity|].
  split; reflexivity.
Qed.

Lemma success_is_not_enough :
  ¬ (∀ (self : AthleteIndexingPipeline.t (H := Demo.int_faiss)) (env : Env)
       (name : string) stats self1 env1 stats2 self2 env2,
       0 ≤ TextChunker.chunk_size (AthleteIndexingPipeline.chunker self) →
       AthleteIndexingPipeline.process_athlete_indexing self env name true
         = (Return stats, self1, env1) →
       AthleteIndexingPipeline.status stats = "success" →
       AthleteIndexingPipeline.process_athlete_indexing self1 env1 name true
         = (Return stats2, self2, env2) →
       metadata_collection (mongo env2) = metadata_collection (mongo env1)
       ∧ VectorStore.ntotal (AthleteIndexingPipeline.vector_store self2)
         = VectorStore.ntotal (AthleteIndexingPipeline.vector_store self1)).
Proof.
  intros Hclaim.
  destruct insert_fault_runs
    as (stats & self1 & env1 & stats2 & self2 & env2 & Hrun1 & Hstatus & _ & _
        & Hrun2 & _ & Hdocs1 & Hdocs2 & Hn1 & Hn2).
  destruct (Hclaim Demo.pipeline Demo.env_insert_fails "A" stats self1 env1
              stats2 self2 env2) as [Hdocs Hn]; [simpl; lia|done|done|done|].
  rewrite Hn1, Hn2 in Hn. done.
Qed.

Lemma requests_not_as_claimed :
  ¬ (∀ (self : FAISSRetriever.t (H := Demo.int_faiss)) (E : string) (top_k : Z),
       0 < top_k → E ≠ "" →
       FAISSRetriever.search_k (Some E) top_k
       = Z.min (top_k * 10) (Z.of_nat (length (FAISSRetriever.index self))))
  ∧ ¬ (∀ (vs : VectorStore.t (H := Demo.int_faiss)) (top_k : Z),
         0 < top_k → VectorStore.search_k vs None top_k = top_k).
Proof.
  split.
  - intros Hcapped.
    specialize (Hcapped Demo.retriever "B" 5).
    assert (FAISSRetriever.search_k (Some "B") 5 = 50) as Hasked by reflexivity.
    assert (Z.min (5 * 10) (Z.of_nat (length (FAISSRetriever.index Demo.retriever))) = 3)
      as Hcap by reflexivity.
    rewrite Hasked, Hcap in Hcapped.
    assert (50 = 3) as Habsurd by (apply Hcapped; [lia|done]).
    lia.
  - intros Hexact.
    specialize (Hexact Demo.indexed.1.2 5).
    assert (VectorStore.search_k (H := Demo.int_faiss) Demo.indexed.1.2 None 5 = 3)
      as Hasked by reflexivity.
    rewrite Hasked in Hexact.
    assert (3 = 5) as Habsurd by (apply Hexact; lia).
    lia.
Qed.

Lemma search_k_requested_witness :
  FAISSRetriever.search_k (Some "B") 5 = 50
  ∧ VectorStore.search_k (H := Demo.int_faiss) Demo.indexed.1.2 (Some "B") 5 = 3.
Proof.
  pose proof (search_k_requested (H := Demo.int_faiss) Demo.retriever
              Demo.indexed.1.2 Demo.indexed.2 "axel" [1; 0] "B" 5 0) as Hw.
  cbv zeta in Hw.
  destruct Hw as (Hasked & _ & Hcapped & _).
  - done.
  - reflexivity.
  - by vm_compute.
  - split; [exact Hasked|]. rewrite Hcapped. reflexivity.
Defined.

Lemma loading_not_as_claimed :
  ¬ (∀ d : Disk (H := Demo.int_faiss),
       index_file d = None ∨ mapping_file d = None →
       ∃ loaded, FAISSRetriever._load_faiss_index d = inr loaded)
  ∧ ¬ (∀ (d : Disk (H := Demo.int_faiss)) idx m n,
         index_file d = Some (Content idx) →
         mapping_file d
         = Some (Content {| pkl_mapping := Some m; pkl_next_id := Some n |}) →
         n ≠ Z.of_nat (length idx) →
         ∃ log, VectorStore.init 2 d = (VectorStore.fresh 2, log) ∧ warned log).
Proof.
  split.
  - intros Htolerant.
    destruct (Htolerant Demo.empty_disk) as [loaded Hloaded]; [by left|].
    by vm_compute in Hloaded.
  - intros Hchecked.
    destruct (Hchecked Demo.inconsistent_disk [[3; 4]] ∅ 7) as (log & Hinit & _);
      [done|done|done|].
    by vm_compute in Hinit.
Qed.

Lemma load_index_tolerance_witness :
  VectorStore.init (H := Demo.int_faiss) 2 Demo.empty_disk
  = (VectorStore.fresh 2,
     [{| level := INFO;
         message := "Kein existierender Index gefunden. Starte mit leerem Index." |}])
  ∧ ∃ msg, FAISSRetriever._load_faiss_index (H := Demo.int_faiss) Demo.empty_disk
           = inl (FileNotFoundError msg).
Proof.
  destruct (load_index_tolerance (H := Demo.int_faiss) 2 Demo.empty_disk)
    as (_ & _ & _ & Hraises & _).
  split; [reflexivity|]. by apply Hraises.
Defined.

Lemma index_chunks_skip_duplicates_witness :
  ∃ self1 env1,
    VectorStore.index_chunks (H := Demo.int_faiss) Demo.store0 Demo.env0
      [Demo.chunk_a0; Demo.chunk_a0_again] true = (1, self1, env1)
    ∧ length (metadata_collection (mongo env1)) = 1%nat
    ∧ length (VectorStore.index self1) = 1%nat.
Proof.
  destruct (index_chunks_skip_duplicates (H := Demo.int_faiss) Demo.store0
              Demo.env0 Demo.chunk_a0 Demo.chunk_a0_again)
    as [(self1 & env1 & Hrun & Hdocs & Hrows & _) _];
    [reflexivity|reflexivity|reflexivity|reflexivity|].
  exists self1, env1. split_and!; [exact Hrun|exact Hdocs|exact Hrows].
Defined.

Lemma retrieve_entity_filter_witness :
  match FAISSRetriever.retrieve (H := Demo.int_faiss) Demo.retriever
          Demo.indexed.2 "axel" (Some "B") 5 0 with
  | inl _ => True
  | inr results => Forall (λ r, FAISSRetriever.athlete_name r = VStr "B") results
  end.
Proof.
  destruct (retrieve_entity_filter (H := Demo.int_faiss) Demo.retriever
              Demo.indexed.1.2 Demo.indexed.2 "axel" [1; 1] "B" 5 0)
    as [Hretrieve _]; [done|exact Hretrieve].
Defined.

(** The store [__init__] sets up has no id in use. *)
Lemma fresh_dense_ids `{Faiss} (dim : Z) : dense_ids (VectorStore.fresh dim).
Proof.
  split; [reflexivity|]. intros k. simpl. rewrite lookup_empty. split.
  - by intros [? ?].
  - lia.
Defined.

Lemma index_chunks_dense_ids_witness :
  ∃ self' env',
    VectorStore.index_chunks (H := Demo.int_faiss) Demo.store0 Demo.env_faulty
      [Demo.chunk_a0; Demo.chunk_a1; Demo.chunk_b0] true = (2, self', env')
    ∧ dense_ids self'
    ∧ size (VectorStore.faiss_id_to_metadata_id self') = 2%nat
    ∧ faiss_id <$> metadata_collection (mongo env') = [0; 1].
Proof.
  eexists _, _. split; [by vm_compute|].
  edestruct (index_chunks_dense_ids (H := Demo.int_faiss) Demo.store0
               Demo.env_faulty [Demo.chunk_a0; Demo.chunk_a1; Demo.chunk_b0] true)
    as (Hdense & _ & _ & _).
  - exact (fresh_dense_ids 2).
  - by vm_compute.
  - split_and!; [exact Hdense|reflexivity|reflexivity].
Defined.

Lemma process_all_athletes_entries_witness :
  ∃ results self' env',
    AthleteIndexingPipeline.process_all_athletes (H := Demo.int_faiss)
      Demo.moody_pipeline Demo.env0 ["A"; "B"; "C"] = Some (results, self', env')
    ∧ AthleteIndexingPipeline.athlete_name <$> results = ["A"; "B"; "C"]
    ∧ AthleteIndexingPipeline.status <$> results
      = ["success"; "error"; "no_new_documents"]
    ∧ AthleteIndexingPipeline.error <$> results
      = [None; Some "rate limit exceeded"; None].
Proof.
  destruct (process_all_athletes_entries (H := Demo.int_faiss)
              Demo.moody_pipeline Demo.env0 ["A"; "B"; "C"])
    as (results & self' & env' & Hrun & _ & Hnames & _).
  - simpl. lia.
  - exists results, self', env'. split; [exact Hrun|]. split; [exact Hnames|].
    assert (Some (results, self', env')
            = AthleteIndexingPipeline.process_all_athletes (H := Demo.int_faiss)
                Demo.moody_pipeline Demo.env0 ["A"; "B"; "C"]) as Hsame
      by (symmetry; exact Hrun).
    vm_compute in Hsame. injection Hsame as -> _ _. split; reflexivity.
Defined.

(** * Further properties of the code *)

(** ** The windows of the chunker *)

Section Windows.
Import TextChunker.

Lemma chunk_count_spec (step T k : Z) :
  0 < step → (k < (T + step - 1) / step ↔ k * step < T).
Proof.
  intros Hstep.
  pose proof (Z.mul_div_le (T + step - 1) step Hstep).
  pose proof (Z.mul_succ_div_gt (T + step - 1) step Hstep).
  split; intros Hk; nia.
Qed.

(** From round [k] on, the loop adds the windows [k], [k + 1], ... up to
    the last one that starts inside the token list. *)
Lemma split_loop_windows self fuel tokens md (k : Z) acc :
  0 < chunk_size self → chunk_overlap self < chunk_size self → 0 ≤ k →
  Z.of_nat (length tokens) - k * (chunk_size self - chunk_overlap self)
    ≤ Z.of_nat fuel →
  split_loop self fuel tokens md
    (k * (chunk_size self - chunk_overlap self)) k acc
  = Some (acc ++ (nth_window self tokens md
                    <$> seqZ k (chunk_count self (Z.of_nat (length tokens)) - k))).
Proof.
  intros Hsize Hstep. revert k acc.
  induction fuel as [|fuel IH]; intros k acc Hk Hfuel.
  - rewrite TextChunkerFacts.split_loop_done by lia.
    assert (¬ k < chunk_count self (Z.of_nat (length tokens))) as Hdone.
    { unfold chunk_count. cbv zeta. rewrite chunk_count_spec by lia. lia. }
    rewrite seqZ_nil by lia. by rewrite app_nil_r.
  - destruct (Z.lt_ge_cases (k * (chunk_size self - chunk_overlap self))
                (Z.of_nat (length tokens))) as [Hin|Hout].
    + rewrite TextChunkerFacts.split_loop_step by done.
      replace (k * (chunk_size self - chunk_overlap self)
               + (chunk_size self - chunk_overlap self))
        with ((k + 1) * (chunk_size self - chunk_overlap self)) by lia.
      rewrite IH by nia.
      assert (k < chunk_count self (Z.of_nat (length tokens))) as Hmore.
      { unfold chunk_count. cbv zeta. rewrite chunk_count_spec by lia. lia. }
      rewrite (seqZ_cons k) by lia. rewrite fmap_cons, <- (assoc_L (++)). simpl.
      do 3 f_equal; [|f_equal; f_equal; lia].
      unfold nth_window, window. cbv zeta.
      rewrite py_slice_inside by nia.
      replace (Z.min (k * (chunk_size self - chunk_overlap self) + chunk_size self)
                 (Z.of_nat (length tokens))
               - k * (chunk_size self - chunk_overlap self))
        with (Z.min (chunk_size self)
                (Z.of_nat (length tokens)
                 - k * (chunk_size self - chunk_overlap self))) by lia.
      f_equal. rewrite length_take, length_drop. nia.
    + rewrite TextChunkerFacts.split_loop_done by lia.
      assert (¬ k < chunk_count self (Z.of_nat (length tokens))) as Hdone.
      { unfold chunk_count. cbv zeta. rewrite chunk_count_spec by lia. lia. }
      rewrite seqZ_nil by lia. by rewrite app_nil_r.
Qed.

Lemma split_text_long self s md prepend :
  0 < chunk_size self → chunk_overlap self < chunk_size self →
  strip s ≠ "" →
  let tokens := encode (encoding self) (prefixed_text s md prepend) in
  chunk_size self < Z.of_nat (length tokens) →
  split_text self s md prepend
  = Some (nth_window self tokens md
            <$> seqZ 0 (chunk_count self (Z.of_nat (length tokens)))).
Proof.
  intros Hsize Hstep Hblank tokens Hlong.
  rewrite split_text_not_blank by done. cbv zeta. fold tokens.
  destruct (Z.leb_spec (Z.of_nat (length tokens)) (chunk_size self)); [lia|].
  pose proof (split_loop_windows self (length tokens) tokens md 0 []
                Hsize Hstep) as Hloop.
  rewrite Z.mul_0_l in Hloop. rewrite Hloop by lia. by rewrite Z.sub_0_r.
Qed.

End Windows.

Section WindowProperties.
Import TextChunker.

Lemma nth_window_token_count self tokens md i :
  token_count (nth_window self tokens md i)
  = Z.min (chunk_size self)
      (Z.of_nat (length tokens) - i * (chunk_size self - chunk_overlap self)).
Proof. reflexivity. Qed.

Lemma chunk_index_nth_window self tokens md (l : list Z) :
  chunk_index <$> (nth_window self tokens md <$> l) = l.
Proof.
  induction l as [|i l IH]; [done|]. rewrite !fmap_cons, IH. done.
Qed.

(** X1.  A text with more tokens than [chunk_size] (with
    [0 < chunk_size] and [chunk_overlap < chunk_size]) is cut into exactly
    the windows that start every [chunk_size - chunk_overlap] tokens: there
    are as many as the token count divided by the step, rounded up; they are
    numbered from 0; each holds at least one and at most [chunk_size]
    tokens. *)
Theorem split_text_windows (self : TextChunker.t) (s : string)
    (md : gmap string PyVal) (prepend : bool) :
  0 < chunk_size self → chunk_overlap self < chunk_size self →
  strip s ≠ "" →
  let tokens := encode (encoding self) (prefixed_text s md prepend) in
  let n := chunk_count self (Z.of_nat (length tokens)) in
  chunk_size self < Z.of_nat (length tokens) →
  ∃ chunks,
    split_text self s md prepend = Some chunks
    ∧ chunks = nth_window self tokens md <$> seqZ 0 n
    ∧ Z.of_nat (length chunks) = n
    ∧ chunk_index <$> chunks = seqZ 0 n
    ∧ Forall (λ c, 0 < token_count c ≤ chunk_size self) chunks.
Proof.
  intros Hsize Hstep Hblank tokens n Hlong.
  eexists. split; [by apply split_text_long|]. split; [done|].
  assert (0 ≤ n) as Hn.
  { destruct (Z.le_gt_cases 0 n) as [|Hneg]; [done|].
    assert (0 < n); [|lia]. unfold n, chunk_count. cbv zeta.
    rewrite chunk_count_spec by lia. lia. }
  split_and!.
  - rewrite length_fmap, length_seqZ. subst n tokens. lia.
  - apply chunk_index_nth_window.
  - apply Forall_fmap, Forall_forall. intros i Hi.
    change (0 < token_count (nth_window self tokens md i) ≤ chunk_size self).
    apply elem_of_seqZ in Hi. rewrite nth_window_token_count.
    assert (i * (chunk_size self - chunk_overlap self) < Z.of_nat (length tokens)).
    { apply chunk_count_spec; [lia|]. subst n tokens. unfold chunk_count in Hi. lia. }
    subst tokens. lia.
Qed.

Lemma split_text_windows_witness :
  ∃ chunks,
    split_text Demo.chunker_10_2 "the quick brown fox jumps" ∅ false = Some chunks
    ∧ token_count <$> chunks = [10; 10; 9; 1].
Proof.
  destruct (split_text_windows Demo.chunker_10_2 "the quick brown fox jumps" ∅ false)
    as (chunks & Hsplit & Hchunks & _); [simpl; lia|simpl; lia|by vm_compute| |].
  - vm_compute. reflexivity.
  - exists chunks. split; [exact Hsplit|]. rewrite Hchunks. by vm_compute.
Defined.

(** X2.  With an overlap that is not negative no token is lost: every token
    of such a text is in the text of one of the chunks.  The token at
    position [p] is one of the tokens the text of chunk number [p / step] is
    decoded from, at position [p - i * step] of them, and [token_count] is
    the number of these tokens. *)
Theorem split_text_covers_every_token (self : TextChunker.t) (s : string)
    (md : gmap string PyVal) (prepend : bool) (p : Z) :
  0 ≤ chunk_overlap self → chunk_overlap self < chunk_size self →
  strip s ≠ "" →
  let tokens := encode (encoding self) (prefixed_text s md prepend) in
  let step := chunk_size self - chunk_overlap self in
  chunk_size self < Z.of_nat (length tokens) →
  0 ≤ p < Z.of_nat (length tokens) →
  ∃ chunks c w,
    split_text self s md prepend = Some chunks
    ∧ c ∈ chunks
    ∧ text c = decode (encoding self) w
    ∧ token_count c = Z.of_nat (length w)
    ∧ chunk_index c * step ≤ p < chunk_index c * step + token_count c
    ∧ is_Some (tokens !! Z.to_nat p)
    ∧ w !! Z.to_nat (p - chunk_index c * step) = tokens !! Z.to_nat p.
Proof.
  intros Hoverlap Hstep Hblank tokens step Hlong Hp.
  assert (0 < step) as Hpos by (unfold step; lia).
  pose proof (Z.mul_div_le p step Hpos).
  pose proof (Z.mul_succ_div_gt p step Hpos).
  assert (0 ≤ p / step) by (apply Z.div_pos; lia).
  set (i := p / step) in *.
  set (cnt := Z.min (chunk_size self) (Z.of_nat (length tokens) - i * step)).
  eexists _, (nth_window self tokens md i),
    (take (Z.to_nat cnt) (drop (Z.to_nat (i * step)) tokens)).
  split; [apply split_text_long; (done || lia)|].
  assert (i * step ≤ p < i * step + cnt) as Hin by (unfold cnt; nia).
  split_and!.
  - apply list_elem_of_fmap_2, elem_of_seqZ. split; [lia|].
    rewrite Z.add_0_l. unfold chunk_count. cbv zeta. fold step.
    apply chunk_count_spec; [done|]. fold tokens. nia.
  - done.
  - rewrite nth_window_token_count. fold step. fold cnt.
    rewrite length_take, length_drop. unfold cnt. nia.
  - simpl. lia.
  - rewrite nth_window_token_count. simpl. fold step. fold cnt. lia.
  - apply lookup_lt_is_Some. lia.
  - simpl. rewrite lookup_take_lt by lia. rewrite lookup_drop. f_equal. lia.
Qed.

Lemma split_text_covers_every_token_witness :
  ∃ chunks c w,
    split_text Demo.chunker_10_2 "the quick brown fox jumps" ∅ false = Some chunks
    ∧ c ∈ chunks
    ∧ text c = decode Demo.char_encoding w
    ∧ w !! Z.to_nat (17 - chunk_index c * 8) = Some 111.
Proof.
  destruct (split_text_covers_every_token Demo.chunker_10_2
              "the quick brown fox jumps" ∅ false 17)
    as (chunks & c & w & Hsplit & Hc & Htext & _ & _ & _ & Hw).
  - simpl. lia.
  - simpl. lia.
  - by vm_compute.
  - vm_compute. reflexivity.
  - vm_compute. split; [discriminate|reflexivity].
  - exists chunks, c, w. split; [exact Hsplit|]. split; [exact Hc|].
    split; [exact Htext|]. exact Hw.
Defined.

(** X3.  When [chunk_overlap] is not smaller than [chunk_size], [split_text]
    never returns for a text with more tokens than [chunk_size]: the window
    does not advance, whatever the number of rounds. *)
Theorem split_text_never_returns (self : TextChunker.t) (s : string)
    (md : gmap string PyVal) (prepend : bool) :
  0 ≤ chunk_size self → chunk_size self ≤ chunk_overlap self →
  strip s ≠ "" →
  let tokens := encode (encoding self) (prefixed_text s md prepend) in
  chunk_size self < Z.of_nat (length tokens) →
  split_text self s md prepend = None
  ∧ ∀ fuel, split_loop self fuel tokens md 0 0 [] = None.
Proof.
  intros Hsize Hstuck Hblank tokens Hlong.
  assert (∀ fuel, split_loop self fuel tokens md 0 0 [] = None) as Hloop.
  { intros fuel. apply TextChunkerFacts.split_loop_diverges; [done|lia]. }
  split; [|done].
  rewrite split_text_not_blank by done. cbv zeta. fold tokens.
  destruct (Z.leb_spec (Z.of_nat (length tokens)) (chunk_size self)); [lia|].
  apply Hloop.
Qed.

End WindowProperties.

Lemma split_text_never_returns_witness :
  TextChunker.split_text Demo.chunker_stuck "the quick brown fox" ∅ false = None.
Proof.
  apply (split_text_never_returns Demo.chunker_stuck "the quick brown fox" ∅ false).
  - simpl. lia.
  - simpl. lia.
  - by vm_compute.
  - vm_compute. reflexivity.
Defined.

Section Provenance.
Import TextChunker.

Lemma split_documents_loop_sources self docs prepend acc result
    (P : TextChunk → Prop) :
  (∀ doc c, doc ∈ docs →
     (∀ k, k ≠ "chunk_index" →
        dict_get (metadata c) k = dict_get (document_metadata doc) k) → P c) →
  Forall P acc →
  split_documents_loop self docs prepend acc = Some result →
  Forall P result.
Proof.
  revert acc. induction docs as [|d docs IH]; intros acc HP Hacc Hres.
  { simpl in Hres. by simplify_eq. }
  simpl in Hres.
  assert (∀ doc c, doc ∈ docs →
     (∀ k, k ≠ "chunk_index" →
        dict_get (metadata c) k = dict_get (document_metadata doc) k) → P c) as HP'.
  { intros doc c Hdoc. apply HP. by apply list_elem_of_further. }
  destruct (negb _); [by eapply IH|].
  destruct (split_text _ _ _ _) as [chunks|] eqn:Hsplit; [|done].
  eapply IH; [done| |exact Hres].
  apply Forall_app. split; [done|].
  eapply Forall_impl; [by apply split_text_keeps_metadata in Hsplit|].
  intros c Hc. eapply HP; [apply list_elem_of_here|done].
Qed.

(** X4.  When the chunker advances ([chunk_overlap < chunk_size], with
    [chunk_size >= 0]) [split_documents] returns, and every chunk it returns
    comes from one of the documents it was given: its metadata carries that
    document's id as [source_doc_id] and its athlete, topic, url and title;
    and every document with a text that is not blank has at least one
    chunk. *)
Theorem split_documents_provenance (self : TextChunker.t)
    (docs : list Document) (prepend : bool) :
  0 ≤ chunk_size self → chunk_overlap self < chunk_size self →
  ∃ chunks,
    split_documents self docs prepend = Some chunks
    ∧ Forall (λ c, ∃ doc, doc ∈ docs
                 ∧ dict_get (metadata c) "source_doc_id" = VStr (_id doc)
                 ∧ dict_get (metadata c) "athlete_name" = VStr (athlete_name doc)
                 ∧ dict_get (metadata c) "topic" = VStr (topic doc)
                 ∧ dict_get (metadata c) "url" = VStr (url doc)
                 ∧ dict_get (metadata c) "title" = VStr (title doc)) chunks
    ∧ (∀ doc, doc ∈ docs → strip (markdown doc) ≠ "" →
         ∃ c, c ∈ chunks ∧ dict_get (metadata c) "source_doc_id" = VStr (_id doc)).
Proof.
  intros Hsize Hstep.
  destruct (split_documents_loop_terminates self docs prepend [] Hstep)
    as [chunks Hsplit].
  exists chunks. split; [done|]. split.
  - eapply split_documents_loop_sources; [|apply Forall_nil_2|exact Hsplit].
    intros doc c Hdoc Hkeys. exists doc. split; [done|].
    rewrite !Hkeys by done. unfold dict_get, document_metadata.
    split_and!.
    + by rewrite lookup_insert_eq.
    + rewrite lookup_insert_ne by done. by rewrite lookup_insert_eq.
    + do 2 rewrite lookup_insert_ne by done. by rewrite lookup_insert_eq.
    + do 3 rewrite lookup_insert_ne by done. by rewrite lookup_insert_eq.
    + do 4 rewrite lookup_insert_ne by done. by rewrite lookup_insert_eq.
  - intros doc Hdoc Hblank.
    destruct (split_documents_loop_covers _ _ _ _ _ Hsize Hsplit doc Hdoc Hblank)
      as (c & Hc & Hsid & _).
    eauto.
Qed.

Lemma split_documents_provenance_witness :
  ∃ chunks,
    split_documents Demo.chunker_10_2
      [Demo.document "65a1_0" "A" "triple axel and more"; Demo.document "65b2_0" "B" "loop"]
      true = Some chunks
    ∧ Forall (λ c, dict_get (metadata c) "source_doc_id" = VStr "65a1_0"
                   ∨ dict_get (metadata c) "source_doc_id" = VStr "65b2_0") chunks.
Proof.
  destruct (split_documents_provenance Demo.chunker_10_2
      [Demo.document "65a1_0" "A" "triple axel and more"; Demo.document "65b2_0" "B" "loop"]
      true) as (chunks & Hsplit & Hsources & _); [simpl; lia|simpl; lia|].
  exists chunks. split; [exact Hsplit|].
  eapply Forall_impl; [exact Hsources|].
  intros c (doc & Hdoc & Hsid & _). rewrite Hsid.
  apply elem_of_cons in Hdoc as [->|Hdoc]; [by left|].
  apply list_elem_of_singleton in Hdoc as ->. by right.
Defined.

End Provenance.

(** ** Persistence of the vector store *)

Section Persistence.
Context `{Faiss}.
Import EmbeddingGenerator.

Lemma save_index_succeeds self d :
  writes_succeed d →
  index_file (VectorStore._save_index self d).1 = Some (Content (VectorStore.index self))
  ∧ mapping_file (VectorStore._save_index self d).1
    = Some (Content {| pkl_mapping := Some (VectorStore.faiss_id_to_metadata_id self);
                       pkl_next_id := Some (VectorStore.next_faiss_id self) |})
  ∧ ¬ error_logged (VectorStore._save_index self d).2.
Proof.
  unfold writes_succeed, VectorStore._save_index.
  destruct (write_faults d) as [|[w|] [|[w'|] faults]]; simpl; intros [? ?];
    try done.
  all: split_and!; [done|done|].
  all: intros (r & Hr & Hlevel); apply list_elem_of_singleton in Hr; by subst.
Qed.

Lemma init_after_save self d :
  writes_succeed d →
  VectorStore.init (VectorStore.embedding_dimension self)
    (VectorStore._save_index self d).1
  = (self, [{| level := INFO; message := "FAISS Index geladen" |}]).
Proof.
  intros (Hi & Hm & _)%(save_index_succeeds self).
  unfold VectorStore.init, VectorStore._load_index. rewrite Hi, Hm. simpl.
  by destruct self.
Qed.

Lemma load_after_save self d :
  writes_succeed d →
  FAISSRetriever._load_faiss_index (VectorStore._save_index self d).1
  = inr (VectorStore.index self, VectorStore.faiss_id_to_metadata_id self).
Proof.
  intros (Hi & Hm & _)%(save_index_succeeds self).
  unfold FAISSRetriever._load_faiss_index. by rewrite Hi, Hm.
Qed.

(** X5.  What a save leaves for the next start.  When both writes are
    accepted, a new [VectorStore] of the same dimension is the saved object
    again (index, id-mapping, counter) and a [FAISSRetriever] gets the same
    index and id-mapping; nothing is logged as an error.  A write that raises
    is only logged: when the first write fails and leaves the index file
    alone, both files are what they were; when the second write fails and
    leaves the mapping file alone, the new index file stands beside the old
    mapping file, and the next [VectorStore] takes the pair as it is, with the
    old id-mapping and counter and without a warning. *)
Theorem save_index_then_load (self : VectorStore.t) (d : Disk) :
  (writes_succeed d →
     VectorStore.init (VectorStore.embedding_dimension self)
       (VectorStore._save_index self d).1
     = (self, [{| level := INFO; message := "FAISS Index geladen" |}])
     ∧ FAISSRetriever._load_faiss_index (VectorStore._save_index self d).1
       = inr (VectorStore.index self, VectorStore.faiss_id_to_metadata_id self)
     ∧ ¬ error_logged (VectorStore._save_index self d).2)
  ∧ (index_write_fails d Untouched →
     index_file (VectorStore._save_index self d).1 = index_file d
     ∧ mapping_file (VectorStore._save_index self d).1 = mapping_file d
     ∧ error_logged (VectorStore._save_index self d).2)
  ∧ (∀ old_mapping old_next,
       mapping_write_fails d Untouched →
       mapping_file d = Some (Content {| pkl_mapping := Some old_mapping;
                                         pkl_next_id := Some old_next |}) →
       VectorStore.init (VectorStore.embedding_dimension self)
         (VectorStore._save_index self d).1
       = ({| VectorStore.embedding_dimension := VectorStore.embedding_dimension self;
             VectorStore.index := VectorStore.index self;
             VectorStore.faiss_id_to_metadata_id := old_mapping;
             VectorStore.next_faiss_id := old_next |},
          [{| level := INFO; message := "FAISS Index geladen" |}])
       ∧ error_logged (VectorStore._save_index self d).2).
Proof.
  assert (error_logged
            [{| level := ERROR; message := "Fehler beim Speichern des Index" |}])
    as Hlogged.
  { eexists. split; [by apply list_elem_of_singleton|done]. }
  split_and!.
  - intros Hok. split_and!.
    + by apply init_after_save.
    + by apply load_after_save.
    + by apply save_index_succeeds.
  - unfold index_write_fails, VectorStore._save_index.
    destruct (write_faults d) as [|[w|] faults]; simpl; intros [=]. by subst.
  - intros old_mapping old_next. unfold mapping_write_fails, VectorStore._save_index.
    destruct (write_faults d) as [|[w|] [|[w'|] faults]]; simpl;
      intros [? ?] Hold; try done.
    simplify_eq. split; [|done].
    unfold VectorStore.init, VectorStore._load_index. simpl. by rewrite Hold.
Qed.

(** Whether [index_chunks] saves: it does when it has indexed something. *)
Lemma index_chunks_disk self env chunks skip n self' env' :
  VectorStore.index_chunks self env chunks skip = (n, self', env') →
  disk env' = if decide (n = 0) then disk env
              else (VectorStore._save_index self' (disk env)).1.
Proof.
  unfold VectorStore.index_chunks. destruct chunks as [|c0 chunks'].
  { by intros [= <- <- <-]. }
  intros Hrun.
  pose proof (index_loop_trace skip (clock env) (c0 :: chunks')
                {| VectorStore.self_ := self; VectorStore.db := mongo env;
                   VectorStore.inserted_count := 0;
                   VectorStore.embeddings_to_add := [] |}) as Htrace.
  cbv zeta in Htrace.
  remember (foldl (VectorStore.index_chunk skip (clock env)) _ (c0 :: chunks'))
    as st eqn:Hst in Hrun, Htrace.
  clear Hst.
  destruct Htrace as (tr & _ & _ & Hrows & Hcount & _).
  simpl in Hrows, Hcount.
  destruct (VectorStore.embeddings_to_add st) as [|row rows] eqn:Hadd;
    revert Hrun; intros [= <- <- <-]; simpl.
  - destruct tr; [|done]. rewrite Hcount. by rewrite decide_True.
  - destruct tr; [done|]. rewrite Hcount. rewrite decide_False; [done|].
    simpl length. lia.
Qed.

(** When nothing was stored the object is what it was. *)
Lemma index_chunks_nothing self env chunks skip self' env' :
  VectorStore.index_chunks self env chunks skip = (0, self', env') →
  self' = self ∧ disk env' = disk env
  ∧ metadata_collection (mongo env') = metadata_collection (mongo env).
Proof.
  intros Hrun.
  destruct (index_chunks_trace _ _ _ _ _ _ _ Hrun)
    as (tr & _ & Hn & Hdocs & Hindex & Hnext & Hdim & _ & _ & Hmap & _).
  destruct tr; [|simpl in Hn; lia].
  simpl in Hdocs, Hindex, Hnext. rewrite app_nil_r in Hdocs, Hindex.
  rewrite Z.add_0_r in Hnext.
  split_and!; [|by rewrite (index_chunks_disk _ _ _ _ _ _ _ Hrun)|done].
  destruct self, self'. simpl in *. f_equal; try done.
  apply map_eq. intros k. rewrite Hmap. case_decide; [lia|done].
Qed.

(** X6.  [index_chunks] saves once, after the new rows are in the index,
    when it has indexed at least one chunk, and not at all when it has
    indexed nothing (the object is then unchanged).  When the two writes of
    that save are accepted, a new [VectorStore] and a [FAISSRetriever] opened
    on the files see every vector and every id of the run.  When the first
    write raises and leaves the file alone, the count is returned all the
    same and the metadata documents are stored, but the files are as before
    the run. *)
Theorem index_chunks_persists (self : VectorStore.t) (env : Env)
    (chunks : list EnrichedChunk) (skip : bool)
    (n : Z) (self' : VectorStore.t) (env' : Env) :
  VectorStore.index_chunks self env chunks skip = (n, self', env') →
  (n ≠ 0 → writes_succeed (disk env) →
   (VectorStore.init (VectorStore.embedding_dimension self) (disk env')).1 = self'
   ∧ FAISSRetriever._load_faiss_index (disk env')
     = inr (VectorStore.index self', VectorStore.faiss_id_to_metadata_id self'))
  ∧ (n ≠ 0 → index_write_fails (disk env) Untouched →
     index_file (disk env') = index_file (disk env)
     ∧ mapping_file (disk env') = mapping_file (disk env)
     ∧ Z.of_nat (length (metadata_collection (mongo env')))
       = Z.of_nat (length (metadata_collection (mongo env))) + n)
  ∧ (n = 0 → self' = self ∧ disk env' = disk env).
Proof.
  intros Hrun. split_and!.
  - intros Hn Hok. rewrite (index_chunks_disk _ _ _ _ _ _ _ Hrun).
    rewrite decide_False by done.
    destruct (index_chunks_trace _ _ _ _ _ _ _ Hrun)
      as (_ & _ & _ & _ & _ & _ & <- & _).
    by rewrite init_after_save, load_after_save.
  - intros Hn Hfails. rewrite (index_chunks_disk _ _ _ _ _ _ _ Hrun).
    rewrite decide_False by done.
    destruct (index_chunks_trace _ _ _ _ _ _ _ Hrun)
      as (tr & _ & -> & -> & _).
    rewrite length_app, trace_docs_length.
    unfold index_write_fails in Hfails. unfold VectorStore._save_index.
    destruct (write_faults (disk env)) as [|[w|] faults]; simpl in Hfails;
      simplify_eq. simpl. split_and!; [done|done|lia].
  - intros ->. by destruct (index_chunks_nothing _ _ _ _ _ _ Hrun) as (? & ? & _).
Qed.

End Persistence.

Lemma index_chunks_persists_witness :
  (VectorStore.init (H := Demo.int_faiss) 2 (disk Demo.indexed.2)).1
  = Demo.indexed.1.2.
Proof.
  destruct (index_chunks_persists (H := Demo.int_faiss) Demo.store0 Demo.env0
              [Demo.chunk_a0; Demo.chunk_a1; Demo.chunk_b0] true
              3 Demo.indexed.1.2 Demo.indexed.2) as [Hsaved _].
  - by vm_compute.
  - apply Hsaved; [done|]. split; reflexivity.
Defined.

(** ** What [index_chunks] stores, and what it leaves alone *)

Section Conservation.
Context `{Faiss}.
Import EmbeddingGenerator.

(** X7.  [index_chunks] only adds: the documents and the vectors that were
    there stay where they are, the source collection is not touched.  The
    count it returns is the number of documents it has added and the number
    of vectors it has added, and is at most the number of chunks.  Every
    document it adds is the copy of one of the chunks, and that chunk has an
    embedding of the configured dimension; chunks with an empty embedding or
    one of another length are never stored. *)
Theorem index_chunks_conservation (self : VectorStore.t) (env : Env)
    (chunks : list EnrichedChunk) (skip : bool)
    (n : Z) (self' : VectorStore.t) (env' : Env) :
  VectorStore.index_chunks self env chunks skip = (n, self', env') →
  0 ≤ n ≤ Z.of_nat (length chunks)
  ∧ VectorStore.ntotal self' = VectorStore.ntotal self + n
  ∧ VectorStore.index self `prefix_of` VectorStore.index self'
  ∧ VectorStore.embedding_dimension self' = VectorStore.embedding_dimension self
  ∧ source_collection (mongo env') = source_collection (mongo env)
  ∧ (∃ new_docs,
       metadata_collection (mongo env') = metadata_collection (mongo env) ++ new_docs
       ∧ Z.of_nat (length new_docs) = n
       ∧ Forall (λ d, ∃ c, c ∈ chunks
                   ∧ Z.of_nat (length (embedding c))
                     = VectorStore.embedding_dimension self
                   ∧ embedding c ≠ []
                   ∧ md_text d = text (chunk c)
                   ∧ md_metadata d = metadata (chunk c)
                   ∧ md_athlete_name d = athlete_name (chunk c)
                   ∧ md_chunk_index d = chunk_index (chunk c)) new_docs)
  ∧ (Forall (λ c, VectorStore.invalid_embedding self c = true) chunks → n = 0).
Proof.
  intros Hrun.
  destruct (index_chunks_trace _ _ _ _ _ _ _ Hrun)
    as (tr & Hsub & -> & Hdocs & Hindex & _ & Hdim & Hsrc & _ & _ & Hvalid).
  pose proof (sublist_length _ _ Hsub) as Hlen. rewrite length_fmap in Hlen.
  split_and!; try done; try lia.
  - unfold VectorStore.ntotal. rewrite Hindex, length_app.
    unfold trace_rows. rewrite length_map. lia.
  - rewrite Hindex. by apply prefix_app_r.
  - exists (trace_docs (VectorStore.next_faiss_id self) (clock env) tr).
    split_and!; [done|by rewrite trace_docs_length|].
    apply Forall_forall. intros d Hd.
    apply elem_of_lookup_imap in Hd as (j & [c oid] & -> & Hj).
    exists c. simpl.
    assert (c ∈ chunks) as Hc.
    { eapply elem_of_sublist; [|exact Hsub].
      apply list_elem_of_fmap. exists (c, oid). split; [done|].
      by eapply list_elem_of_lookup_2. }
    rewrite Forall_forall in Hvalid.
    assert (VectorStore.invalid_embedding self c = false) as Hc'.
    { apply (Hvalid (c, oid)). by eapply list_elem_of_lookup_2. }
    unfold VectorStore.invalid_embedding in Hc'. cbv zeta in Hc'.
    apply orb_false_iff in Hc' as [Hne%Z.eqb_neq Heq%negb_false_iff%Z.eqb_eq].
    split_and!; try done. intros Hnil. by rewrite Hnil in Hne.
  - intros Hinvalid. destruct tr as [|[c oid] tr]; [done|].
    apply Forall_cons in Hvalid as [Hc _]. simpl in Hc.
    rewrite Forall_forall in Hinvalid.
    rewrite Hinvalid in Hc; [done|].
    eapply elem_of_sublist; [|exact Hsub]. apply list_elem_of_here.
Qed.

End Conservation.

Lemma index_chunks_conservation_witness :
  VectorStore.ntotal (H := Demo.int_faiss) Demo.indexed.1.2 = 0 + 3
  ∧ source_collection (mongo Demo.indexed.2) = source_collection (mongo Demo.env0).
Proof.
  destruct (index_chunks_conservation (H := Demo.int_faiss) Demo.store0 Demo.env0
              [Demo.chunk_a0; Demo.chunk_a1; Demo.chunk_b0] true
              3 Demo.indexed.1.2 Demo.indexed.2)
    as (_ & Hvectors & _ & _ & Hsource & _).
  - by vm_compute.
  - split; [exact Hvectors|exact Hsource].
Defined.

(** ** From a vector id to its document *)

Section Join.
Context `{Faiss}.
Import EmbeddingGenerator.

Lemma find_by_id_app_l docs more oid d :
  find_by_id docs oid = Some d → find_by_id (docs ++ more) oid = Some d.
Proof.
  unfold find_by_id. induction docs as [|d0 docs IH]; [done|]. simpl.
  by destruct (bool_decide (md_id d0 = oid)).
Qed.

Lemma find_by_id_new docs d :
  Forall (λ d0, (md_id d0 < md_id d)%nat) docs →
  find_by_id (docs ++ [d]) (md_id d) = Some d.
Proof.
  unfold find_by_id. induction 1 as [|d0 docs Hlt _ IH]; simpl.
  - by rewrite bool_decide_eq_true_2.
  - rewrite bool_decide_eq_false_2 by lia. exact IH.
Qed.

(** A round of the loop keeps the way from the ids to the documents. *)
Lemma index_chunk_joined skip now st c :
  well_keyed (VectorStore.db st) ∧ joined (VectorStore.self_ st) (VectorStore.db st) →
  well_keyed (VectorStore.db (VectorStore.index_chunk skip now st c))
  ∧ joined (VectorStore.self_ (VectorStore.index_chunk skip now st c))
      (VectorStore.db (VectorStore.index_chunk skip now st c)).
Proof.
  intros [Hkeyed [Hjoin Hbound]]. unfold VectorStore.index_chunk.
  destruct (skip && VectorStore.is_duplicate _ c); [done|].
  destruct (VectorStore.invalid_embedding _ c); [done|].
  unfold insert_one.
  assert (∀ faults,
    let db' := {| source_collection := source_collection (VectorStore.db st);
                  metadata_collection :=
                    metadata_collection (VectorStore.db st)
                    ++ [VectorStore.metadata_document
                          (VectorStore.next_faiss_id (VectorStore.self_ st)) now c
                          (next_object_id (VectorStore.db st))];
                  next_object_id := S (next_object_id (VectorStore.db st));
                  insert_faults := faults |} in
    let self' := {| VectorStore.embedding_dimension :=
                      VectorStore.embedding_dimension (VectorStore.self_ st);
                    VectorStore.index := VectorStore.index (VectorStore.self_ st);
                    VectorStore.faiss_id_to_metadata_id :=
                      <[VectorStore.next_faiss_id (VectorStore.self_ st)
                        := next_object_id (VectorStore.db st)]>
                        (VectorStore.faiss_id_to_metadata_id (VectorStore.self_ st));
                    VectorStore.next_faiss_id :=
                      VectorStore.next_faiss_id (VectorStore.self_ st) + 1 |} in
    well_keyed db' ∧ joined self' db') as Hstored.
  { intros faults db' self'. split; [|split].
    - unfold well_keyed. simpl. apply Forall_app. split.
      + eapply Forall_impl; [exact Hkeyed|]. simpl. lia.
      + apply Forall_singleton. simpl. lia.
    - simpl. intros k oid.
      destruct (decide (k = VectorStore.next_faiss_id (VectorStore.self_ st)))
        as [->|Hk].
      + rewrite lookup_insert_eq. intros [= <-]. eexists. split.
        * by apply (find_by_id_new _ (VectorStore.metadata_document _ now c _)).
        * done.
      + rewrite lookup_insert_ne by done. intros Hold.
        destruct (Hjoin k oid Hold) as (d & Hd & Hid).
        exists d. split; [by apply find_by_id_app_l|done].
    - simpl. intros k.
      destruct (decide (k = VectorStore.next_faiss_id (VectorStore.self_ st)))
        as [->|Hk]; [lia|].
      rewrite lookup_insert_ne by done. intros Hold%Hbound. lia. }
  destruct (insert_faults (VectorStore.db st)) as [|[] faults]; simpl.
  - apply Hstored.
  - done.
  - apply Hstored.
Qed.

(** X8.  The join between the index and the collection is kept by
    [index_chunks]: if every id of the mapping leads to a stored document whose
    [faiss_id] is that id, and lies below the counter, the same holds after the
    call, for the old ids and for the new ones. *)
Theorem index_chunks_keeps_join (self : VectorStore.t) (env : Env)
    (chunks : list EnrichedChunk) (skip : bool)
    (n : Z) (self' : VectorStore.t) (env' : Env) :
  well_keyed (mongo env) →
  joined self (mongo env) →
  VectorStore.index_chunks self env chunks skip = (n, self', env') →
  well_keyed (mongo env') ∧ joined self' (mongo env').
Proof.
  intros Hkeyed Hjoin. unfold VectorStore.index_chunks.
  destruct chunks as [|c0 chunks']; [by intros [= <- <- <-]|].
  intros Hrun.
  set (st0 := {| VectorStore.self_ := self; VectorStore.db := mongo env;
                 VectorStore.inserted_count := 0;
                 VectorStore.embeddings_to_add := [] |}) in *.
  pose proof (foldl_invariant
    (λ st, well_keyed (VectorStore.db st)
           ∧ joined (VectorStore.self_ st) (VectorStore.db st))
    (VectorStore.index_chunk skip (clock env)) (c0 :: chunks') st0
    (λ st c, index_chunk_joined skip (clock env) st c)
    (conj Hkeyed Hjoin)) as [Hk' Hj'].
  destruct (VectorStore.embeddings_to_add _);
    revert Hrun; by intros [= <- <- <-].
Qed.

End Join.

Lemma index_chunks_keeps_join_witness :
  well_keyed (mongo Demo.indexed.2)
  ∧ joined (H := Demo.int_faiss) Demo.indexed.1.2 (mongo Demo.indexed.2).
Proof.
  apply (index_chunks_keeps_join (H := Demo.int_faiss) Demo.store0 Demo.env0
           [Demo.chunk_a0; Demo.chunk_a1; Demo.chunk_b0] true 3).
  - apply Forall_nil_2.
  - split; intros k; simpl; rewrite lookup_empty.
    + by intros oid.
    + by intros [].
  - by vm_compute.
Defined.

(** ** What a search returns *)

Section SearchResults.
Context `{Faiss}.

Lemma search_loop_spec self env athlete_name top_k hits acc :
  ∃ new,
    VectorStore.search_loop self env athlete_name top_k hits acc = acc ++ new
    ∧ map (λ r, (VectorStore.sr_similarity r, VectorStore.sr_faiss_id r)) new
      `sublist_of` hits
    ∧ Forall (λ r, VectorStore.sr_faiss_id r ≠ -1
                ∧ ∃ oid, VectorStore.faiss_id_to_metadata_id self
                           !! VectorStore.sr_faiss_id r = Some oid
                         ∧ find_by_id (metadata_collection (mongo env)) oid
                           = Some (VectorStore.sr_chunk r)) new
    ∧ Z.of_nat (length (acc ++ new)) ≤ Z.max (Z.of_nat (length acc) + 1) top_k.
Proof.
  revert acc. induction hits as [|[dist idx] hits IH]; intros acc.
  { exists []. rewrite app_nil_r. split_and!; [done|done|done|lia]. }
  assert (∃ new,
    VectorStore.search_loop self env athlete_name top_k hits acc = acc ++ new
    ∧ map (λ r, (VectorStore.sr_similarity r, VectorStore.sr_faiss_id r)) new
      `sublist_of` (dist, idx) :: hits
    ∧ Forall (λ r, VectorStore.sr_faiss_id r ≠ -1
                ∧ ∃ oid, VectorStore.faiss_id_to_metadata_id self
                           !! VectorStore.sr_faiss_id r = Some oid
                         ∧ find_by_id (metadata_collection (mongo env)) oid
                           = Some (VectorStore.sr_chunk r)) new
    ∧ Z.of_nat (length (acc ++ new)) ≤ Z.max (Z.of_nat (length acc) + 1) top_k)
    as Hskip.
  { destruct (IH acc) as (new & Hout & Hsub & Hres & Hlen).
    exists new. split_and!; try done. by apply sublist_cons. }
  simpl VectorStore.search_loop.
  destruct (Z.eqb_spec idx (-1)) as [|Hidx]; [done|].
  destruct (VectorStore.faiss_id_to_metadata_id self !! idx) as [oid|] eqn:Hoid;
    [|done].
  destruct (find_by_id _ oid) as [d|] eqn:Hd; [|done].
  destruct (opt_truthy athlete_name && _); [done|].
  set (r := {| VectorStore.sr_chunk := d; VectorStore.sr_similarity := dist;
               VectorStore.sr_faiss_id := idx |}).
  assert (VectorStore.sr_faiss_id r ≠ -1
          ∧ ∃ oid, VectorStore.faiss_id_to_metadata_id self
                     !! VectorStore.sr_faiss_id r = Some oid
                   ∧ find_by_id (metadata_collection (mongo env)) oid
                     = Some (VectorStore.sr_chunk r)) as Hr.
  { split; [done|]. by exists oid. }
  destruct (Z.geb_spec (Z.of_nat (length (acc ++ [r]))) top_k) as [Hfull|Hmore].
  - exists [r]. split_and!; [done| |by apply Forall_singleton|].
    + simpl. apply sublist_skip, sublist_nil_l.
    + rewrite length_app. simpl. lia.
  - destruct (IH (acc ++ [r])) as (new & Hout & Hsub & Hres & Hlen).
    exists (r :: new). rewrite Hout, <- (assoc_L (++)). simpl.
    split_and!; [done| |by apply Forall_cons|].
    + by apply sublist_skip.
    + rewrite <- (assoc_L (++)) in Hlen. cbn [app] in Hlen.
      rewrite length_app in Hmore. rewrite (length_app acc [r]) in Hlen.
      rewrite length_app in Hlen. rewrite length_app.
      cbn [length] in *. lia.
Qed.

(** X9.  For [top_k >= 1], [search_similar] returns at most [top_k] results.
    They are hits of the FAISS search it ran, in FAISS's order, none of them
    the padding id -1; the chunk of each is the document the id-mapping and
    the collection give for the hit's id.  When the mapping is joined to the
    collection, the [faiss_id] stored in the chunk is the id of the hit. *)
Theorem search_similar_results (self : VectorStore.t) (env : Env)
    (query_embedding : list float) (athlete_name : option string) (top_k : Z) :
  1 ≤ top_k →
  let hits :=
    IndexFlatIP_search (VectorStore.index self) (normalize_L2 query_embedding)
      (VectorStore.search_k self athlete_name top_k) in
  let results :=
    VectorStore.search_similar self env query_embedding athlete_name top_k in
  Z.of_nat (length results) ≤ top_k
  ∧ map (λ r, (VectorStore.sr_similarity r, VectorStore.sr_faiss_id r)) results
    `sublist_of` hits
  ∧ Forall (λ r, VectorStore.sr_faiss_id r ≠ -1
              ∧ ∃ oid, VectorStore.faiss_id_to_metadata_id self
                         !! VectorStore.sr_faiss_id r = Some oid
                       ∧ find_by_id (metadata_collection (mongo env)) oid
                         = Some (VectorStore.sr_chunk r)) results
  ∧ (joined self (mongo env) →
     Forall (λ r, faiss_id (VectorStore.sr_chunk r) = VectorStore.sr_faiss_id r)
       results).
Proof.
  intros Hk hits results.
  assert (Z.of_nat (length results) ≤ top_k
    ∧ map (λ r, (VectorStore.sr_similarity r, VectorStore.sr_faiss_id r)) results
      `sublist_of` hits
    ∧ Forall (λ r, VectorStore.sr_faiss_id r ≠ -1
                ∧ ∃ oid, VectorStore.faiss_id_to_metadata_id self
                           !! VectorStore.sr_faiss_id r = Some oid
                         ∧ find_by_id (metadata_collection (mongo env)) oid
                           = Some (VectorStore.sr_chunk r)) results)
    as (Hlen & Hsub & Hres).
  { subst results. unfold VectorStore.search_similar.
    destruct (_ =? 0).
    { split_and!; [simpl; lia|apply sublist_nil_l|done]. }
    fold hits.
    destruct (search_loop_spec self env athlete_name top_k hits [])
      as (new & Hout & Hsub & Hres & Hlen).
    rewrite Hout. simpl in *.
    pose proof (py_slice_prefix_sublist new top_k) as Hpre.
    remember (py_slice new 0 top_k) as out eqn:Hslice. clear Hslice.
    destruct Hpre as [rest ->].
    rewrite length_app in Hlen. rewrite map_app in Hsub.
    apply Forall_app in Hres as [Hres _].
    split_and!; [lia| |done].
    etrans; [|exact Hsub]. by apply sublist_inserts_r. }
  split_and!; try done.
  intros [Hjoin _]. eapply Forall_impl; [exact Hres|].
  intros r (_ & oid & Hoid & Hd). simpl.
  destruct (Hjoin _ _ Hoid) as (d & Hd' & Hid). congruence.
Qed.

Lemma retrieve_loop_spec self env athlete_name top_k min_similarity hits acc :
  ∃ new,
    FAISSRetriever.retrieve_loop self env athlete_name top_k min_similarity hits acc
    = acc ++ new
    ∧ Forall (λ r, float_lt (FAISSRetriever.similarity r) min_similarity = false
                ∧ ∃ idx d,
                    (FAISSRetriever.similarity r, idx) ∈ hits
                    ∧ FAISSRetriever.faiss_id_to_metadata_id self !! idx
                      = Some (md_id d)
                    ∧ d ∈ metadata_collection (mongo env)
                    ∧ FAISSRetriever.text r = md_text d
                    ∧ FAISSRetriever.athlete_name r = md_athlete_name d
                    ∧ FAISSRetriever.source_doc_id (FAISSRetriever.metadata r)
                      = dict_get (md_metadata d) "source_doc_id") new
    ∧ Z.of_nat (length (acc ++ new)) ≤ Z.max (Z.of_nat (length acc) + 1) top_k.
Proof.
  revert acc. induction hits as [|[sim idx] hits IH]; intros acc.
  { exists []. rewrite app_nil_r. split_and!; [done|done|lia]. }
  assert (∃ new,
    FAISSRetriever.retrieve_loop self env athlete_name top_k min_similarity hits acc
    = acc ++ new
    ∧ Forall (λ r, float_lt (FAISSRetriever.similarity r) min_similarity = false
                ∧ ∃ idx0 d,
                    (FAISSRetriever.similarity r, idx0) ∈ (sim, idx) :: hits
                    ∧ FAISSRetriever.faiss_id_to_metadata_id self !! idx0
                      = Some (md_id d)
                    ∧ d ∈ metadata_collection (mongo env)
                    ∧ FAISSRetriever.text r = md_text d
                    ∧ FAISSRetriever.athlete_name r = md_athlete_name d
                    ∧ FAISSRetriever.source_doc_id (FAISSRetriever.metadata r)
                      = dict_get (md_metadata d) "source_doc_id") new
    ∧ Z.of_nat (length (acc ++ new)) ≤ Z.max (Z.of_nat (length acc) + 1) top_k)
    as Hskip.
  { destruct (IH acc) as (new & Hout & Hres & Hlen).
    exists new. split_and!; try done.
    eapply Forall_impl; [exact Hres|].
    intros r (Hsim & idx0 & d & Hhit & Hrest).
    split; [done|]. exists idx0, d. split; [by apply list_elem_of_further|done]. }
  simpl FAISSRetriever.retrieve_loop.
  destruct (float_lt sim min_similarity) eqn:Hsim; [done|].
  destruct (FAISSRetriever.faiss_id_to_metadata_id self !! idx) as [oid|] eqn:Hoid;
    [|done].
  destruct (find_by_id _ oid) as [d|] eqn:Hd; [|done].
  destruct (opt_truthy athlete_name && _); [done|].
  match goal with
  | |- context [acc ++ [?x]] => set (r := x)
  end.
  assert (d ∈ metadata_collection (mongo env) ∧ md_id d = oid) as [Hin Hid].
  { unfold find_by_id in Hd. apply List.find_some in Hd as [Hin Hid].
    split; [by apply list_elem_of_In|by apply bool_decide_eq_true in Hid]. }
  assert (float_lt (FAISSRetriever.similarity r) min_similarity = false
          ∧ ∃ idx0 d0,
              (FAISSRetriever.similarity r, idx0) ∈ (sim, idx) :: hits
              ∧ FAISSRetriever.faiss_id_to_metadata_id self !! idx0
                = Some (md_id d0)
              ∧ d0 ∈ metadata_collection (mongo env)
              ∧ FAISSRetriever.text r = md_text d0
              ∧ FAISSRetriever.athlete_name r = md_athlete_name d0
              ∧ FAISSRetriever.source_doc_id (FAISSRetriever.metadata r)
                = dict_get (md_metadata d0) "source_doc_id") as Hr.
  { split; [done|]. exists idx, d. rewrite Hid.
    split_and!; try done. apply list_elem_of_here. }
  destruct (Z.geb_spec (Z.of_nat (length (acc ++ [r]))) top_k) as [Hfull|Hmore].
  - exists [r]. split_and!; [done|by apply Forall_singleton|].
    rewrite length_app. simpl. lia.
  - destruct (IH (acc ++ [r])) as (new & Hout & Hres & Hlen).
    exists (r :: new). rewrite Hout, <- (assoc_L (++)). simpl.
    split_and!; [done| |].
    + apply Forall_cons. split; [done|].
      eapply Forall_impl; [exact Hres|].
      intros r0 (Hsim0 & idx0 & d0 & Hhit & Hrest).
      split; [done|]. exists idx0, d0.
      split; [by apply list_elem_of_further|done].
    + rewrite <- (assoc_L (++)) in Hlen. cbn [app] in Hlen.
      rewrite length_app in Hmore. rewrite (length_app acc [r]) in Hlen.
      rewrite length_app in Hlen. rewrite length_app.
      cbn [length] in *. lia.
Qed.

(** X10.  For [top_k >= 1], [retrieve] returns at most [top_k] results when
    the model embeds the query, and raises what the model raises otherwise.
    No result has a similarity below [min_similarity]; each is a hit of the
    FAISS search whose id the mapping sends to a document of the collection,
    and carries that document's text, athlete and source document. *)
Theorem retrieve_results (self : FAISSRetriever.t) (env : Env) (query : string)
    (athlete_name : option string) (top_k : Z) (min_similarity : float) :
  1 ≤ top_k →
  match EmbeddingGenerator.encode_one (FAISSRetriever.embedder self) query with
  | inl e =>
      FAISSRetriever.retrieve self env query athlete_name top_k min_similarity
      = inl e
  | inr query_embedding =>
      ∃ results,
        FAISSRetriever.retrieve self env query athlete_name top_k min_similarity
        = inr results
        ∧ Z.of_nat (length results) ≤ top_k
        ∧ Forall (λ r,
            float_lt (FAISSRetriever.similarity r) min_similarity = false
            ∧ ∃ idx d,
                (FAISSRetriever.similarity r, idx)
                ∈ IndexFlatIP_search (FAISSRetriever.index self)
                    (normalize_L2 query_embedding)
                    (FAISSRetriever.search_k athlete_name top_k)
                ∧ FAISSRetriever.faiss_id_to_metadata_id self !! idx
                  = Some (md_id d)
                ∧ d ∈ metadata_collection (mongo env)
                ∧ FAISSRetriever.text r = md_text d
                ∧ FAISSRetriever.athlete_name r = md_athlete_name d
                ∧ FAISSRetriever.source_doc_id (FAISSRetriever.metadata r)
                  = dict_get (md_metadata d) "source_doc_id") results
  end.
Proof.
  intros Hk. unfold FAISSRetriever.retrieve.
  destruct (EmbeddingGenerator.encode_one _ query) as [e|q]; [done|].
  destruct (retrieve_loop_spec self env athlete_name top_k min_similarity
              (IndexFlatIP_search (FAISSRetriever.index self) (normalize_L2 q)
                 (FAISSRetriever.search_k athlete_name top_k)) [])
    as (new & Hout & Hres & Hlen).
  exists new. simpl in *. split_and!; [by rewrite Hout|lia|done].
Qed.

End SearchResults.

Lemma search_similar_results_witness :
  Z.of_nat (length (VectorStore.search_similar (H := Demo.int_faiss)
                      Demo.indexed.1.2 Demo.indexed.2 [1; 0] None 2)) ≤ 2.
Proof.
  pose proof (search_similar_results (H := Demo.int_faiss)
                Demo.indexed.1.2 Demo.indexed.2 [1; 0] None 2) as Hw.
  cbv zeta in Hw. destruct Hw as [Hlen _]; [lia|exact Hlen].
Defined.

Lemma retrieve_results_witness :
  ∃ results,
    FAISSRetriever.retrieve (H := Demo.int_faiss) Demo.retriever Demo.indexed.2
      "axel" None 2 0 = inr results
    ∧ Z.of_nat (length results) ≤ 2.
Proof.
  pose proof (retrieve_results (H := Demo.int_faiss) Demo.retriever
                Demo.indexed.2 "axel" None 2 0) as Hw.
  change (EmbeddingGenerator.encode_one (H := Demo.int_faiss)
            (FAISSRetriever.embedder Demo.retriever) "axel")
    with (@inr PyExn (list Z) [4; 1]) in Hw.
  destruct Hw as (results & Hrun & Hlen & _); [lia|].
  exists results. split; [exact Hrun|exact Hlen].
Defined.

(** ** Deleting an athlete's chunks *)

Section Deletion.
Context `{Faiss}.
Import AthleteIndexingPipeline.

Lemma filter_length_split {A} (f : A → bool) (l : list A) :
  length l = (length (List.filter f l) + length (List.filter (λ x, negb (f x)) l))%nat.
Proof.
  induction l as [|x l IH]; [done|]. simpl. destruct (f x); simpl; lia.
Qed.

Lemma filter_ext_in {A} (f g : A → bool) (l : list A) :
  (∀ x, x ∈ l → f x = g x) → List.filter f l = List.filter g l.
Proof.
  intros Hfg. apply List.filter_ext_in. intros x Hx. apply Hfg.
  by apply list_elem_of_In.
Qed.

Lemma List_filter_all {A} (f : A → bool) (l : list A) :
  (∀ x, x ∈ l → f x = true) → List.filter f l = l.
Proof.
  induction l as [|x l IH]; intros Hall; [done|]. simpl.
  rewrite (Hall x) by apply list_elem_of_here. f_equal.
  apply IH. intros y Hy. apply Hall. by apply list_elem_of_further.
Qed.

Lemma filter_filter_implied {A} (f g : A → bool) (l : list A) :
  (∀ x, f x = true → g x = true) →
  List.filter f (List.filter g l) = List.filter f l.
Proof.
  intros Hfg. induction l as [|x l IH]; [done|]. simpl.
  destruct (g x) eqn:Hg; simpl.
  - destruct (f x); by rewrite IH.
  - destruct (f x) eqn:Hf; [|done]. apply Hfg in Hf. congruence.
Qed.

Lemma delete_docs self env name d :
  d ∈ metadata_collection (mongo (VectorStore.delete_athlete_chunks self env name).2)
  ↔ d ∈ metadata_collection (mongo env) ∧ md_athlete_name d ≠ VStr name.
Proof.
  simpl. rewrite elem_of_List_filter, negb_true_iff, bool_decide_eq_false. done.
Qed.

Lemma match_filter_name (E : string) d :
  E ≠ "" →
  VectorStore.match_filter (Some E) d = bool_decide (md_athlete_name d = VStr E).
Proof.
  intros HE. unfold VectorStore.match_filter. rewrite opt_truthy_Some by done.
  simpl. apply bool_decide_ext. split; congruence.
Qed.

Lemma total_chunks_all self env :
  VectorStore.total_chunks (VectorStore.get_stats self env None)
  = Z.of_nat (length (metadata_collection (mongo env))).
Proof.
  unfold VectorStore.get_stats. cbn [VectorStore.total_chunks].
  by rewrite List_filter_all.
Qed.

Lemma total_chunks_athlete self env (E : string) :
  E ≠ "" →
  VectorStore.total_chunks (VectorStore.get_stats self env (Some E))
  = athlete_count (metadata_collection (mongo env)) (VStr E).
Proof.
  intros HE. unfold VectorStore.get_stats, athlete_count.
  cbn [VectorStore.total_chunks]. do 2 f_equal.
  apply filter_ext_in. intros d _. by apply match_filter_name.
Qed.

Lemma delete_count self env name :
  (VectorStore.delete_athlete_chunks self env name).1
  = athlete_count (metadata_collection (mongo env)) (VStr name).
Proof. reflexivity. Qed.

Lemma delete_removes_all self env name :
  athlete_count
    (metadata_collection (mongo (VectorStore.delete_athlete_chunks self env name).2))
    (VStr name) = 0.
Proof.
  unfold athlete_count. cbn [VectorStore.delete_athlete_chunks snd mongo
                              metadata_collection].
  rewrite List_filter_nil; [done|].
  intros d [_ Hd]%elem_of_List_filter. by apply negb_true_iff in Hd.
Qed.

(** X11.  [delete_athlete_chunks] removes the metadata documents of the
    athlete and nothing else: it returns their number (the [total_chunks] the
    statistics showed for the athlete), the statistics of the whole store
    show that many chunks less while the number of vectors stays, no document
    of the athlete counts as indexed any more, the indexed documents of the
    other athletes are as before, the files and the source collection are not
    touched, and a second call deletes nothing. *)
Theorem delete_athlete_chunks_effect (self : VectorStore.t) (env : Env)
    (name : string) :
  name ≠ "" →
  let deleted := (VectorStore.delete_athlete_chunks self env name).1 in
  let env' := (VectorStore.delete_athlete_chunks self env name).2 in
  deleted = VectorStore.total_chunks (VectorStore.get_stats self env (Some name))
  ∧ VectorStore.total_chunks (VectorStore.get_stats self env' None)
    = VectorStore.total_chunks (VectorStore.get_stats self env None) - deleted
  ∧ VectorStore.faiss_vectors (VectorStore.get_stats self env' None)
    = VectorStore.faiss_vectors (VectorStore.get_stats self env None)
  ∧ VectorStore.total_chunks (VectorStore.get_stats self env' (Some name)) = 0
  ∧ VectorStore.get_indexed_doc_ids env' name = ∅
  ∧ (∀ other, other ≠ name →
       VectorStore.get_indexed_doc_ids env' other
       = VectorStore.get_indexed_doc_ids env other)
  ∧ disk env' = disk env
  ∧ source_collection (mongo env') = source_collection (mongo env)
  ∧ VectorStore.delete_athlete_chunks self env' name = (0, env').
Proof.
  intros Hname deleted env'.
  pose proof (delete_removes_all self env name) as Hnone. fold env' in Hnone.
  split_and!.
  - subst deleted. by rewrite delete_count, total_chunks_athlete.
  - rewrite !total_chunks_all. subst deleted env'. rewrite delete_count.
    unfold athlete_count.
    cbn [VectorStore.delete_athlete_chunks snd mongo metadata_collection].
    pose proof (filter_length_split
                  (λ d, bool_decide (md_athlete_name d = VStr name))
                  (metadata_collection (mongo env))).
    lia.
  - done.
  - by rewrite total_chunks_athlete.
  - unfold VectorStore.get_indexed_doc_ids. cbv zeta.
    unfold athlete_count in Hnone.
    apply Nat2Z.inj_iff with (m := 0%nat) in Hnone.
    apply nil_length_inv in Hnone. by rewrite Hnone.
  - intros other Hother. unfold VectorStore.get_indexed_doc_ids. cbv zeta.
    subst env'.
    cbn [VectorStore.delete_athlete_chunks snd mongo metadata_collection].
    rewrite filter_filter_implied; [done|].
    intros d Hd%bool_decide_eq_true. apply negb_true_iff, bool_decide_eq_false.
    rewrite Hd. congruence.
  - done.
  - done.
  - unfold athlete_count in Hnone.
    apply Nat2Z.inj_iff with (m := 0%nat) in Hnone.
    apply nil_length_inv in Hnone.
    unfold VectorStore.delete_athlete_chunks at 1. rewrite Hnone.
    cbn [length]. f_equal.
    rewrite List_filter_all.
    + by destruct env' as [[] ? ?].
    + intros d Hd. subst env'. apply delete_docs in Hd as [_ Hd].
      by apply negb_true_iff, bool_decide_eq_false.
Qed.

(** X12.  Once [delete_athlete_chunks] has run for an athlete, no search
    returns a chunk of that athlete, with or without a filter and whatever
    the index still holds, neither [search_similar] nor [retrieve]; and the
    next [fetch_documents] with [skip_indexed] loads every passage of the
    athlete again, as it does without [skip_indexed]. *)
Theorem deleted_chunks_not_found (self : VectorStore.t)
    (retriever : FAISSRetriever.t) (pipeline : AthleteIndexingPipeline.t)
    (env : Env) (name : string) (query_embedding : list float) (query : string)
    (athlete_name : option string) (top_k : Z) (min_similarity : float) :
  let env' := (VectorStore.delete_athlete_chunks self env name).2 in
  Forall (λ r, md_athlete_name (VectorStore.sr_chunk r) ≠ VStr name)
    (VectorStore.search_similar self env' query_embedding athlete_name top_k)
  ∧ (∀ results,
       FAISSRetriever.retrieve retriever env' query athlete_name top_k
         min_similarity = inr results →
       Forall (λ r, FAISSRetriever.athlete_name r ≠ VStr name) results)
  ∧ fetch_documents pipeline env' name true
    = fetch_documents pipeline env name false.
Proof.
  intros env'. split_and!.
  - unfold VectorStore.search_similar. destruct (_ =? 0); [done|].
    unfold py_slice. apply Forall_take, Forall_drop.
    destruct (search_loop_spec self env' athlete_name top_k
                (IndexFlatIP_search (VectorStore.index self)
                   (normalize_L2 query_embedding)
                   (VectorStore.search_k self athlete_name top_k)) [])
      as (new & -> & _ & Hres & _).
    simpl. eapply Forall_impl; [exact Hres|].
    intros r (_ & oid & _ & Hd). simpl in Hd.
    unfold find_by_id in Hd. apply List.find_some in Hd as [Hd _].
    apply list_elem_of_In in Hd. by apply delete_docs in Hd as [_ Hd].
  - intros results. unfold FAISSRetriever.retrieve.
    destruct (EmbeddingGenerator.encode_one _ query) as [e|q]; [done|].
    intros [= <-].
    destruct (retrieve_loop_spec retriever env' athlete_name top_k min_similarity
                (IndexFlatIP_search (FAISSRetriever.index retriever)
                   (normalize_L2 q)
                   (FAISSRetriever.search_k athlete_name top_k)) [])
      as (new & -> & Hres & _).
    simpl. eapply Forall_impl; [exact Hres|].
    intros r (_ & idx & d & _ & _ & Hd & _ & -> & _). simpl.
    by apply delete_docs in Hd as [_ Hd].
  - rewrite !fetch_documents_passages.
    pose proof (delete_removes_all self env name) as Hnone. fold env' in Hnone.
    unfold athlete_count in Hnone.
    apply Nat2Z.inj_iff with (m := 0%nat) in Hnone.
    apply nil_length_inv in Hnone.
    assert (VectorStore.get_indexed_doc_ids env' name = ∅) as ->.
    { unfold VectorStore.get_indexed_doc_ids. cbv zeta. by rewrite Hnone. }
    by rewrite bool_decide_eq_true_2.
Qed.

End Deletion.

Lemma delete_athlete_chunks_effect_witness :
  (VectorStore.delete_athlete_chunks (H := Demo.int_faiss)
     Demo.indexed.1.2 Demo.indexed.2 "A").1
  = VectorStore.total_chunks
      (VectorStore.get_stats (H := Demo.int_faiss)
         Demo.indexed.1.2 Demo.indexed.2 (Some "A")).
Proof.
  pose proof (delete_athlete_chunks_effect (H := Demo.int_faiss)
                Demo.indexed.1.2 Demo.indexed.2 "A") as Hw.
  cbv zeta in Hw. destruct Hw as [Hcount _]; [done|exact Hcount].
Defined.

(** ** Rebuilding the index *)

Section Rebuild.
Context `{Faiss}.
Import AthleteIndexingPipeline.

(** X13.  [rebuild_index] leaves an empty store: the object is the one the
    constructor starts from, every search returns nothing and, when the two
    writes of its save are accepted, a new [VectorStore] opened on the files
    is that object.  The metadata documents are all kept, so the statistics
    still count them while they show no vector, and [fetch_documents] still
    skips the documents they come from.  A warning is logged exactly when
    there are metadata documents. *)
Theorem rebuild_index_effect (self : VectorStore.t)
    (pipeline : AthleteIndexingPipeline.t) (env : Env) (name : string)
    (query_embedding : list float) (athlete_name : option string) (top_k : Z) :
  let self' := (VectorStore.rebuild_index self env).1.1 in
  let env' := (VectorStore.rebuild_index self env).1.2 in
  let log := (VectorStore.rebuild_index self env).2 in
  self' = VectorStore.fresh (VectorStore.embedding_dimension self)
  ∧ (writes_succeed (disk env) →
     (VectorStore.init (VectorStore.embedding_dimension self) (disk env')).1 = self')
  ∧ VectorStore.search_similar self' env' query_embedding athlete_name top_k = []
  ∧ mongo env' = mongo env
  ∧ VectorStore.total_chunks (VectorStore.get_stats self' env' None)
    = VectorStore.total_chunks (VectorStore.get_stats self env None)
  ∧ VectorStore.faiss_vectors (VectorStore.get_stats self' env' None) = 0
  ∧ fetch_documents pipeline env' name true = fetch_documents pipeline env name true
  ∧ (warned log ↔ metadata_collection (mongo env) ≠ []).
Proof.
  intros self' env' log.
  assert (self' = VectorStore.fresh (VectorStore.embedding_dimension self)
          ∧ mongo env' = mongo env ∧ clock env' = clock env
          ∧ disk env' = (VectorStore._save_index self' (disk env)).1)
    as (Hself & Hmongo & Hclock & Hdisk).
  { subst self' env'. unfold VectorStore.rebuild_index.
    by destruct (metadata_collection (mongo env)). }
  assert (¬ warned (VectorStore._save_index
                      (VectorStore.fresh (VectorStore.embedding_dimension self))
                      (disk env)).2) as Hsaved.
  { intros (r & Hr & Hlevel). unfold VectorStore._save_index in Hr.
    destruct (write_faults (disk env)) as [|[w|] [|[w'|] faults]]; simpl in Hr;
      apply list_elem_of_singleton in Hr; by subst. }
  split_and!.
  - done.
  - intros Hok. rewrite Hdisk, Hself.
    exact (f_equal fst
             (init_after_save
                (VectorStore.fresh (VectorStore.embedding_dimension self))
                (disk env) Hok)).
  - by rewrite Hself.
  - done.
  - unfold VectorStore.get_stats. cbn [VectorStore.total_chunks].
    by rewrite Hmongo.
  - by rewrite Hself.
  - unfold fetch_documents, VectorStore.get_indexed_doc_ids.
    by rewrite Hmongo, Hclock.
  - subst log. unfold VectorStore.rebuild_index.
    destruct (metadata_collection (mongo env)) as [|d docs]; cbn [snd].
    + split; [|done]. intros (r & Hr & Hlevel).
      apply elem_of_cons in Hr as [->|Hr]; [done|].
      apply elem_of_cons in Hr as [->|Hr]; [done|].
      exfalso. apply Hsaved. by exists r.
    + split; [done|]. intros _. eexists.
      split; [apply list_elem_of_further, list_elem_of_here|done].
Qed.

End Rebuild.

(** ** Normalisation, in exact arithmetic *)

Section ExactFacts.
Import Reals Lra Exact.








End ExactFacts.

Section ExactStore.
Import Reals Lra Exact EmbeddingGenerator.
Variable search : list (list R) → list R → Z → list (R * Z).



End ExactStore.

Section ExactRuns.
Import Reals Lra.





End ExactRuns.

(** ** The outcome of an indexing run *)

Section Outcomes.
Context `{Faiss}.
Import AthleteIndexingPipeline.



End Outcomes.


(** ** Embedding the chunks, and the statistics *)

Section Embedding.
Context `{Faiss}.
Import EmbeddingGenerator.

Lemma zip_with_enriched (self : EmbeddingGenerator.t) chunks embeddings :
  let enrich c e := {| chunk := c; embedding := e;
                       embedding_model := model_name self;
                       embedding_dimension := dimension self |} in
  chunk <$> zip_with enrich chunks embeddings = take (length embeddings) chunks
  ∧ embedding <$> zip_with enrich chunks embeddings = take (length chunks) embeddings.
Proof.
  intros enrich. revert embeddings.
  induction chunks as [|c chunks IH]; intros [|e embeddings]; try done.
  cbn [zip_with length take]. rewrite !fmap_cons.
  destruct (IH embeddings) as [-> ->]. done.
Qed.

(** X15.  [embed_chunks] returns the empty list for no chunks, without
    asking the model; it raises what the model raises; and it pairs the
    chunks with the embeddings the model returns by position, in order,
    stopping at the shorter of the two lists, each result carrying the name
    of the model and its dimension. *)
Theorem embed_chunks_result (self : EmbeddingGenerator.t) (chunks : list ChunkDict) :
  (chunks = [] → embed_chunks self chunks = inr [])
  ∧ (∀ e, chunks ≠ [] → encode (model self) (map text chunks) = inl e →
       embed_chunks self chunks = inl e)
  ∧ (∀ embeddings, chunks ≠ [] →
       encode (model self) (map text chunks) = inr embeddings →
       ∃ enriched,
         embed_chunks self chunks = inr enriched
         ∧ chunk <$> enriched = take (length embeddings) chunks
         ∧ embedding <$> enriched = take (length chunks) embeddings
         ∧ Forall (λ c, embedding_model c = model_name self
                        ∧ embedding_dimension c = dimension self) enriched).
Proof.
  split_and!.
  - by intros ->.
  - intros e Hne Hencode. unfold embed_chunks, embed_batch.
    destruct chunks as [|c chunks]; [done|].
    cbn [map] in *. by rewrite Hencode.
  - intros embeddings Hne Hencode. unfold embed_chunks, embed_batch.
    destruct chunks as [|c chunks]; [done|].
    remember (c :: chunks) as cs eqn:Hcs.
    assert (map text cs = text c :: map text chunks) as Htexts by (by subst).
    rewrite Htexts. rewrite Htexts in Hencode. rewrite Hencode.
    eexists. split; [done|].
    destruct (zip_with_enriched self cs embeddings) as [Hchunks Hembeddings].
    split_and!; [exact Hchunks|exact Hembeddings|].
    clear. revert embeddings.
    induction cs as [|c0 cs IH]; intros [|e0 embeddings]; simpl; try done.
    apply Forall_cons. split; [done|apply IH].
Qed.

End Embedding.

Section Statistics.
Context `{Faiss}.

Lemma athlete_count_cons d docs v :
  athlete_count (d :: docs) v
  = athlete_count docs v + (if decide (md_athlete_name d = v) then 1 else 0).
Proof.
  unfold athlete_count. simpl. case_bool_decide; case_decide; try done.
  - cbn [length]. lia.
  - lia.
Qed.

Lemma athlete_count_nonneg docs v : 0 ≤ athlete_count docs v.
Proof. unfold athlete_count. lia. Qed.

Lemma group_by_athlete_lookup docs v :
  VectorStore.group_by_athlete docs !! v
  = if decide (athlete_count docs v = 0) then None
    else Some (athlete_count docs v).
Proof.
  induction docs as [|d docs IH]; [done|].
  unfold VectorStore.group_by_athlete. cbn [foldr].
  fold (VectorStore.group_by_athlete docs).
  rewrite athlete_count_cons. pose proof (athlete_count_nonneg docs v).
  destruct (decide (md_athlete_name d = v)) as [Hv|Hv].
  - rewrite Hv, lookup_insert_eq, IH.
    rewrite (decide_False (P := athlete_count docs v + 1 = 0)) by lia.
    case_decide as Hc; simpl; f_equal; lia.
  - rewrite lookup_insert_ne by done. rewrite IH, Z.add_0_r. done.
Qed.

Lemma group_total_insert groups a :
  group_total (<[a := default 0 (groups !! a) + 1]> groups)
  = group_total groups + 1.
Proof.
  unfold group_total.
  assert (∀ (m : gmap PyVal Z) (j1 j2 : PyVal) (z1 z2 y : Z),
            j1 ≠ j2 → m !! j1 = Some z1 → m !! j2 = Some z2 →
            z1 + (z2 + y) = z2 + (z1 + y)) as Hcomm by (intros; lia).
  destruct (groups !! a) as [x|] eqn:Ha; simpl.
  - rewrite <- (insert_delete_eq groups a (x + 1)).
    rewrite map_fold_insert_L; [|by eauto|by rewrite lookup_delete_eq].
    rewrite (map_fold_delete_L _ _ a x groups); [lia|by eauto|done].
  - rewrite map_fold_insert_L; [lia|by eauto|done].
Qed.

Lemma group_total_length docs :
  group_total (VectorStore.group_by_athlete docs) = Z.of_nat (length docs).
Proof.
  induction docs as [|d docs IH]; [done|].
  unfold VectorStore.group_by_athlete. cbn [foldr].
  fold (VectorStore.group_by_athlete docs).
  rewrite group_total_insert, IH. cbn [length]. lia.
Qed.

Lemma athlete_count_matched (E : string) docs v :
  E ≠ "" →
  athlete_count (List.filter (VectorStore.match_filter (Some E)) docs) v
  = if decide (v = VStr E) then athlete_count docs (VStr E) else 0.
Proof.
  intros HE. unfold athlete_count.
  rewrite (filter_ext_in (VectorStore.match_filter (Some E))
             (λ d, bool_decide (md_athlete_name d = VStr E)))
    by (intros d _; by apply match_filter_name).
  case_decide as Hv.
  - subst v. by rewrite filter_filter_implied.
  - rewrite List_filter_nil; [done|].
    intros d [_ Hd%bool_decide_eq_true]%elem_of_List_filter.
    apply bool_decide_eq_false. congruence.
Qed.

(** X16.  The statistics of [get_stats].  Without a filter the groups
    under [athletes] hold, for every athlete with at least one document, the
    number of its documents, and no other group; with or without a filter the
    counts of the groups add up to [total_chunks]; with a non-empty filter
    the only group is the one of that athlete, when it has a document; and
    the empty string as a filter is no filter. *)
Theorem get_stats_groups (self : VectorStore.t) (env : Env) :
  let docs := metadata_collection (mongo env) in
  (∀ v, VectorStore.athletes (VectorStore.get_stats self env None) !! v
        = if decide (athlete_count docs v = 0) then None
          else Some (athlete_count docs v))
  ∧ (∀ athlete_name,
       group_total (VectorStore.athletes (VectorStore.get_stats self env athlete_name))
       = VectorStore.total_chunks (VectorStore.get_stats self env athlete_name))
  ∧ (∀ (E : string) v, E ≠ "" →
       VectorStore.athletes (VectorStore.get_stats self env (Some E)) !! v
       = if decide (v = VStr E ∧ athlete_count docs (VStr E) ≠ 0)
         then Some (athlete_count docs (VStr E)) else None)
  ∧ VectorStore.get_stats self env (Some "") = VectorStore.get_stats self env None.
Proof.
  intros docs. split_and!.
  - intros v. unfold VectorStore.get_stats. cbn [VectorStore.athletes].
    rewrite List_filter_all by done. apply group_by_athlete_lookup.
  - intros athlete_name. unfold VectorStore.get_stats.
    cbn [VectorStore.athletes VectorStore.total_chunks].
    apply group_total_length.
  - intros E v HE. unfold VectorStore.get_stats. cbn [VectorStore.athletes].
    rewrite group_by_athlete_lookup, athlete_count_matched by done.
    fold docs. destruct (decide (v = VStr E)) as [->|Hv].
    + case_decide as Hc.
      * rewrite decide_False; [done|]. by intros [_ ?].
      * by rewrite decide_True.
    + rewrite decide_True by done. rewrite decide_False; [done|]. by intros [? _].
  - reflexivity.
Qed.

End Statistics.
